(** * getrack: opportunity analysis and portfolio construction

    A shallow embedding of the trading calculations library
    ([src/lib/calculations.ts], found in the tree as the second part of
    [src/lib/database.ts]) and of the two analysis entry points of
    [src/server/services/price-service.ts], [getFlipOpportunities] and
    [getPortfolioSuggestion].  Around them it embeds what feeds and what
    calls them: the volume request [fetchVolumeData], the synchronisation
    of the item, price and price history tables ([syncItems],
    [syncPrices], [syncHistoricalPrices]), the two routes of
    [src/server/routes/api.ts] that serve the analysis, and the
    statistics and the chart of the item detail view.

    Numbers.  A JavaScript [number] is modelled by [number]: an exact
    rational, or one of the three IEEE special values [+Infinity],
    [-Infinity] and [NaN].  Arithmetic on finite values is exact: the
    rounding of IEEE doubles is not modelled, and neither is the sign of
    zero (the divisor [0] behaves as [+0]).  The special values follow the
    IEEE rules the source relies on ([0/0] is [NaN], a comparison with
    [NaN] is false, [Math.min] of a list holding [NaN] is [NaN]).
    [Math.sqrt] has no exact rational counterpart; the definitions that
    need it take it as a section variable.

    Collaborators.  The rows read from the database and the volumes
    fetched from the price API are arguments of the functions that use
    them; [new Date()] is an argument as well.  The synchronisation works
    on the tables themselves: the item table is a finite map from ids to
    rows, the price tables are lists of records in the order of their
    creation, and the answers of the price API are arguments, each
    request taken to succeed unless its failure is modelled ([None]). *)

From Stdlib Require Import ZArith QArith Qround Qminmax Lia Lqa List
  Sorting.Sorted Sorting.Permutation Strings.String.
From stdpp Require Import base option list gmap.
Import ListNotations.

(** ** JavaScript numbers *)

Inductive number : Type :=
| Fin (q : Q)
| PInf
| NInf
| NaN.

Declare Scope js_scope.
Delimit Scope js_scope with js.
Bind Scope js_scope with number.

(** An integer literal. *)
Definition num (z : Z) : number := Fin (inject_Z z).

Definition Qltb (p q : Q) : bool := negb (Qle_bool q p).

Definition nneg (x : number) : number :=
  match x with
  | Fin q => Fin (- q)
  | PInf => NInf
  | NInf => PInf
  | NaN => NaN
  end.

Definition nadd (x y : number) : number :=
  match x, y with
  | NaN, _ | _, NaN => NaN
  | Fin p, Fin q => Fin (p + q)
  | PInf, NInf | NInf, PInf => NaN
  | PInf, _ | _, PInf => PInf
  | NInf, _ | _, NInf => NInf
  end.

Definition nsub (x y : number) : number := nadd x (nneg y).

(** The infinity of the sign of [q], as seen from a positive infinity;
    [0 * Infinity] is [NaN]. *)
Definition inf_times (q : Q) : number :=
  match (q ?= 0)%Q with
  | Gt => PInf
  | Lt => NInf
  | Eq => NaN
  end.

Definition nmul (x y : number) : number :=
  match x, y with
  | NaN, _ | _, NaN => NaN
  | Fin p, Fin q => Fin (p * q)
  | PInf, Fin q | Fin q, PInf => inf_times q
  | NInf, Fin q | Fin q, NInf => nneg (inf_times q)
  | PInf, PInf | NInf, NInf => PInf
  | PInf, NInf | NInf, PInf => NInf
  end.

Definition ndiv (x y : number) : number :=
  match x, y with
  | NaN, _ | _, NaN => NaN
  | Fin p, Fin q =>
      if Qeq_bool q 0 then inf_times p else Fin (p / q)
  | Fin _, (PInf | NInf) => Fin 0
  | PInf, Fin q => if Qltb q 0 then NInf else PInf
  | NInf, Fin q => if Qltb q 0 then PInf else NInf
  | (PInf | NInf), (PInf | NInf) => NaN
  end.

(** [x <= y]; false as soon as one side is [NaN]. *)
Definition nle (x y : number) : bool :=
  match x, y with
  | NaN, _ | _, NaN => false
  | Fin p, Fin q => Qle_bool p q
  | NInf, _ | _, PInf => true
  | PInf, _ | _, NInf => false
  end.

(** [x < y]; false as soon as one side is [NaN]. *)
Definition nlt (x y : number) : bool :=
  match x, y with
  | NaN, _ | _, NaN => false
  | Fin p, Fin q => Qltb p q
  | PInf, _ | _, NInf => false
  | NInf, _ | _, PInf => true
  end.

Definition nge (x y : number) : bool := nle y x.
Definition ngt (x y : number) : bool := nlt y x.

(** Strict equality [x === y] on numbers. *)
Definition nseq (x y : number) : bool :=
  match x, y with
  | Fin p, Fin q => Qeq_bool p q
  | PInf, PInf | NInf, NInf => true
  | _, _ => false
  end.

Infix "+" := nadd : js_scope.
Infix "-" := nsub : js_scope.
Infix "*" := nmul : js_scope.
Infix "/" := ndiv : js_scope.
Infix "<?" := nlt : js_scope.
Infix "<=?" := nle : js_scope.
Infix ">?" := ngt : js_scope.
Infix ">=?" := nge : js_scope.
Notation "x === y" := (nseq x y) (at level 70, no associativity) : js_scope.

(** Truthiness of a number: [0] and [NaN] are falsy. *)
Definition truthy (x : number) : bool :=
  match x with
  | Fin q => negb (Qeq_bool q 0)
  | NaN => false
  | PInf | NInf => true
  end.

(** [x || d] on numbers. *)
Definition or_else (x d : number) : number := if truthy x then x else d.

Definition Math_floor (x : number) : number :=
  match x with
  | Fin q => Fin (inject_Z (Qfloor q))
  | _ => x
  end.

Definition min2 (x y : number) : number :=
  match x, y with
  | NaN, _ | _, NaN => NaN
  | _, _ => if nle x y then x else y
  end.

Definition max2 (x y : number) : number :=
  match x, y with
  | NaN, _ | _, NaN => NaN
  | _, _ => if nle x y then y else x
  end.

(** [Math.min(...)] and [Math.max(...)] are variadic. *)
Definition Math_min (args : list number) : number := fold_left min2 args PInf.
Definition Math_max (args : list number) : number := fold_left max2 args NInf.

(** [Math.pow(x, 2)]. *)
Definition Math_pow2 (x : number) : number := (x * x)%js.

Definition MAX_SAFE_INTEGER : number := num 9007199254740991.

(** [arr.length] as a number. *)
Definition nlength {A} (l : list A) : number := num (Z.of_nat (length l)).

(** [arr.reduce(f, init)]. *)
Definition reduce {A B} (f : B -> A -> B) (init : B) (l : list A) : B :=
  fold_left f l init.

(** Structural agreement of two numbers: rationals up to [Qeq], special
    values up to identity (so [NaN] agrees with [NaN], unlike [===]). *)
Definition numeq (x y : number) : Prop :=
  match x, y with
  | Fin p, Fin q => (p == q)%Q
  | PInf, PInf | NInf, NInf | NaN, NaN => True
  | _, _ => False
  end.

Definition isFinite (x : number) : bool :=
  match x with
  | Fin _ => true
  | _ => false
  end.

(** ** Calculations library ([src/lib/calculations.ts]) *)

Definition GE_TAX_RATE : number := Fin 0.02.
Definition MAX_GE_TAX : number := num 5000000.

Definition MIN_VOLUME_THRESHOLDS_HOURLY : number := num 50.
Definition MIN_VOLUME_THRESHOLDS_DAILY : number := num 1200.

Definition VOLATILITY_THRESHOLDS_LOW : number := num 5.
Definition VOLATILITY_THRESHOLDS_MEDIUM : number := num 15.
Definition VOLATILITY_THRESHOLDS_HIGH : number := num 20.
Definition VOLATILITY_THRESHOLDS_EXTREME : number := num 30.

Definition PRICE_SPIKE_THRESHOLDS_HIGH_MULTIPLIER : number := Fin 1.5.
Definition PRICE_SPIKE_THRESHOLDS_LOW_MULTIPLIER : number := Fin 0.5.

Definition MAX_MARGIN_PERCENT : number := num 1000.

Definition calculateMargin (high low : number) : number := (high - low)%js.

Definition calculateMarginPercent (margin low : number) : number :=
  if (low === num 0)%js then num 0 else ((margin / low) * num 100)%js.

Definition calculateROI (profit cost : number) : number :=
  if (cost === num 0)%js then num 0 else ((profit / cost) * num 100)%js.

Definition calculateGETax (sellPrice : number) : number :=
  let tax := Math_floor (sellPrice * GE_TAX_RATE)%js in
  Math_min [Math_max [tax; num 1]; MAX_GE_TAX].

Definition calculateProfitAfterTax (margin high quantity : number) : number :=
  let taxPerItem := calculateGETax high in
  let profitPerItem := (margin - taxPerItem)%js in
  (profitPerItem * quantity)%js.

(** [recentHighs.slice(1).reduce(...) / (recentHighs.length - 1)] in
    [detectPriceAnomalies], and the sums of [calculateVolatility]. *)
Definition sum_prices (prices : list number) : number :=
  reduce (fun sum price => (sum + price)%js) (num 0) prices.

Section Volatility.

  (** [Math.sqrt], left abstract. *)
Variable Math_sqrt : number -> number.

Definition calculateVolatility (prices : list number) : number :=
    if (length prices <? 2)%nat then num 0
    else
      let mean := (sum_prices prices / nlength prices)%js in
      let variance :=
        (reduce (fun sum price => sum + Math_pow2 (price - mean)) (num 0) prices
         / nlength prices)%js in
      let standardDeviation := Math_sqrt variance in
      if (mean >? num 0)%js
      then ((standardDeviation / mean) * num 100)%js
      else num 0.

End Volatility.

(** The object [{ hasSpike, hasCrash, isStable }] that
    [detectPriceAnomalies] returns. *)
Module PriceAnalysis.
Record t : Type := mk {
  hasSpike : bool;
  hasCrash : bool;
  isStable : bool;
}.
End PriceAnalysis.

Definition detectPriceAnomalies (currentHigh currentLow : number)
    (recentHighs recentLows : list number) : PriceAnalysis.t :=
  if (length recentHighs <? 3)%nat || (length recentLows <? 3)%nat
  then PriceAnalysis.mk false false true
  else
    let avgRecentHigh :=
      (sum_prices (drop 1 recentHighs) / (nlength recentHighs - num 1))%js in
    let avgRecentLow :=
      (sum_prices (drop 1 recentLows) / (nlength recentLows - num 1))%js in
    let hasSpike :=
      (currentHigh
       >? avgRecentHigh * PRICE_SPIKE_THRESHOLDS_HIGH_MULTIPLIER)%js in
    let hasCrash :=
      (currentLow <? avgRecentLow * PRICE_SPIKE_THRESHOLDS_LOW_MULTIPLIER)%js in
    let isStable := negb hasSpike && negb hasCrash in
    PriceAnalysis.mk hasSpike hasCrash isStable.

(** Default value of the optional parameter [maxBudgetPercent] of
    [calculateOptimalQuantity] (its other optional parameter, [volume],
    is passed by the one caller). *)
Definition default_maxBudgetPercent : number := num 1.

Definition calculateOptimalQuantity
    (budget avgPrice buyLimit volume maxBudgetPercent : number) : number :=
  let maxBudgetForItem := (budget * maxBudgetPercent)%js in
  let maxQuantityByBudget := Math_floor (maxBudgetForItem / avgPrice)%js in
  let maxQuantityByPrice := Math_floor (budget / avgPrice)%js in
  let effectiveBuyLimit :=
    if (buyLimit === num 0)%js then MAX_SAFE_INTEGER else buyLimit in
  let volumeBasedLimit :=
    if (volume >? num 0)%js
    then Math_max [num 1; Math_floor (volume * Fin 0.1)%js]
    else MAX_SAFE_INTEGER in
  Math_min [effectiveBuyLimit; maxQuantityByBudget; maxQuantityByPrice;
            volumeBasedLimit].

Definition hassufficientVolume (volume itemPrice : number) : bool :=
  let threshold :=
    if (itemPrice >? num 1000000)%js
    then MIN_VOLUME_THRESHOLDS_HOURLY
    else MIN_VOLUME_THRESHOLDS_DAILY in
  (volume >=? threshold)%js.

Inductive RiskLevel : Type := Low | Medium | High | Extreme.

Definition getRiskLevel (volatility : number) : RiskLevel :=
  if (volatility <? VOLATILITY_THRESHOLDS_LOW)%js then Low
  else if (volatility <? VOLATILITY_THRESHOLDS_MEDIUM)%js then Medium
  else if (volatility <? VOLATILITY_THRESHOLDS_HIGH)%js then High
  else Extreme.

(** ** Data model ([src/types/api.ts]) *)

(** [FlipOpportunity].  [id] is the integer key of the item; a [Date] is
    kept as its epoch time. *)
Record FlipOpportunity : Type := mkFlipOpportunity {
  id : Z;
  name : string;
  icon : option string;
  currentHigh : number;
  currentLow : number;
  avgPrice : number;
  margin : number;
  marginPercent : number;
  roi : number;
  quantity : number;
  totalCost : number;
  totalProfit : number;
  profitAfterTax : number;
  buyLimit : number;
  volume : number;
  volatility : number;
  lastUpdated : Z;
  compositeScore : option number;
  riskLevel : option RiskLevel;
  isStable : option bool;
}.

(** [{ ...opp, compositeScore }]. *)
Definition with_compositeScore (opp : FlipOpportunity) (s : number)
    : FlipOpportunity :=
  mkFlipOpportunity (id opp) (name opp) (icon opp) (currentHigh opp)
    (currentLow opp) (avgPrice opp) (margin opp) (marginPercent opp) (roi opp)
    (quantity opp) (totalCost opp) (totalProfit opp) (profitAfterTax opp)
    (buyLimit opp) (volume opp) (volatility opp) (lastUpdated opp) (Some s)
    (riskLevel opp) (isStable opp).

(** ** Sorting and ranking *)

(** [Array.prototype.sort(comparefn)]: a stable sort; [x] is placed after
    [y] exactly when [comparefn(x, y) > 0] (a [NaN] result counts as [0]).
    Every stable sort yields this list when the comparator is a consistent
    ordering; for an inconsistent one the standard leaves the order to the
    implementation, and this insertion sort is one such implementation. *)
Section ArraySort.

Context {A : Type}.
Variable comparefn : A -> A -> number.

Fixpoint sort_insert (x : A) (l : list A) : list A :=
    match l with
    | [] => [x]
    | y :: l' =>
        if (comparefn x y >? num 0)%js
        then y :: sort_insert x l'
        else x :: l
    end.

Definition Array_sort (l : list A) : list A := foldr sort_insert [] l.

End ArraySort.

(** [arr.findIndex(p)]: the first index whose element satisfies [p], or
    [-1]. *)
Fixpoint findIndex_from {A} (p : A -> bool) (l : list A) (i : Z) : Z :=
  match l with
  | [] => (-1)%Z
  | x :: l' => if p x then i else findIndex_from p l' (i + 1)%Z
  end.

Definition findIndex {A} (p : A -> bool) (l : list A) : Z :=
  findIndex_from p l 0%Z.

Section Scores.

Variable opportunities : list FlipOpportunity.

Definition sortedByProfit : list FlipOpportunity :=
    Array_sort (fun a b => (profitAfterTax b - profitAfterTax a)%js)
      opportunities.
Definition sortedByVolume : list FlipOpportunity :=
    Array_sort (fun a b => (volume b - volume a)%js) opportunities.
Definition sortedByROI : list FlipOpportunity :=
    Array_sort (fun a b => (roi b - roi a)%js) opportunities.

Definition rankIn (sorted : list FlipOpportunity) (opp : FlipOpportunity)
      : number :=
    num (findIndex (fun o => (id o =? id opp)%Z) sorted).

Definition profitRank := rankIn sortedByProfit.
Definition volumeRank := rankIn sortedByVolume.
Definition roiRank := rankIn sortedByROI.

Definition profitScore (opp : FlipOpportunity) : number :=
    (num 1 - profitRank opp / nlength opportunities)%js.
Definition volumeScore (opp : FlipOpportunity) : number :=
    (num 1 - volumeRank opp / nlength opportunities)%js.
Definition roiScore (opp : FlipOpportunity) : number :=
    (num 1 - roiRank opp / nlength opportunities)%js.

Definition compositeScoreOf (opp : FlipOpportunity) : number :=
    (profitScore opp * Fin 0.5 + volumeScore opp * Fin 0.3
     + roiScore opp * Fin 0.2)%js.

Definition calculateOpportunityScores : list FlipOpportunity :=
    if (length opportunities =? 0)%nat then opportunities
    else map (fun opp => with_compositeScore opp (compositeScoreOf opp))
           opportunities.

End Scores.

(** [b.compositeScore || 0]. *)
Definition scoreOrZero (o : FlipOpportunity) : number :=
  match compositeScore o with
  | Some s => or_else s (num 0)
  | None => num 0
  end.

Definition sortOpportunitiesByScore (opportunities : list FlipOpportunity)
    : list FlipOpportunity :=
  let scoredOpportunities := calculateOpportunityScores opportunities in
  Array_sort (fun a b => (scoreOrZero b - scoreOrZero a)%js)
    scoredOpportunities.

(** Default values of the optional parameters of
    [filterProfitableOpportunities]. *)
Definition default_minProfit : number := num 1000.
Definition default_minROI : number := num 5.
Definition default_minVolume : number := num 0.
Definition default_maxVolatility : number := VOLATILITY_THRESHOLDS_EXTREME.

Definition filterProfitableOpportunities
    (opportunities : list FlipOpportunity)
    (minProfit minROI minVolume maxVolatility : number)
    : list FlipOpportunity :=
  List.filter (fun opp =>
    if (profitAfterTax opp <? minProfit)%js || (roi opp <? minROI)%js
    then false
    else if (marginPercent opp >? MAX_MARGIN_PERCENT)%js then false
    else if negb (hassufficientVolume (volume opp) (currentHigh opp))
    then false
    else if (minVolume >? num 0)%js && (volume opp <? minVolume)%js
    then false
    else if (volatility opp >? maxVolatility)%js then false
    else true) opportunities.

(** ** Price service ([src/server/services/price-service.ts]) *)

(** Modelled from the spec: the database rows [Price] and [Item] that the
    Prisma query of [getFlipOpportunities] returns (the schema,
    [prisma/schema.prisma], is not part of the tree).  The spec's
    [PriceSample] is [{ itemId, timestamp, highPrice?, lowPrice? }] and its
    [ItemMeta] is [{ itemId, name, positionLimit }]; the field names are
    those the service reads ([high], [low], [buyLimit], [prices]).  Stored
    numbers are finite. *)
Module Price.
Record t : Type := mk {
  high : option Q;
  low : option Q;
  timestamp : Z;
}.
End Price.

Module Item.
Record t : Type := mk {
  id : Z;
  name : string;
  icon : option string;
  buyLimit : Q;
  prices : list Price.t;
}.
End Item.

(** The options object of [getFlipOpportunities]; an absent field takes
    its default when the parameter is destructured. *)
Module Filters.
Record t : Type := mk {
  minVolume : option number;
  maxVolatility : option number;
  includeSpikes : option bool;
  includeHighRisk : option bool;
}.
Definition none : t := mk None None None None.
End Filters.

Module PortfolioSuggestion.
Record t : Type := mk {
  totalBudget : number;
  totalCost : number;
  totalProfit : number;
  totalProfitAfterTax : number;
  totalROI : number;
  opportunities : list FlipOpportunity;
  updatedAt : Z;
  itemCount : number;
  budgetUtilization : number;
}.
End PortfolioSuggestion.

(** [item.icon || undefined]: an empty string is falsy. *)
Definition nonEmpty (s : option string) : option string :=
  match s with
  | Some EmptyString => None
  | _ => s
  end.

(** [volumeData[item.id] || 0]. *)
Definition volumeOf (volumeData : gmap Z Q) (itemId : Z) : number :=
  match volumeData !! itemId with
  | Some v => or_else (Fin v) (num 0)
  | None => num 0
  end.

(** [p.high || 0] on a nullable column. *)
Definition priceOrZero (p : option Q) : number :=
  match p with
  | Some q => or_else (Fin q) (num 0)
  | None => num 0
  end.

Definition recentPositive (column : Price.t -> option Q)
    (prices : list Price.t) : list number :=
  List.filter (fun p => (p >? num 0)%js)
    (map (fun p => priceOrZero (column p)) (take 10 prices)).

Section Opportunities.

Variable Math_sqrt : number -> number.

(** The body of the loop over [items] in [getFlipOpportunities]: [None]
    where the source says [continue], [Some] of the pushed record
    otherwise. *)
Definition evaluateItem (volumeData : gmap Z Q) (budget : number)
    (includeSpikes includeHighRisk : bool) (item : Item.t)
    : option FlipOpportunity :=
  match Item.prices item with
  | [] => None
  | latestPrice :: _ =>
    match Price.high latestPrice, Price.low latestPrice with
    | Some h, Some l =>
      if Qeq_bool h 0 || Qeq_bool l 0 then None
      else
        let high := Fin h in
        let low := Fin l in
        let volume := volumeOf volumeData (Item.id item) in
        if negb (hassufficientVolume volume high) then None
        else
          let avgPrice := ((high + low) / num 2)%js in
          let margin := calculateMargin high low in
          let marginPercent := calculateMarginPercent margin low in
          if (margin <=? num 0)%js || (avgPrice <=? num 0)%js then None
          else
            let recentHighs := recentPositive Price.high (Item.prices item) in
            let recentLows := recentPositive Price.low (Item.prices item) in
            let volatility := calculateVolatility Math_sqrt recentHighs in
            let riskLevel := getRiskLevel volatility in
            if negb includeHighRisk && (volatility >? num 25)%js then None
            else if (volatility >? VOLATILITY_THRESHOLDS_EXTREME)%js then None
            else
              let priceAnalysis :=
                detectPriceAnomalies high low recentHighs recentLows in
              if negb includeSpikes
                 && negb (PriceAnalysis.isStable priceAnalysis)
              then None
              else
                let quantity :=
                  calculateOptimalQuantity budget avgPrice
                    (Fin (Item.buyLimit item)) volume
                    default_maxBudgetPercent in
                if (quantity === num 0)%js then None
                else
                  let totalCost := (quantity * low)%js in
                  let totalProfit := (quantity * margin)%js in
                  let profitAfterTax :=
                    calculateProfitAfterTax margin high quantity in
                  let roi := calculateROI profitAfterTax totalCost in
                  Some {| id := Item.id item;
                          name := Item.name item;
                          icon := nonEmpty (Item.icon item);
                          currentHigh := high;
                          currentLow := low;
                          avgPrice := avgPrice;
                          margin := margin;
                          marginPercent := marginPercent;
                          roi := roi;
                          quantity := quantity;
                          totalCost := totalCost;
                          totalProfit := totalProfit;
                          profitAfterTax := profitAfterTax;
                          buyLimit := Fin (Item.buyLimit item);
                          volume := volume;
                          volatility := volatility;
                          lastUpdated := Price.timestamp latestPrice;
                          compositeScore := None;
                          riskLevel := Some riskLevel;
                          isStable :=
                            Some (PriceAnalysis.isStable priceAnalysis) |}
    | _, _ => None
    end
  end.

(** The first half of [getFlipOpportunities(budget, options)], up to the
    constant [profitableOpportunities]; [volumeData] is what
    [fetchVolumeData] returned and [items] the rows of the Prisma query
    (each with its most recent prices first). *)
Definition profitableOpportunitiesOf (volumeData : gmap Z Q)
    (items : list Item.t) (budget : number) (options : Filters.t)
    : list FlipOpportunity :=
  let minVolume := default (num 0) (Filters.minVolume options) in
  let maxVolatility :=
    default VOLATILITY_THRESHOLDS_EXTREME (Filters.maxVolatility options) in
  let includeSpikes := default false (Filters.includeSpikes options) in
  let includeHighRisk := default false (Filters.includeHighRisk options) in
  let opportunities :=
    omap (evaluateItem volumeData budget includeSpikes includeHighRisk)
      items in
  filterProfitableOpportunities opportunities (num 1000) (num 5) minVolume
    maxVolatility.

(** [getFlipOpportunities(budget, options)]. *)
Definition getFlipOpportunities (volumeData : gmap Z Q) (items : list Item.t)
    (budget : number) (options : Filters.t) : list FlipOpportunity :=
  let profitableOpportunities :=
    profitableOpportunitiesOf volumeData items budget options in
  if (budget >? num 100000000)%js
  then Array_sort (fun a b => (roi b - roi a)%js) profitableOpportunities
  else sortOpportunitiesByScore profitableOpportunities.

End Opportunities.

(** GE slot limit. *)
Definition maxItems : nat := 8.

(** The quantity the selection loop settles on for one opportunity. *)
Definition adjustedQuantityOf (budget remainingBudget : number)
    (opportunity : FlipOpportunity) : number :=
  if (buyLimit opportunity === num 0)%js
  then
    let volumeMultiplier :=
      if (remainingBudget >? budget * Fin 0.5)%js then Fin 0.2 else Fin 0.1 in
    Math_min [Math_floor (remainingBudget / currentLow opportunity)%js;
              Math_floor (volume opportunity * volumeMultiplier)%js]
  else
    Math_min [quantity opportunity;
              Math_floor (remainingBudget / currentLow opportunity)%js].

(** [adjustedOpportunity], with its [roi] recomputed. *)
Definition adjustOpportunity (opportunity : FlipOpportunity)
    (adjustedQuantity : number) : FlipOpportunity :=
  let totalCost' := (adjustedQuantity * currentLow opportunity)%js in
  let totalProfit' := (adjustedQuantity * margin opportunity)%js in
  let profitAfterTax' :=
    calculateProfitAfterTax (margin opportunity) (currentHigh opportunity)
      adjustedQuantity in
  mkFlipOpportunity (id opportunity) (name opportunity) (icon opportunity)
    (currentHigh opportunity) (currentLow opportunity) (avgPrice opportunity)
    (margin opportunity) (marginPercent opportunity)
    (calculateROI profitAfterTax' totalCost')
    adjustedQuantity totalCost' totalProfit' profitAfterTax'
    (buyLimit opportunity) (volume opportunity) (volatility opportunity)
    (lastUpdated opportunity) (compositeScore opportunity)
    (riskLevel opportunity) (isStable opportunity).

(** The selection loop of [getPortfolioSuggestion], as state passing over
    [(remainingBudget, selectedOpportunities)]; [break] returns the state. *)
Fixpoint selectLoop (budget : number) (opportunities : list FlipOpportunity)
    (remainingBudget : number) (selectedOpportunities : list FlipOpportunity)
    : number * list FlipOpportunity :=
  match opportunities with
  | [] => (remainingBudget, selectedOpportunities)
  | opportunity :: rest =>
      if (remainingBudget <=? num 0)%js
         || (maxItems <=? length selectedOpportunities)%nat
      then (remainingBudget, selectedOpportunities)
      else
        let adjustedQuantity :=
          adjustedQuantityOf budget remainingBudget opportunity in
        if (adjustedQuantity >? num 0)%js
        then
          let adjustedOpportunity :=
            adjustOpportunity opportunity adjustedQuantity in
          selectLoop budget rest
            (remainingBudget - totalCost adjustedOpportunity)%js
            (selectedOpportunities ++ [adjustedOpportunity])
        else selectLoop budget rest remainingBudget selectedOpportunities
  end.

(** The selection pass and the portfolio-wide metrics of
    [getPortfolioSuggestion], on the opportunities it was handed; [now]
    stands for [new Date()]. *)
Definition buildPortfolio (opportunities : list FlipOpportunity)
    (budget : number) (now : Z) : PortfolioSuggestion.t :=
  let selectedOpportunities :=
    snd (selectLoop budget opportunities budget []) in
  let totalCost :=
    reduce (fun sum opp => (sum + totalCost opp)%js) (num 0)
      selectedOpportunities in
  let totalProfit :=
    reduce (fun sum opp => (sum + totalProfit opp)%js) (num 0)
      selectedOpportunities in
  let totalProfitAfterTax :=
    reduce (fun sum opp => (sum + profitAfterTax opp)%js) (num 0)
      selectedOpportunities in
  let totalROI := calculateROI totalProfitAfterTax totalCost in
  let budgetUtilization := ((totalCost / budget) * num 100)%js in
  {| PortfolioSuggestion.totalBudget := budget;
     PortfolioSuggestion.totalCost := totalCost;
     PortfolioSuggestion.totalProfit := totalProfit;
     PortfolioSuggestion.totalProfitAfterTax := totalProfitAfterTax;
     PortfolioSuggestion.totalROI := totalROI;
     PortfolioSuggestion.opportunities := selectedOpportunities;
     PortfolioSuggestion.itemCount := nlength selectedOpportunities;
     PortfolioSuggestion.budgetUtilization := budgetUtilization;
     PortfolioSuggestion.updatedAt := now |}.


(** ** The specification's wording of the calculations *)

(** The tax as the specification words it, on a finite sell price: the
    floor of two percent, then the clamp to [[1, 5000000]]. *)
Definition tax_spec (sellPrice : Q) : Z :=
  Z.min (Z.max (Qfloor (sellPrice * 0.02)) 1) 5000000.


(** The bounds of the sizing rule as the specification names them:
    [byAllocation] and [byBudget] from the budget, [byVolume] from the
    recent trade volume (no bound when there is no volume). *)
Definition byAllocation (budget avgPrice maxBudgetPercent : number) : number :=
  Math_floor (budget * maxBudgetPercent / avgPrice)%js.

Definition byBudget (budget avgPrice : number) : number :=
  Math_floor (budget / avgPrice)%js.

Definition byVolume (volume : number) : number :=
  if (volume >? num 0)%js
  then Math_max [num 1; Math_floor (volume * Fin 0.1)%js]
  else PInf.

(** The sizing rule as the specification words it, on finite inputs, with
    [2^53 - 1] where the code resolves "no limit" and "no volume". *)
Definition sizeQuantity_spec
    (budget avgPrice positionLimit volume maxBudgetFraction : Q) : Q :=
  let maxAllocation := (budget * maxBudgetFraction)%Q in
  let byAllocation := inject_Z (Qfloor (maxAllocation / avgPrice)) in
  let byBudget := inject_Z (Qfloor (budget / avgPrice)) in
  let effectiveLimit :=
    if Qeq_bool positionLimit 0 then inject_Z 9007199254740991
    else positionLimit in
  let byVolume :=
    if Qltb 0 volume
    then Qmax 1 (inject_Z (Qfloor (volume * 0.1)))
    else inject_Z 9007199254740991 in
  Qmin effectiveLimit (Qmin byAllocation (Qmin byBudget byVolume)).

(** ** Predicates used in the statements *)

(** [below r y]: [r] is [NaN], or [r <= y]. It is what [Math.min]
    guarantees of its result against each argument. *)
Definition below (r y : number) : Prop := r = NaN \/ (r <=? y)%js = true.

(** [nonneg x]: [x] is not below zero ([NaN] is not). *)
Definition nonneg (x : number) : Prop := (x <? num 0)%js = false.

(** [lowerBounded x]: [x] is finite or the positive infinity. *)
Definition lowerBounded (x : number) : bool :=
  match x with
  | Fin _ | PInf => true
  | NInf | NaN => false
  end.

(** [inRange n x]: [x] lies in [[1/n, 1]]. *)
Definition inRange (n : Q) (x : Q) : Prop := (1 / n <= x /\ x <= 1)%Q.

(** The comparator [(a, b) => key(b) - key(a)] of a descending sort. *)
Definition descending {A} (key : A -> number) (a b : A) : number :=
  (key b - key a)%js.

(** [keyDesc key a b]: the key of [a] is at least the key of [b]. *)
Definition keyDesc {A} (key : A -> number) (a b : A) : Prop :=
  (key a >=? key b)%js = true.

(** [scoreDesc a b]: both records carry a composite score, and the score
    of [a] is at least the score of [b]. *)
Definition scoreDesc (a b : FlipOpportunity) : Prop :=
  match compositeScore a, compositeScore b with
  | Some x, Some y => (x >=? y)%js = true
  | _, _ => False
  end.




(** ** Concrete data *)

(** A stand-in for [Math.sqrt] when the service is run on concrete data:
    the square root rounded down to a multiple of [2^-26]. *)
Definition sqrt_floor (x : number) : number :=
  match x with
  | Fin q =>
      if Qltb q 0 then NaN
      else Fin (inject_Z (Z.sqrt (Qfloor (q * inject_Z (2 ^ 52))))
                / inject_Z (2 ^ 26))
  | PInf => PInf
  | NInf | NaN => NaN
  end.

(** The opportunity of [tests/profitableOpportunities.test.ts], with the
    item id and the margin percentage left open. *)
Definition testOpportunity (itemId : Z) (marginPct : number)
    : FlipOpportunity :=
  {| id := itemId; name := "Test"; icon := None;
     currentHigh := num 100; currentLow := num 90; avgPrice := num 95;
     margin := num 10; marginPercent := marginPct; roi := num 10;
     quantity := num 1; totalCost := num 90; totalProfit := num 10;
     profitAfterTax := num 2000; buyLimit := num 100; volume := num 2000;
     volatility := num 5; lastUpdated := 0%Z; compositeScore := None;
     riskLevel := None; isStable := None |}.

(** The item of the scenario: one price sample, high 110 and low 100, a
    buy limit of 100 and a 24h volume of 2000. *)
Definition scenarioItem : Item.t :=
  Item.mk 1 "Scenario" None 100
    [Price.mk (Some 110%Q) (Some 100%Q) 0].

Definition scenarioVolumes : gmap Z Q := {[ 1%Z := 2000%Q ]}.

Definition samplePrice (h l : Q) (t : Z) : Price.t :=
  Price.mk (Some h) (Some l) t.

(** Six items: four that trade at a profit, one without margin and one
    without a high price. *)
Definition sampleItems : list Item.t :=
  [ Item.mk 1 "A" None 1000
      [samplePrice 1100 1000 3; samplePrice 1090 1000 2;
       samplePrice 1110 1010 1];
    Item.mk 2 "B" None 0
      [samplePrice 2300 2000 3; samplePrice 2280 2010 2;
       samplePrice 2310 1990 1];
    Item.mk 3 "C" None 0 [samplePrice 600 500 3];
    Item.mk 4 "D" None 0 [samplePrice 130 100 3];
    Item.mk 5 "E" None 50 [samplePrice 100 100 3];
    Item.mk 6 "F" None 50 [Price.mk None (Some 100%Q) 3] ].

Definition sampleVolumes : gmap Z Q :=
  list_to_map [(1%Z, 5000%Q); (2%Z, 4000%Q); (3%Z, 100000%Q);
               (4%Z, 1300%Q); (5%Z, 90000%Q)].

Definition sampleOpportunities (budget : number) : list FlipOpportunity :=
  getFlipOpportunities sqrt_floor sampleVolumes sampleItems budget
    Filters.none.

(** ** The volume request *)

(** An entry of the 24h volume response ([OSRSVolumeData]): the trade
    counts at the high and at the low price, each of which may be absent. *)
Module OSRSVolume.
Record t : Type := mk {
  highPriceVolume : option Q;
  lowPriceVolume : option Q;
}.
End OSRSVolume.

(** [x || 0] on an optional finite number. *)
Definition orZero (x : option Q) : Q :=
  match x with
  | Some q => if Qeq_bool q 0 then 0 else q
  | None => 0
  end.

(** [(volumes.highPriceVolume || 0) + (volumes.lowPriceVolume || 0)]. *)
Definition totalVolumeOf (volumes : OSRSVolume.t) : Q :=
  (orZero (OSRSVolume.highPriceVolume volumes)
   + orZero (OSRSVolume.lowPriceVolume volumes))%Q.

(** [fetchVolumeData()].  [response] is the outcome of
    [OSRSApiService.fetch24hVolumes()]: [None] when the request throws,
    and otherwise the entries of the object returned, in the order of
    [Object.entries], each key already read by [parseInt].  A failed
    request is caught and answered with the empty record. *)
Definition fetchVolumeData (response : option (list (Z * OSRSVolume.t)))
    : gmap Z Q :=
  match response with
  | None => empty
  | Some volumeData =>
      fold_left
        (fun (processedVolumes : gmap Z Q) (entry : Z * OSRSVolume.t) =>
           let (itemId, volumes) := entry in
           let totalVolume := totalVolumeOf volumes in
           if Qltb 0 totalVolume
           then <[itemId := totalVolume]> processedVolumes
           else processedVolumes)
        volumeData empty
  end.

(** The 24h volumes behind [sampleVolumes], as the price API reports
    them; the last two entries are dropped by [fetchVolumeData]. *)
Definition sampleVolumeResponse : list (Z * OSRSVolume.t) :=
  [ (1%Z, OSRSVolume.mk (Some 3000%Q) (Some 2000%Q));
    (2%Z, OSRSVolume.mk (Some 4000%Q) None);
    (3%Z, OSRSVolume.mk None (Some 100000%Q));
    (4%Z, OSRSVolume.mk (Some 650%Q) (Some 650%Q));
    (5%Z, OSRSVolume.mk (Some 0%Q) (Some 90000%Q));
    (6%Z, OSRSVolume.mk (Some 0%Q) None);
    (7%Z, OSRSVolume.mk None None) ].

(** ** The HTTP routes *)

(** What a route answers: the data, with status 200, or a message with
    status 400.  Status 500 answers an exception of the service; the
    collaborators modelled here raise none. *)
Inductive Reply (A : Type) : Type :=
| Success (data : A)
| BadRequest (error : string).

Arguments Success {A} data.
Arguments BadRequest {A} error.

(** The query string of [GET /api/portfolio]; a parameter that the
    request does not carry is [None]. *)
Module PortfolioQuery.
Record t : Type := mk {
  budget : option string;
  minVolume : option string;
  maxVolatility : option string;
}.
End PortfolioQuery.

(** The query string of [GET /api/opportunities]. *)
Module OpportunitiesQuery.
Record t : Type := mk {
  budget : option string;
  limit : option string;
  minVolume : option string;
  maxVolatility : option string;
}.
End OpportunitiesQuery.

(** [ToIntegerOrInfinity] on a finite number: the fraction is dropped. *)
Definition truncate (q : Q) : Z :=
  if Qltb q 0 then Qceiling q else Qfloor q.

(** The end index that [Array.prototype.slice] settles on for an array
    of [len] elements: [NaN] counts as 0, a negative bound counts from
    the end, and the bound is clamped to [[0, len]]. *)
Definition sliceEnd (len : nat) (end_ : number) : nat :=
  match end_ with
  | NaN | NInf => 0%nat
  | PInf => len
  | Fin q =>
      let relativeEnd := truncate q in
      if (relativeEnd <? 0)%Z
      then Z.to_nat (Z.max (Z.of_nat len + relativeEnd) 0)
      else Z.to_nat (Z.min relativeEnd (Z.of_nat len))
  end.

(** [array.slice(0, end)]. *)
Definition Array_slice_0 {A} (array : list A) (end_ : number) : list A :=
  take (sliceEnd (length array) end_) array.

Section Routes.

Variable Math_sqrt : number -> number.

(** The built-ins that read a number off a query parameter. *)
Variable parseFloat : string -> number.
Variable parseInt : string -> number.

(** [text ? parse(text) : fallback]: the empty string is falsy. *)
Definition parsedOr (parse : string -> number) (fallback : number)
    (text : option string) : number :=
  match nonEmpty text with
  | Some s => parse s
  | None => fallback
  end.


(** The handler of [GET /api/opportunities]. *)
Definition opportunitiesRoute (response : option (list (Z * OSRSVolume.t)))
    (items : list Item.t) (query : OpportunitiesQuery.t)
    : Reply (list FlipOpportunity) :=
  let budget :=
    parseFloat
      (default "100000000"%string
         (nonEmpty (OpportunitiesQuery.budget query))) in
  let limit :=
    parseInt
      (default "50"%string (nonEmpty (OpportunitiesQuery.limit query))) in
  let minVolume :=
    parsedOr parseInt (num 0) (OpportunitiesQuery.minVolume query) in
  let maxVolatility :=
    parsedOr parseFloat VOLATILITY_THRESHOLDS_EXTREME
      (OpportunitiesQuery.maxVolatility query) in
  let opportunities :=
    getFlipOpportunities Math_sqrt (fetchVolumeData response) items budget
      (Filters.mk (Some minVolume) (Some maxVolatility) None None) in
  let limitedOpportunities := Array_slice_0 opportunities limit in
  Success limitedOpportunities.

End Routes.

(** A stand-in for [parseFloat] and [parseInt] when a route is run on
    concrete data: it reads the few texts of the examples and answers
    [NaN] for every other text. *)
Definition parseSample (text : string) : number :=
  if String.eqb text "12000000" then num 12000000
  else if String.eqb text "100000000" then num 100000000
  else if String.eqb text "50" then num 50
  else if String.eqb text "2" then num 2
  else if String.eqb text "0" then num 0
  else NaN.

(** ** The item detail view: statistics and chart *)

(** A price of the history that is truthy: present and not 0. *)
Definition truthyPrice (price : option Q) : option number :=
  match price with
  | Some q => if Qeq_bool q 0 then None else Some (Fin q)
  | None => None
  end.

(** [prices.filter(p => p.high).map(p => p.high)], and the same for the
    other column. *)
Definition validPrices (column : Price.t -> option Q)
    (prices : list Price.t) : list number :=
  omap (fun p => truthyPrice (column p)) prices.

Module PriceStats.
Record t : Type := mk {
  avgHigh : number;
  avgLow : number;
  maxHigh : number;
  minLow : number;
  currentHigh : number;
  currentLow : number;
  highVolatility : number;
  lowVolatility : number;
}.
End PriceStats.


(** What [createPriceChart] draws: the points of the two lines and the
    two labels.  The points are kept as pairs of coordinates; their
    rendering as text and the SVG around them are left out. *)
Module PriceChart.
Record t : Type := mk {
  highPoints : list (number * number);
  lowPoints : list (number * number);
  maxPrice : number;
  minPrice : number;
}.
End PriceChart.

(** [createPriceChart(prices)]; [None] is its [null]. *)
Definition createPriceChart (prices : list Price.t) : option PriceChart.t :=
  if (length prices <? 2)%nat then None
  else
    let width := num 400 in
    let height := num 200 in
    let padding := num 20 in
    let allPrices :=
      flat_map (fun p => omap truthyPrice [Price.high p; Price.low p])
        prices in
    let minPrice := Math_min allPrices in
    let maxPrice := Math_max allPrices in
    let priceRange := or_else (maxPrice - minPrice)%js (num 1) in
    let point (i : nat) (price : number) : number * number :=
      let x :=
        (padding
         + (num (Z.of_nat i) / (nlength prices - num 1))
           * (width - num 2 * padding))%js in
      let y :=
        (padding
         + ((maxPrice - price) / priceRange)
           * (height - num 2 * padding))%js in
      (x, y) in
    Some {| PriceChart.highPoints := imap point (validPrices Price.high prices);
            PriceChart.lowPoints := imap point (validPrices Price.low prices);
            PriceChart.maxPrice := maxPrice;
            PriceChart.minPrice := minPrice |}.

(** [inFrame p]: the point [p] has finite coordinates inside the padded
    drawing area, 20 to 380 across and 20 to 180 down. *)
Definition inFrame (p : number * number) : Prop :=
  exists x y : Q,
    p = (Fin x, Fin y) /\ (20 <= x <= 380)%Q /\ (20 <= y <= 180)%Q.

(** A week of samples for the item detail view: one without a high
    price, one without a low price. *)
Definition sampleHistory : list Price.t :=
  [ samplePrice 1100 1000 5; samplePrice 1090 990 4;
    Price.mk None (Some 1010%Q) 3; Price.mk (Some 1150%Q) (Some 0%Q) 2;
    samplePrice 1120 1000 1 ].

(** ** Synchronisation with the price API *)

(** An entry of the item mapping ([OSRSItem]); an optional property that
    the entry does not carry is [None]. *)
Module OSRSItem.
Record t : Type := mk {
  id : Z;
  name : string;
  examine : option string;
  members : option bool;
  lowalch : option Q;
  highalch : option Q;
  limit : option Q;
  icon : option string;
}.
End OSRSItem.

(** An entry of the latest prices ([OSRSPrice]). *)
Module OSRSPrice.
Record t : Type := mk {
  high : option Q;
  low : option Q;
  highTime : option Q;
  lowTime : option Q;
}.
End OSRSPrice.

(** A row of the item table, as the upserts write it; the table is keyed
    by the item id.  The Prisma schema is not part of the tree: the
    columns are those that [syncItems] names, the optional ones
    nullable. *)
Module ItemRow.
Record t : Type := mk {
  name : string;
  buyLimit : Q;
  icon : option string;
  examine : option string;
  members : bool;
  lowalch : option Q;
  highalch : option Q;
}.
End ItemRow.

(** The data of a price record, as [syncPrices] creates it; its own id
    and its [timestamp] are set by the database.  The two times are in
    milliseconds, as [new Date] takes them. *)
Module PriceRow.
Record t : Type := mk {
  itemId : Z;
  high : option Q;
  low : option Q;
  highTime : option Q;
  lowTime : option Q;
}.
End PriceRow.

(** The two tables: the items by id, and the price records in the order
    of their creation. *)
Module Database.
Record t : Type := mk {
  items : gmap Z ItemRow.t;
  prices : list PriceRow.t;
}.
End Database.

(** A column of an update: a value that is [undefined] leaves the column
    as it is. *)
Definition keep {A} (value previous : option A) : option A :=
  match value with
  | Some x => Some x
  | None => previous
  end.

(** The row that [prisma.item.upsert] leaves for a mapping entry, with
    the data that [syncItems] and [syncPrices] both build from it:
    [update] on the row found, [create] when there is none. *)
Definition itemRowOf (item : OSRSItem.t) (existing : option ItemRow.t)
    : ItemRow.t :=
  match existing with
  | Some row =>
      {| ItemRow.name := OSRSItem.name item;
         ItemRow.buyLimit := orZero (OSRSItem.limit item);
         ItemRow.icon := keep (OSRSItem.icon item) (ItemRow.icon row);
         ItemRow.examine :=
           keep (OSRSItem.examine item) (ItemRow.examine row);
         ItemRow.members := default false (OSRSItem.members item);
         ItemRow.lowalch :=
           keep (OSRSItem.lowalch item) (ItemRow.lowalch row);
         ItemRow.highalch :=
           keep (OSRSItem.highalch item) (ItemRow.highalch row) |}
  | None =>
      {| ItemRow.name := OSRSItem.name item;
         ItemRow.buyLimit := orZero (OSRSItem.limit item);
         ItemRow.icon := OSRSItem.icon item;
         ItemRow.examine := OSRSItem.examine item;
         ItemRow.members := default false (OSRSItem.members item);
         ItemRow.lowalch := OSRSItem.lowalch item;
         ItemRow.highalch := OSRSItem.highalch item |}
  end.

(** [prisma.item.upsert({ where: { id: item.id }, update, create })]. *)
Definition upsertItem (item : OSRSItem.t) (items : gmap Z ItemRow.t)
    : gmap Z ItemRow.t :=
  <[OSRSItem.id item := itemRowOf item (items !! OSRSItem.id item)]> items.

(** [syncItems()] on the item table; [mapping] is what
    [OSRSApiService.fetchItemMapping()] returned. *)
Definition syncItems (mapping : list OSRSItem.t) (items : gmap Z ItemRow.t)
    : gmap Z ItemRow.t :=
  fold_left (fun items item => upsertItem item items) mapping items.

(** [mappingById], filled entry by entry. *)
Definition indexById (itemMapping : list OSRSItem.t) : gmap Z OSRSItem.t :=
  fold_left (fun mappingById item => <[OSRSItem.id item := item]> mappingById)
    itemMapping empty.

(** [x || null] on an optional number. *)
Definition orNull (x : option Q) : option Q :=
  match x with
  | Some q => if Qeq_bool q 0 then None else Some q
  | None => None
  end.

(** Truthiness of an optional number: absent and [0] are falsy. *)
Definition truthyOpt (x : option Q) : bool :=
  match x with
  | Some q => negb (Qeq_bool q 0)
  | None => false
  end.

(** [t ? new Date(t * 1000) : null]. *)
Definition dateOrNull (t : option Q) : option Q :=
  match t with
  | Some s => if Qeq_bool s 0 then None else Some (s * 1000)%Q
  | None => None
  end.

(** The data of [prisma.price.create] for an entry of the latest
    prices. *)
Definition priceRowOf (itemId : Z) (priceData : OSRSPrice.t) : PriceRow.t :=
  {| PriceRow.itemId := itemId;
     PriceRow.high := orNull (OSRSPrice.high priceData);
     PriceRow.low := orNull (OSRSPrice.low priceData);
     PriceRow.highTime := dateOrNull (OSRSPrice.highTime priceData);
     PriceRow.lowTime := dateOrNull (OSRSPrice.lowTime priceData) |}.

(** The state that the loop of [syncPrices] works on: the two tables, the
    index of the item mapping at hand, and the flag that the mapping has
    been fetched again. *)
Module SyncState.
Record t : Type := mk {
  items : gmap Z ItemRow.t;
  prices : list PriceRow.t;
  mappingById : gmap Z OSRSItem.t;
  mappingRefetched : bool;
}.
End SyncState.

Section SyncPrices.

(** What [fetchItemMapping()] answers when an unknown item makes
    [syncPrices] sync the items again: first to the [syncItems()] it
    calls, then to [syncPrices] itself. *)
Variable syncedMapping : list OSRSItem.t.
Variable refetchedMapping : list OSRSItem.t.

(** The body of the loop over the latest prices; a state handed back
    unchanged is a [continue]. *)
Definition syncPrice (state : SyncState.t) (entry : Z * OSRSPrice.t)
    : SyncState.t :=
  let (itemId, priceData) := entry in
  if negb (truthyOpt (OSRSPrice.high priceData))
     && negb (truthyOpt (OSRSPrice.low priceData))
  then state
  else
    match SyncState.items state !! itemId with
    | Some existingItem =>
        SyncState.mk (SyncState.items state)
          (SyncState.prices state ++ [priceRowOf itemId priceData])
          (SyncState.mappingById state) (SyncState.mappingRefetched state)
    | None =>
        let state' :=
          match SyncState.mappingById state !! itemId with
          | None =>
              if negb (SyncState.mappingRefetched state)
              then
                SyncState.mk (syncItems syncedMapping (SyncState.items state))
                  (SyncState.prices state) (indexById refetchedMapping) true
              else state
          | Some _ => state
          end in
        match SyncState.mappingById state' !! itemId with
        | Some mapped =>
            SyncState.mk (upsertItem mapped (SyncState.items state'))
              (SyncState.prices state' ++ [priceRowOf itemId priceData])
              (SyncState.mappingById state')
              (SyncState.mappingRefetched state')
        | None => state'
        end
    end.

(** [syncPrices()] on the two tables.  [latestPrices] are the entries of
    what [fetchLatestPrices()] returned, in the order of
    [Object.entries], each key already read by [parseInt]; [itemMapping]
    is the item mapping fetched at the start. *)
Definition syncPrices (latestPrices : list (Z * OSRSPrice.t))
    (itemMapping : list OSRSItem.t) (database : Database.t) : Database.t :=
  let final :=
    fold_left syncPrice latestPrices
      (SyncState.mk (Database.items database) (Database.prices database)
         (indexById itemMapping) false) in
  Database.mk (SyncState.items final) (SyncState.prices final).

End SyncPrices.

(** The mapping and the latest prices of the examples: the mapping knows
    items 1 to 3, and the prices name item 9 as well, which only the
    mapping fetched again knows. *)
Definition sampleMapping : list OSRSItem.t :=
  [ OSRSItem.mk 1 "A" None None None None (Some 1000%Q) None;
    OSRSItem.mk 2 "B" None (Some true) None None None (Some "b.png"%string);
    OSRSItem.mk 3 "C" (Some "A thing."%string) None None None (Some 0%Q) None ].

Definition sampleRefetchedMapping : list OSRSItem.t :=
  sampleMapping
  ++ [ OSRSItem.mk 9 "New" None None None None (Some 70%Q) None ].

Definition sampleLatestPrices : list (Z * OSRSPrice.t) :=
  [ (1%Z, OSRSPrice.mk (Some 1100%Q) (Some 1000%Q) (Some 5%Q) (Some 4%Q));
    (2%Z, OSRSPrice.mk (Some 0%Q) None None None);
    (3%Z, OSRSPrice.mk None (Some 500%Q) None (Some 7%Q));
    (9%Z, OSRSPrice.mk (Some 90%Q) (Some 80%Q) None None);
    (8%Z, OSRSPrice.mk (Some 10%Q) (Some 8%Q) None None) ].

(** A database that knows item 1 and one price record of it. *)
Definition sampleDatabase : Database.t :=
  Database.mk (syncItems [OSRSItem.mk 1 "A" None None None None None None]
                 empty)
    [PriceRow.mk 1 (Some 1090%Q) (Some 990%Q) None None].

(** The records that [syncPrices] creates when no item is missing: one
    for every entry of the latest prices that has a price, in their
    order. *)
Definition pricedRows (latestPrices : list (Z * OSRSPrice.t))
    : list PriceRow.t :=
  omap (fun entry : Z * OSRSPrice.t =>
          if negb (truthyOpt (OSRSPrice.high (snd entry)))
             && negb (truthyOpt (OSRSPrice.low (snd entry)))
          then None
          else Some (priceRowOf (fst entry) (snd entry)))
    latestPrices.

(** [referenced items row]: the item of the price record [row] is in the
    item table. *)
Definition referenced (items : gmap Z ItemRow.t) (row : PriceRow.t) : Prop :=
  is_Some (items !! PriceRow.itemId row).

(** ** The historical sync *)

(** An entry of the hourly history of an item ([OSRS1hPriceEntry]). *)
Module OSRS1hPriceEntry.
Record t : Type := mk {
  timestamp : Q;
  avgHighPrice : option Q;
  avgLowPrice : option Q;
  highPriceVolume : option Q;
  lowPriceVolume : option Q;
}.
End OSRS1hPriceEntry.

(** The data of a record of the price history table, as
    [syncHistoricalPrices] creates it; [date] is in milliseconds. *)
Module HistoryRow.
Record t : Type := mk {
  itemId : Z;
  avgHigh : option Q;
  avgLow : option Q;
  volume : Q;
  date : Q;
}.
End HistoryRow.



(** [topIds], the ids of the 100 largest volumes, and [targetIds];
    [volumeEntries] are the entries of what [fetchVolumeData] returned. *)
Definition topIdsOf (volumeEntries : list (Z * Q)) : list Z :=
  map fst
    (take 100
       (Array_sort (fun a b => (Fin (snd b) - Fin (snd a))%js)
          volumeEntries)).

Definition historyTargets (historyDone : bool) (missingHistory : list Z)
    (volumeEntries : list (Z * Q)) : list Z :=
  let topIds := topIdsOf volumeEntries in
  if historyDone
  then List.filter (fun id => existsb (fun m => (m =? id)%Z) missingHistory)
         topIds
  else topIds.

Section HistoricalSync.

(** [OSRSApiService.fetch1hHistory]. *)
Variable fetch1hHistory : Z -> list OSRS1hPriceEntry.t.


End HistoricalSync.


Definition sampleVolumeEntries : list (Z * Q) :=
  [ (1%Z, 5000%Q); (2%Z, 4000%Q); (3%Z, 100000%Q); (4%Z, 1300%Q) ].

(** ** Further definitions: orders and summaries used in the statements *)

(** The risk bands, from the mildest to the most severe. *)
Definition riskRank (r : RiskLevel) : nat :=
  match r with
  | Low => 0
  | Medium => 1
  | High => 2
  | Extreme => 3
  end.

(** [withoutScore o]: the record [o] with its composite score removed;
    two records that agree on it differ at most in their score. *)
Definition withoutScore (o : FlipOpportunity) : FlipOpportunity :=
  mkFlipOpportunity (id o) (name o) (icon o) (currentHigh o) (currentLow o)
    (avgPrice o) (margin o) (marginPercent o) (roi o) (quantity o)
    (totalCost o) (totalProfit o) (profitAfterTax o) (buyLimit o) (volume o)
    (volatility o) (lastUpdated o) None (riskLevel o) (isStable o).

(** [quantityCapped o s]: the quantity of the selection [s] is within
    the cap of its candidate [o]: the candidate's own quantity when it
    has a buy limit, a fifth or a tenth of its volume, rounded down, when
    it has none. *)
Definition quantityCapped (o s : FlipOpportunity) : Prop :=
  if (buyLimit o === num 0)%js
  then (quantity s >? Math_floor (volume o * Fin 0.2))%js = false \/
       (quantity s >? Math_floor (volume o * Fin 0.1))%js = false
  else (quantity s >? quantity o)%js = false.

(** [selectedFrom candidates s]: the selection [s] is one of the
    candidates with its quantity, cost, profits and return recomputed
    for a quantity above zero and within the candidate's cap. *)
Definition selectedFrom (candidates : list FlipOpportunity)
    (s : FlipOpportunity) : Prop :=
  exists o : FlipOpportunity,
    In o candidates /\ s = adjustOpportunity o (quantity s) /\
    (quantity s >? num 0)%js = true /\ quantityCapped o s.


(** * Properties *)

(** ** Boolean comparisons of rationals *)

Lemma Qltb_lt (p q : Q) : Qltb p q = true <-> (p < q)%Q.
Proof.
  unfold Qltb. rewrite negb_true_iff. split.
  - intros H. apply Qnot_le_lt. intros Hle.
    apply Qle_bool_iff in Hle. congruence.
  - intros H. destruct (Qle_bool q p) eqn:E; [|reflexivity].
    apply Qle_bool_iff in E. exfalso. apply (Qlt_not_le _ _ H E).
Qed.

Lemma Qltb_ge (p q : Q) : Qltb p q = false <-> (q <= p)%Q.
Proof.
  unfold Qltb. rewrite negb_false_iff. apply Qle_bool_iff.
Qed.

Lemma Qle_bool_gt (p q : Q) : Qle_bool p q = false <-> (q < p)%Q.
Proof.
  rewrite <- Qltb_lt. unfold Qltb.
  destruct (Qle_bool p q); simpl; split; congruence.
Qed.

Lemma Qeq_bool_false (p q : Q) : Qeq_bool p q = false <-> ~ (p == q)%Q.
Proof.
  split.
  - intros H Heq. apply Qeq_bool_iff in Heq. congruence.
  - intros H. destruct (Qeq_bool p q) eqn:E; [|reflexivity].
    apply Qeq_bool_iff in E. contradiction.
Qed.

(** Turns the boolean comparisons of the context and of the goal into
    propositions on rationals. *)
Ltac qprop :=
  repeat match goal with
  | H : Qle_bool _ _ = true |- _ => apply Qle_bool_iff in H
  | H : Qle_bool _ _ = false |- _ => apply Qle_bool_gt in H
  | H : Qltb _ _ = true |- _ => apply Qltb_lt in H
  | H : Qltb _ _ = false |- _ => apply Qltb_ge in H
  | H : Qeq_bool _ _ = true |- _ => apply Qeq_bool_iff in H
  | H : Qeq_bool _ _ = false |- _ => apply Qeq_bool_false in H
  | |- Qle_bool _ _ = true => apply Qle_bool_iff
  | |- Qle_bool _ _ = false => apply Qle_bool_gt
  | |- Qltb _ _ = true => apply Qltb_lt
  | |- Qltb _ _ = false => apply Qltb_ge
  | |- Qeq_bool _ _ = true => apply Qeq_bool_iff
  | |- Qeq_bool _ _ = false => apply Qeq_bool_false
  end;
  change (inject_Z 0) with 0%Q in *.

(** Case analysis on every boolean test on rationals that blocks the
    goal. *)
Ltac qcases :=
  repeat match goal with
  | |- context [Qle_bool ?p ?q] => destruct (Qle_bool p q) eqn:?
  | |- context [Qltb ?p ?q] => destruct (Qltb p q) eqn:?
  | |- context [Qeq_bool ?p ?q] => destruct (Qeq_bool p q) eqn:?
  end.

(** ** Order facts on numbers *)

Lemma nle_trans (x y z : number) :
  (x <=? y)%js = true -> (y <=? z)%js = true -> (x <=? z)%js = true.
Proof.
  destruct x, y, z; simpl; try congruence.
  intros. qprop. eapply Qle_trans; eassumption.
Qed.

Lemma below_trans (r a y : number) : below r a -> below a y -> below r y.
Proof.
  intros [->|Hra]; [left; reflexivity|].
  intros [->|Hay].
  - destruct r; simpl in Hra; congruence.
  - right. eapply nle_trans; eassumption.
Qed.

Lemma below_not_gt (r y : number) : below r y -> (r >? y)%js = false.
Proof.
  unfold ngt. intros [->|H].
  - destruct y; reflexivity.
  - destruct r, y; simpl in *; try congruence.
    qprop. assumption.
Qed.

Lemma below_refl (x : number) : below x x.
Proof.
  destruct x; try (right; reflexivity); [|left; reflexivity].
  right. simpl. qprop. apply Qle_refl.
Qed.

Lemma min2_below_l (x y : number) : below (min2 x y) x.
Proof.
  destruct x, y; simpl; try (left; reflexivity); try (right; reflexivity).
  - destruct (Qle_bool q q0) eqn:E; right; simpl; qprop.
    + apply Qle_refl.
    + apply Qlt_le_weak. assumption.
  - right. simpl. qprop. apply Qle_refl.
Qed.

Lemma min2_below_r (x y : number) : below (min2 x y) y.
Proof.
  destruct x, y; simpl; try (left; reflexivity); try (right; reflexivity).
  - destruct (Qle_bool q q0) eqn:E; right; simpl; qprop.
    + assumption.
    + apply Qle_refl.
  - right. simpl. qprop. apply Qle_refl.
Qed.

Lemma fold_min2_below_acc (l : list number) (acc : number) :
  below (fold_left min2 l acc) acc.
Proof.
  revert acc. induction l as [|x l IH]; intros acc; simpl.
  - apply below_refl.
  - eapply below_trans; [apply IH|apply min2_below_l].
Qed.

Lemma Math_min_below (l : list number) (y : number) :
  In y l -> below (Math_min l) y.
Proof.
  unfold Math_min. generalize PInf as acc.
  induction l as [|x l IH]; intros acc Hin; [destruct Hin|].
  simpl. destruct Hin as [->|Hin].
  - eapply below_trans; [apply fold_min2_below_acc|apply min2_below_r].
  - apply IH. assumption.
Qed.

Lemma min2_PInf_l (x : number) : min2 PInf x = x.
Proof. destruct x; reflexivity. Qed.

Lemma max2_NInf_l (x : number) : max2 NInf x = x.
Proof. destruct x; reflexivity. Qed.

(** ** Integer-valued numbers *)

Lemma Qle_bool_inject_Z (a b : Z) :
  Qle_bool (inject_Z a) (inject_Z b) = (a <=? b)%Z.
Proof.
  unfold Qle_bool, inject_Z. simpl. rewrite !Z.mul_1_r. reflexivity.
Qed.

Lemma nle_num (a b : Z) : (num a <=? num b)%js = (a <=? b)%Z.
Proof. apply Qle_bool_inject_Z. Qed.

Lemma max2_num (a b : Z) : max2 (num a) (num b) = num (Z.max a b).
Proof.
  unfold num, max2. simpl. rewrite Qle_bool_inject_Z.
  destruct (Z.leb_spec a b).
  - rewrite Z.max_r by assumption. reflexivity.
  - rewrite Z.max_l by lia. reflexivity.
Qed.

Lemma min2_num (a b : Z) : min2 (num a) (num b) = num (Z.min a b).
Proof.
  unfold num, min2. simpl. rewrite Qle_bool_inject_Z.
  destruct (Z.leb_spec a b).
  - rewrite Z.min_l by assumption. reflexivity.
  - rewrite Z.min_r by lia. reflexivity.
Qed.

Lemma Math_floor_Fin (q : Q) : Math_floor (Fin q) = num (Qfloor q).
Proof. reflexivity. Qed.

(** ** Tax (C3) *)

Lemma calculateGETax_Fin (q : Q) : calculateGETax (Fin q) = num (tax_spec q).
Proof.
  unfold calculateGETax, Math_min, Math_max, GE_TAX_RATE, MAX_GE_TAX, tax_spec.
  cbn [fold_left nmul]. rewrite Math_floor_Fin, max2_NInf_l, min2_PInf_l.
  rewrite max2_num, min2_num. reflexivity.
Qed.

(** C3. [calculateGETax] is the floor of [sellPrice * 0.02] clamped to
    [[1, 5000000]]: on every finite price it returns [tax_spec]; for every
    price above zero (the positive infinity included) the tax lies between
    1 and 5000000; and the tax of a zero price is 1. *)
Theorem calculateGETax_floor_then_clamp :
  (forall q : Q, calculateGETax (Fin q) = num (tax_spec q)) /\
  (forall sellPrice : number,
      (sellPrice >? num 0)%js = true ->
      (num 1 <=? calculateGETax sellPrice)%js = true /\
      (calculateGETax sellPrice <=? num 5000000)%js = true) /\
  calculateGETax (num 0) = num 1.
Proof.
  split; [exact calculateGETax_Fin|]. split; [|reflexivity].
  intros [q| | |] Hpos; try discriminate Hpos.
  - rewrite calculateGETax_Fin, !nle_num. unfold tax_spec.
    split; apply Z.leb_le; lia.
  - split; reflexivity.
Qed.

Lemma calculateGETax_floor_then_clamp_witness :
  (num 110 >? num 0)%js = true /\
  (num 1 <=? calculateGETax (num 110))%js = true /\
  (calculateGETax (num 110) <=? num 5000000)%js = true.
Proof.
  split; [reflexivity|].
  apply (proj1 (proj2 calculateGETax_floor_then_clamp) (num 110)).
  reflexivity.
Defined.

(** ** Agreement of numbers, and the algebra of [Math.min] *)

Lemma numeq_refl (x : number) : numeq x x.
Proof. destruct x; simpl; auto. apply Qeq_refl. Qed.

Lemma numeq_sym (x y : number) : numeq x y -> numeq y x.
Proof. destruct x, y; simpl; auto. apply Qeq_sym. Qed.

Lemma numeq_trans (x y z : number) : numeq x y -> numeq y z -> numeq x z.
Proof.
  destruct x, y, z; simpl; auto; try contradiction. apply Qeq_trans.
Qed.

#[export] Instance numeq_Equivalence : Equivalence numeq.
Proof.
  split; [exact numeq_refl|exact numeq_sym|exact numeq_trans].
Qed.

(** Settles a goal on numbers by cases on the shape of the numbers and on
    the rational tests in the way, leaving linear arithmetic. *)
Ltac num_crush :=
  simpl in *; try congruence; try contradiction; try reflexivity;
  qcases; simpl in *; try congruence; try contradiction; try reflexivity;
  qprop; try lra.

#[export] Instance min2_Proper : Proper (numeq ==> numeq ==> numeq) min2.
Proof.
  intros x x' Hx y y' Hy.
  destruct x, x', y, y'; unfold min2, nle; num_crush.
Qed.

Lemma min2_comm (x y : number) : numeq (min2 x y) (min2 y x).
Proof. destruct x, y; unfold min2, nle; num_crush. Qed.

Lemma min2_assoc (x y z : number) :
  numeq (min2 (min2 x y) z) (min2 x (min2 y z)).
Proof.
  destruct x, y, z; unfold min2, nle; simpl; try reflexivity;
    repeat (qcases; simpl); try reflexivity; qprop; try lra.
Qed.

Lemma min2_absorb_l (x y : number) :
  (x <=? y)%js = true -> numeq (min2 x y) x.
Proof. destruct x, y; unfold min2, nle; num_crush. Qed.

Lemma min2_idem (x : number) : numeq (min2 x x) x.
Proof. destruct x; unfold min2, nle; num_crush. Qed.

Lemma min2_PInf_r (x : number) : min2 x PInf = x.
Proof. destruct x; reflexivity. Qed.

Lemma min2_lt_l (x y : number) : (x <? y)%js = true -> min2 x y = x.
Proof.
  destruct x, y; simpl; try congruence.
  intros H. qprop. destruct (Qle_bool q q0) eqn:E; [reflexivity|].
  qprop. lra.
Qed.

Lemma nlt_min2 (m x y : number) :
  (m <? min2 x y)%js = true -> (m <? x)%js = true /\ (m <? y)%js = true.
Proof.
  destruct m, x, y; simpl; try congruence; try (split; congruence).
  - destruct (Qle_bool q0 q1) eqn:E; simpl; intros H; qprop;
      split; qprop; lra.
  - destruct (Qle_bool q q0) eqn:E; simpl; intros H; split; congruence.
Qed.

(** ** Quantity sizing (C5, C6) *)

Lemma calculateOptimalQuantity_unfold
    (budget avgPrice buyLimit volume pct : number) :
  calculateOptimalQuantity budget avgPrice buyLimit volume pct =
  min2 (min2 (min2 (if (buyLimit === num 0)%js then MAX_SAFE_INTEGER
                    else buyLimit)
                   (byAllocation budget avgPrice pct))
             (byBudget budget avgPrice))
       (if (volume >? num 0)%js
        then Math_max [num 1; Math_floor (volume * Fin 0.1)%js]
        else MAX_SAFE_INTEGER).
Proof.
  unfold calculateOptimalQuantity, Math_min. cbn [fold_left].
  rewrite min2_PInf_l. reflexivity.
Qed.

(** C5 (as amended). For every budget, average price above zero, volume
    and budget share: a buy limit other than 0 is never exceeded by the
    returned quantity; with the buy limit 0 the quantity is the smallest
    of the budget-derived and volume-derived bounds as long as that
    smallest bound is at most [Number.MAX_SAFE_INTEGER], the finite value
    the code puts in place of "unlimited", and is
    [Number.MAX_SAFE_INTEGER] itself beyond. *)
Theorem calculateOptimalQuantity_buy_limit
    (budget avgPrice buyLimit volume maxBudgetPercent : number) :
  (avgPrice >? num 0)%js = true ->
  let quantity :=
    calculateOptimalQuantity budget avgPrice buyLimit volume
      maxBudgetPercent in
  let bound :=
    Math_min [byAllocation budget avgPrice maxBudgetPercent;
              byBudget budget avgPrice; byVolume volume] in
  ((buyLimit === num 0)%js = false -> (quantity >? buyLimit)%js = false) /\
  ((buyLimit === num 0)%js = true ->
     ((bound <=? MAX_SAFE_INTEGER)%js = true -> numeq quantity bound) /\
     ((bound >? MAX_SAFE_INTEGER)%js = true -> quantity = MAX_SAFE_INTEGER)).
Proof.
  intros _ quantity bound. split.
  - intros Hlim. apply below_not_gt. subst quantity.
    unfold calculateOptimalQuantity. rewrite Hlim.
    apply Math_min_below. left. reflexivity.
  - intros Hlim. subst quantity bound.
    rewrite calculateOptimalQuantity_unfold, Hlim.
    unfold Math_min, byVolume. cbn [fold_left]. rewrite min2_PInf_l.
    set (a := byAllocation budget avgPrice maxBudgetPercent).
    set (b := byBudget budget avgPrice).
    set (M := MAX_SAFE_INTEGER).
    destruct (volume >? num 0)%js.
    + set (V := Math_max _). split.
      * intros Hb.
        rewrite !min2_assoc. rewrite <- (min2_assoc a b V).
        rewrite min2_comm. apply min2_absorb_l. assumption.
      * intros Hb. unfold ngt in Hb.
        apply nlt_min2 in Hb. destruct Hb as [Hab HV].
        apply nlt_min2 in Hab. destruct Hab as [Ha Hb].
        rewrite (min2_lt_l M a Ha), (min2_lt_l M b Hb).
        apply min2_lt_l. assumption.
    + rewrite min2_PInf_r. split.
      * intros Hb.
        rewrite (min2_assoc M a b), (min2_comm M (min2 a b)).
        rewrite (min2_assoc (min2 a b) M M), min2_idem.
        apply min2_absorb_l. assumption.
      * intros Hb. unfold ngt in Hb.
        apply nlt_min2 in Hb. destruct Hb as [Ha Hb].
        rewrite (min2_lt_l M a Ha), (min2_lt_l M b Hb).
        reflexivity.
Qed.

Lemma calculateOptimalQuantity_buy_limit_witness :
  (num 105 >? num 0)%js = true /\
  (calculateOptimalQuantity (num 10000) (num 105) (num 100) (num 2000)
     (num 1) >? num 100)%js = false /\
  numeq (calculateOptimalQuantity (num 10000) (num 105) (num 0) (num 2000)
           (num 1))
        (Math_min [byAllocation (num 10000) (num 105) (num 1);
                   byBudget (num 10000) (num 105); byVolume (num 2000)]).
Proof.
  split; [reflexivity|]. split.
  - apply (proj1 (calculateOptimalQuantity_buy_limit (num 10000) (num 105)
                    (num 100) (num 2000) (num 1) eq_refl)).
    reflexivity.
  - apply (proj2 (calculateOptimalQuantity_buy_limit (num 10000) (num 105)
                    (num 0) (num 2000) (num 1) eq_refl)); reflexivity.
Defined.

(** C5, as first stated, fails: with no buy limit, a budget of 10^17 at
    a price of 1 and a volume of 10^18, the quantity is
    [Number.MAX_SAFE_INTEGER], strictly below each of the budget-derived
    and volume-derived bounds. *)
Lemma calculateOptimalQuantity_unlimited_is_capped :
  (num 1 >? num 0)%js = true /\
  (num 0 === num 0)%js = true /\
  calculateOptimalQuantity (num 100000000000000000) (num 1) (num 0)
    (num 1000000000000000000) (num 1) = num 9007199254740991 /\
  (num 9007199254740991
   <? byAllocation (num 100000000000000000) (num 1) (num 1))%js = true /\
  (num 9007199254740991
   <? byBudget (num 100000000000000000) (num 1))%js = true /\
  (num 9007199254740991 <? byVolume (num 1000000000000000000))%js = true.
Proof. vm_compute. repeat split. Qed.

Lemma nonneg_Fin (q : Q) : nonneg (Fin q) <-> (0 <= q)%Q.
Proof. unfold nonneg. simpl. apply Qltb_ge. Qed.

Lemma nge_nonneg (x : number) : (x >=? num 0)%js = true -> nonneg x.
Proof.
  unfold nge, nonneg. destruct x; simpl; try congruence.
  intros H. qprop. assumption.
Qed.

Lemma inf_times_pos (q : Q) : (0 < q)%Q -> inf_times q = PInf.
Proof.
  intros H. unfold inf_times.
  destruct (Qcompare_spec q 0); try reflexivity; lra.
Qed.

Lemma inf_times_zero (q : Q) : (q == 0)%Q -> inf_times q = NaN.
Proof.
  intros H. unfold inf_times.
  destruct (Qcompare_spec q 0); try reflexivity; lra.
Qed.

Lemma inf_times_nonneg (q : Q) : (0 <= q)%Q -> nonneg (inf_times q).
Proof.
  intros H. destruct (Qlt_le_dec 0 q) as [Hlt|Hle].
  - rewrite inf_times_pos by assumption. reflexivity.
  - rewrite inf_times_zero by lra. reflexivity.
Qed.

Lemma nonneg_mul (x y : number) : nonneg x -> nonneg y -> nonneg (x * y)%js.
Proof.
  destruct x as [p| | |], y as [q| | |]; intros Hx Hy;
    try discriminate Hx; try discriminate Hy; try reflexivity.
  - apply nonneg_Fin in Hx, Hy. apply nonneg_Fin.
    apply Qmult_le_0_compat; assumption.
  - apply nonneg_Fin in Hx. apply inf_times_nonneg. assumption.
  - apply nonneg_Fin in Hy. apply inf_times_nonneg. assumption.
Qed.

Lemma Qdiv_nonneg (p q : Q) : (0 <= p)%Q -> (0 < q)%Q -> (0 <= p / q)%Q.
Proof.
  intros Hp Hq. apply Qle_shift_div_l; [assumption|]. lra.
Qed.

Lemma ndiv_Fin (p q : Q) : ~ (q == 0)%Q -> (Fin p / Fin q)%js = Fin (p / q).
Proof.
  intros H. simpl. apply Qeq_bool_false in H. rewrite H. reflexivity.
Qed.

Lemma nonneg_div (x y : number) :
  nonneg x -> (y >? num 0)%js = true -> nonneg (x / y)%js.
Proof.
  unfold ngt.
  destruct x as [p| | |], y as [q| | |]; intros Hx Hy;
    try discriminate Hx; try discriminate Hy; try reflexivity.
  - simpl in Hy. qprop. apply nonneg_Fin in Hx.
    rewrite ndiv_Fin by lra. apply nonneg_Fin.
    apply Qdiv_nonneg; assumption.
  - simpl in Hy. qprop. simpl.
    destruct (Qltb q 0) eqn:E; [qprop; lra|reflexivity].
Qed.

Lemma nonneg_floor (x : number) : nonneg x -> nonneg (Math_floor x).
Proof.
  destruct x as [p| | |]; intros Hx; try discriminate Hx; try reflexivity.
  apply nonneg_Fin in Hx. simpl. apply nonneg_Fin.
  change 0%Q with (inject_Z 0). rewrite <- Zle_Qle.
  rewrite <- (Qfloor_Z 0). apply Qfloor_resp_le. assumption.
Qed.

Lemma nonneg_min2 (x y : number) : nonneg x -> nonneg y -> nonneg (min2 x y).
Proof.
  destruct x as [p| | |], y as [q| | |]; intros Hx Hy;
    try discriminate Hx; try discriminate Hy; try reflexivity;
    try assumption.
  simpl. destruct (Qle_bool p q); assumption.
Qed.

Lemma nonneg_max2 (x y : number) : nonneg x -> nonneg y -> nonneg (max2 x y).
Proof.
  destruct x as [p| | |], y as [q| | |]; intros Hx Hy;
    try discriminate Hx; try discriminate Hy; try reflexivity;
    try assumption.
  simpl. destruct (Qle_bool p q); assumption.
Qed.

Lemma min2_Fin (p q : Q) : numeq (min2 (Fin p) (Fin q)) (Fin (Qmin p q)).
Proof.
  simpl. destruct (Qle_bool p q) eqn:E; qprop; simpl.
  - symmetry. apply Q.min_l. assumption.
  - symmetry. apply Q.min_r. lra.
Qed.

Lemma max2_Fin (p q : Q) : numeq (max2 (Fin p) (Fin q)) (Fin (Qmax p q)).
Proof.
  simpl. destruct (Qle_bool p q) eqn:E; qprop; simpl.
  - symmetry. apply Q.max_r. assumption.
  - symmetry. apply Q.max_l. lra.
Qed.

Lemma calculateOptimalQuantity_Fin (b a L v p : Q) :
  (0 < a)%Q ->
  numeq (calculateOptimalQuantity (Fin b) (Fin a) (Fin L) (Fin v) (Fin p))
        (Fin (sizeQuantity_spec b a L v p)).
Proof.
  intros Ha. rewrite calculateOptimalQuantity_unfold.
  unfold byAllocation, byBudget, sizeQuantity_spec.
  cbn [nmul]. rewrite !ndiv_Fin by lra. rewrite !Math_floor_Fin.
  set (A := Qfloor (b * p / a)). set (B := Qfloor (b / a)).
  assert (Heff : (if (Fin L === num 0)%js then MAX_SAFE_INTEGER else Fin L)
                 = Fin (if Qeq_bool L 0 then inject_Z 9007199254740991
                        else L)).
  { change (Fin L === num 0)%js with (Qeq_bool L 0).
    destruct (Qeq_bool L 0); reflexivity. }
  assert (Hvol : numeq
            (if (Fin v >? num 0)%js
             then Math_max [num 1; Math_floor (Fin v * Fin 0.1)%js]
             else MAX_SAFE_INTEGER)
            (Fin (if Qltb 0 v
                  then Qmax 1 (inject_Z (Qfloor (v * 0.1)))
                  else inject_Z 9007199254740991))).
  { change (Fin v >? num 0)%js with (Qltb 0 v).
    destruct (Qltb 0 v); [|reflexivity].
    unfold Math_max. cbn [fold_left nmul].
    rewrite max2_NInf_l, Math_floor_Fin. apply max2_Fin. }
  rewrite Heff, Hvol. unfold num.
  rewrite !min2_assoc. rewrite !min2_Fin. reflexivity.
Qed.

Lemma calculateOptimalQuantity_nonneg
    (budget avgPrice buyLimit volume pct : number) :
  (budget >=? num 0)%js = true -> (avgPrice >? num 0)%js = true ->
  (buyLimit >=? num 0)%js = true -> (volume >=? num 0)%js = true ->
  (pct >=? num 0)%js = true ->
  nonneg (calculateOptimalQuantity budget avgPrice buyLimit volume pct).
Proof.
  intros Hb Ha HL Hv Hp.
  apply nge_nonneg in Hb, HL, Hv, Hp.
  rewrite calculateOptimalQuantity_unfold.
  repeat apply nonneg_min2.
  - destruct (buyLimit === num 0)%js; [reflexivity|assumption].
  - apply nonneg_floor, nonneg_div; [apply nonneg_mul|]; assumption.
  - apply nonneg_floor, nonneg_div; assumption.
  - destruct (volume >? num 0)%js; [|reflexivity].
    unfold Math_max. cbn [fold_left]. rewrite max2_NInf_l.
    apply nonneg_max2; [reflexivity|].
    apply nonneg_floor, nonneg_mul; [assumption|reflexivity].
Qed.

(** C6 (as amended). For finite inputs with an average price above zero,
    [calculateOptimalQuantity] returns the smallest of the effective
    limit, the allocation bound, the budget bound and the volume bound,
    where [2^53 - 1] stands for "no limit" (buy limit 0) and for "no
    volume" (volume not above 0).  For every budget that is not negative
    (with average price above zero, and buy limit, volume and budget
    share not negative) the returned quantity is not negative. *)
Theorem calculateOptimalQuantity_min_of_bounds :
  (forall budget avgPrice positionLimit volume maxBudgetFraction : Q,
      (0 < avgPrice)%Q ->
      numeq (calculateOptimalQuantity (Fin budget) (Fin avgPrice)
               (Fin positionLimit) (Fin volume) (Fin maxBudgetFraction))
            (Fin (sizeQuantity_spec budget avgPrice positionLimit volume
                    maxBudgetFraction))) /\
  (forall budget avgPrice buyLimit volume maxBudgetPercent : number,
      (budget >=? num 0)%js = true -> (avgPrice >? num 0)%js = true ->
      (buyLimit >=? num 0)%js = true -> (volume >=? num 0)%js = true ->
      (maxBudgetPercent >=? num 0)%js = true ->
      (calculateOptimalQuantity budget avgPrice buyLimit volume
         maxBudgetPercent <? num 0)%js = false).
Proof.
  split.
  - exact calculateOptimalQuantity_Fin.
  - exact calculateOptimalQuantity_nonneg.
Qed.

Lemma calculateOptimalQuantity_min_of_bounds_witness :
  numeq (calculateOptimalQuantity (Fin 10000) (Fin 105) (Fin 100) (Fin 2000)
           (Fin 1))
        (Fin (sizeQuantity_spec 10000 105 100 2000 1)) /\
  (calculateOptimalQuantity (num 10000) (num 105) (num 100) (num 2000)
     (num 1) <? num 0)%js = false.
Proof.
  split.
  - apply (proj1 calculateOptimalQuantity_min_of_bounds 10000 105 100 2000 1)%Q.
    reflexivity.
  - apply (proj2 calculateOptimalQuantity_min_of_bounds (num 10000) (num 105)
             (num 100) (num 2000) (num 1)); reflexivity.
Defined.

(** C6, as first stated, fails twice.  The quantity is not floored at 0:
    a budget of -100 at a price of 1 sizes to -100.  And "no volume" is
    [2^53 - 1], not an infinite bound: with buy limit and budget 10^17, a
    price of 1 and no volume, the quantity is [2^53 - 1], below the
    smallest of the four bounds as the specification words them. *)
Lemma calculateOptimalQuantity_not_floored_at_zero :
  ((num 1 >? num 0)%js = true /\ (num 0 >=? num 0)%js = true /\
   (calculateOptimalQuantity (num (-100)) (num 1) (num 0) (num 0) (num 1)
    <? num 0)%js = true) /\
  (calculateOptimalQuantity (num 100000000000000000) (num 1)
     (num 100000000000000000) (num 0) (num 1) = num 9007199254740991 /\
   Math_min [num 100000000000000000;
             byAllocation (num 100000000000000000) (num 1) (num 1);
             byBudget (num 100000000000000000) (num 1);
             byVolume (num 0)] = num 100000000000000000).
Proof. vm_compute. repeat split. Qed.

(** ** Post-evaluation filter (C7) *)

(** C7. Whatever the thresholds handed to the filter and whatever its
    other fields, an opportunity whose [marginPercent] is above 1000 is
    not in the output of [filterProfitableOpportunities]. *)
Theorem filterProfitableOpportunities_margin_cap
    (opportunities : list FlipOpportunity)
    (minProfit minROI minVolume maxVolatility : number)
    (opp : FlipOpportunity) :
  (marginPercent opp >? num 1000)%js = true ->
  ~ In opp (filterProfitableOpportunities opportunities minProfit minROI
              minVolume maxVolatility).
Proof.
  intros Hm Hin. unfold filterProfitableOpportunities in Hin.
  apply List.filter_In in Hin. destruct Hin as [_ Hkeep].
  change MAX_MARGIN_PERCENT with (num 1000) in Hkeep. rewrite Hm in Hkeep.
  destruct (_ || _) in Hkeep; discriminate Hkeep.
Qed.

Lemma filterProfitableOpportunities_margin_cap_witness :
  (marginPercent (testOpportunity 3 (num 1500)) >? num 1000)%js = true /\
  ~ In (testOpportunity 3 (num 1500))
       (filterProfitableOpportunities
          [testOpportunity 2 (num 1000); testOpportunity 3 (num 1500)]
          default_minProfit default_minROI default_minVolume
          default_maxVolatility).
Proof.
  split; [reflexivity|].
  apply (filterProfitableOpportunities_margin_cap
           [testOpportunity 2 (num 1000); testOpportunity 3 (num 1500)]
           default_minProfit default_minROI default_minVolume
           default_maxVolatility (testOpportunity 3 (num 1500))).
  reflexivity.
Defined.

(** The assertion of the repository's test: of a pair at the cap and one
    above it, only the first is kept. *)
Example filterProfitableOpportunities_test :
  map id
    (filterProfitableOpportunities
       [testOpportunity 2 MAX_MARGIN_PERCENT;
        testOpportunity 3 (MAX_MARGIN_PERCENT + num 1)%js]
       default_minProfit default_minROI default_minVolume
       default_maxVolatility) = [2%Z].
Proof. reflexivity. Qed.

(** ** Anomaly detection (C4) *)




(** ** The evaluation scenario (C2) *)

(** C2 (as amended). For the item with high 110, low 100, volume 2000 and
    buy limit 100 under a budget of 10000, the evaluation yields margin
    10, tax 2 and a profit after tax of 8 per unit; the quantity is sized
    on the average price 105, which gives min(100, floor(10000/105) = 95,
    200) = 95 units, a total cost of 9500, a profit after tax of 760, and
    a return of 8 percent. *)
Theorem evaluateItem_scenario (Math_sqrt : number -> number) :
  exists opp : FlipOpportunity,
    evaluateItem Math_sqrt scenarioVolumes (num 10000) false false
      scenarioItem = Some opp /\
    margin opp = num 10 /\
    calculateGETax (currentHigh opp) = num 2 /\
    (margin opp - calculateGETax (currentHigh opp))%js = num 8 /\
    avgPrice opp = Fin (210 # 2) /\
    quantity opp = num 95 /\
    totalCost opp = num 9500 /\
    profitAfterTax opp = num 760 /\
    numeq (roi opp) (num 8).
Proof.
  eexists. split; [vm_compute; reflexivity|].
  vm_compute. repeat split.
Qed.

(** C2, as first stated, fails: the scenario is sized to 95 units, not
    100, so the total cost is 9500 and the profit after tax 760. *)
Lemma evaluateItem_scenario_not_100_units :
  option_map quantity
    (evaluateItem sqrt_floor scenarioVolumes (num 10000) false false
       scenarioItem) = Some (num 95) /\
  option_map totalCost
    (evaluateItem sqrt_floor scenarioVolumes (num 10000) false false
       scenarioItem) = Some (num 9500) /\
  option_map profitAfterTax
    (evaluateItem sqrt_floor scenarioVolumes (num 10000) false false
       scenarioItem) = Some (num 760) /\
  (num 95 === num 100)%js = false /\
  (num 9500 === num 10000)%js = false /\
  (num 760 === num 800)%js = false.
Proof. vm_compute. repeat split. Qed.

(** ** Non-positive budgets (C8) *)

Lemma selectLoop_no_budget (budget : number)
    (opportunities selected : list FlipOpportunity) :
  (budget <=? num 0)%js = true ->
  selectLoop budget opportunities budget selected = (budget, selected).
Proof.
  intros Hb. destruct opportunities as [|o rest]; [reflexivity|].
  cbn [selectLoop]. rewrite Hb. reflexivity.
Qed.

(** C8 (as amended). For every budget that is zero or negative,
    [buildPortfolio], the selection pass of [getPortfolioSuggestion],
    yields an empty portfolio: no selection and zero totals, return and
    item count.  For every budget below zero the budget utilization is
    zero as well, so that no field is [NaN] or infinite. *)
Theorem buildPortfolio_non_positive_budget
    (opportunities : list FlipOpportunity) (budget : number) (now : Z) :
  (budget <=? num 0)%js = true ->
  let p := buildPortfolio opportunities budget now in
  PortfolioSuggestion.opportunities p = [] /\
  PortfolioSuggestion.totalCost p = num 0 /\
  PortfolioSuggestion.totalProfit p = num 0 /\
  PortfolioSuggestion.totalProfitAfterTax p = num 0 /\
  PortfolioSuggestion.totalROI p = num 0 /\
  PortfolioSuggestion.itemCount p = num 0 /\
  ((budget <? num 0)%js = true ->
   numeq (PortfolioSuggestion.budgetUtilization p) (num 0)).
Proof.
  intros Hb p. subst p. unfold buildPortfolio.
  rewrite selectLoop_no_budget by assumption.
  cbn [snd reduce fold_left PortfolioSuggestion.opportunities
       PortfolioSuggestion.totalCost PortfolioSuggestion.totalProfit
       PortfolioSuggestion.totalProfitAfterTax PortfolioSuggestion.totalROI
       PortfolioSuggestion.itemCount PortfolioSuggestion.budgetUtilization].
  repeat (split; [reflexivity|]).
  intros Hneg. destruct budget as [b| | |]; try discriminate Hneg.
  - simpl in Hneg. qprop.
    unfold num. rewrite ndiv_Fin by lra. cbn [nmul numeq].
    change (inject_Z 0) with 0%Q. field. lra.
  - reflexivity.
Qed.

Lemma buildPortfolio_non_positive_budget_witness :
  PortfolioSuggestion.opportunities
    (buildPortfolio [testOpportunity 1 (num 10)] (num (-5)) 0) = [] /\
  numeq (PortfolioSuggestion.budgetUtilization
           (buildPortfolio [testOpportunity 1 (num 10)] (num (-5)) 0))
        (num 0).
Proof.
  pose proof (buildPortfolio_non_positive_budget
                [testOpportunity 1 (num 10)] (num (-5)) 0 eq_refl) as H.
  cbv zeta in H. destruct H as (Hsel & _ & _ & _ & _ & _ & Hutil).
  split; [exact Hsel|]. apply Hutil. reflexivity.
Defined.

(** C8, as first stated, fails at the budget 0: the portfolio is empty,
    and its budget utilization, [0 / 0 * 100], is [NaN]. *)
Lemma buildPortfolio_zero_budget_NaN :
  (num 0 <=? num 0)%js = true /\
  PortfolioSuggestion.opportunities
    (buildPortfolio [testOpportunity 1 (num 10)] (num 0) 0) = [] /\
  PortfolioSuggestion.budgetUtilization
    (buildPortfolio [testOpportunity 1 (num 10)] (num 0) 0) = NaN.
Proof. vm_compute. repeat split. Qed.

(** ** Sorting: permutation *)

Section ArraySortFacts.

Context {A : Type}.
Variable comparefn : A -> A -> number.

Lemma sort_insert_Permutation (x : A) (l : list A) :
  Permutation (sort_insert comparefn x l) (x :: l).
Proof.
  induction l as [|y l IH]; cbn [sort_insert]; [reflexivity|].
  destruct (comparefn x y >? num 0)%js; [|reflexivity].
  rewrite IH. apply perm_swap.
Qed.

Lemma Array_sort_Permutation (l : list A) :
  Permutation (Array_sort comparefn l) l.
Proof.
  induction l as [|x l IH]; cbn [Array_sort foldr]; [reflexivity|].
  rewrite sort_insert_Permutation. apply perm_skip. exact IH.
Qed.

Lemma Array_sort_In (x : A) (l : list A) :
  In x (Array_sort comparefn l) <-> In x l.
Proof.
  split; apply Permutation_in;
    [|symmetry]; apply Array_sort_Permutation.
Qed.

End ArraySortFacts.

Lemma findIndex_from_bounds {A} (p : A -> bool) (l : list A) (i : Z) :
  (exists x, In x l /\ p x = true) ->
  (i <= findIndex_from p l i < i + Z.of_nat (length l))%Z.
Proof.
  revert i. induction l as [|y l IH]; intros i [x [Hin Hp]].
  - destruct Hin.
  - cbn [findIndex_from length]. rewrite Nat2Z.inj_succ.
    destruct (p y) eqn:Hy; [lia|].
    destruct Hin as [->|Hin]; [congruence|].
    specialize (IH (i + 1)%Z (ex_intro _ x (conj Hin Hp))). lia.
Qed.

Lemma findIndex_bounds {A} (p : A -> bool) (l : list A) :
  (exists x, In x l /\ p x = true) ->
  (0 <= findIndex p l < Z.of_nat (length l))%Z.
Proof. intros H. apply (findIndex_from_bounds p l 0 H). Qed.

(** ** Composite scores (C10) *)

Lemma rank_score_range (k n : Z) :
  (0 <= k < n)%Z ->
  exists s : Q,
    (num 1 - num k / num n)%js = Fin s /\ inRange (inject_Z n) s.
Proof.
  intros Hk. unfold num.
  assert (Hn : (0 < inject_Z n)%Q).
  { change 0%Q with (inject_Z 0). rewrite <- Zlt_Qlt. lia. }
  assert (Hk0 : (0 <= inject_Z k)%Q).
  { change 0%Q with (inject_Z 0). rewrite <- Zle_Qle. lia. }
  assert (Hk1 : (inject_Z k + 1 <= inject_Z n)%Q).
  { change 1%Q with (inject_Z 1). rewrite <- inject_Z_plus, <- Zle_Qle. lia. }
  rewrite ndiv_Fin by lra. cbn [nsub nneg nadd].
  eexists. split; [reflexivity|]. unfold inRange.
  set (N := inject_Z n) in *. set (K := inject_Z k) in *.
  split.
  - apply (Qmult_le_r _ _ N Hn).
    assert (E1 : (1 / N * N == 1)%Q) by (field; lra).
    assert (E2 : ((inject_Z 1 + - (K / N)) * N == N - K)%Q)
      by (change (inject_Z 1) with 1%Q; field; lra).
    rewrite E1, E2. lra.
  - change (inject_Z 1) with 1%Q.
    assert (0 <= K / N)%Q by (apply Qdiv_nonneg; assumption).
    lra.
Qed.

Lemma rankIn_score_range (opportunities sorted : list FlipOpportunity)
    (opp : FlipOpportunity) :
  Permutation sorted opportunities ->
  In opp opportunities ->
  exists s : Q,
    (num 1 - rankIn sorted opp / nlength opportunities)%js = Fin s /\
    inRange (inject_Z (Z.of_nat (length opportunities))) s.
Proof.
  intros Hperm Hin. unfold rankIn, nlength.
  apply rank_score_range.
  rewrite <- (Permutation_length Hperm).
  apply findIndex_bounds. exists opp. split.
  - eapply Permutation_in; [symmetry; exact Hperm|exact Hin].
  - apply Z.eqb_refl.
Qed.

Lemma inRange_positive (n x : Q) : (0 < n)%Q -> inRange n x -> (0 < x)%Q.
Proof.
  intros Hn [Hlo _].
  assert (0 < 1 / n)%Q by (apply Qlt_shift_div_l; lra).
  lra.
Qed.

Lemma inRange_blend (n p v r : Q) :
  inRange n p -> inRange n v -> inRange n r ->
  inRange n (p * 0.5 + v * 0.3 + r * 0.2).
Proof. unfold inRange. intros [? ?] [? ?] [? ?]. split; lra. Qed.

Lemma compositeScoreOf_range (opportunities : list FlipOpportunity)
    (opp : FlipOpportunity) :
  In opp opportunities ->
  let n := inject_Z (Z.of_nat (length opportunities)) in
  exists p v r : Q,
    profitScore opportunities opp = Fin p /\ inRange n p /\
    volumeScore opportunities opp = Fin v /\ inRange n v /\
    roiScore opportunities opp = Fin r /\ inRange n r /\
    compositeScoreOf opportunities opp = Fin (p * 0.5 + v * 0.3 + r * 0.2) /\
    (0 < p * 0.5 + v * 0.3 + r * 0.2 <= 1)%Q.
Proof.
  intros Hopp n.
  assert (Hn : (0 < n)%Q).
  { subst n. change 0%Q with (inject_Z 0). rewrite <- Zlt_Qlt.
    destruct opportunities; [destruct Hopp|]. cbn [length]. lia. }
  destruct (rankIn_score_range opportunities (sortedByProfit opportunities)
              opp (Array_sort_Permutation _ _) Hopp) as [p [Hp Rp]].
  destruct (rankIn_score_range opportunities (sortedByVolume opportunities)
              opp (Array_sort_Permutation _ _) Hopp) as [v [Hv Rv]].
  destruct (rankIn_score_range opportunities (sortedByROI opportunities)
              opp (Array_sort_Permutation _ _) Hopp) as [r [Hr Rr]].
  exists p, v, r.
  pose proof (inRange_blend n p v r Rp Rv Rr) as Rb.
  repeat split; try assumption;
    try apply Rp; try apply Rv; try apply Rr; try apply Rb.
  - unfold compositeScoreOf, profitScore, volumeScore, roiScore,
      profitRank, volumeRank, roiRank.
    rewrite Hp, Hv, Hr. reflexivity.
  - eapply inRange_positive; eassumption.
Qed.

Lemma calculateOpportunityScores_In (opportunities : list FlipOpportunity)
    (scored : FlipOpportunity) :
  In scored (calculateOpportunityScores opportunities) ->
  exists opp : FlipOpportunity,
    In opp opportunities /\
    scored = with_compositeScore opp (compositeScoreOf opportunities opp).
Proof.
  unfold calculateOpportunityScores.
  destruct (Nat.eqb_spec (length opportunities) 0) as [E|_].
  - destruct opportunities; [intros []|discriminate E].
  - intros Hin. apply in_map_iff in Hin. destruct Hin as [opp [<- Hopp]].
    exists opp. split; [assumption|reflexivity].
Qed.


(** ** Sorting: order *)

Section ArraySortByKey.

Context {A : Type}.
Variable key : A -> number.

Lemma descending_gt (x y : A) (p q : Q) :
  key x = Fin p -> key y = Fin q ->
  (descending key x y >? num 0)%js = Qltb p q.
Proof.
  intros Hx Hy. unfold descending. rewrite Hx, Hy.
  cbn [nsub nneg nadd ngt nlt num].
  destruct (Qltb p q) eqn:E; qprop; lra.
Qed.

Lemma sort_insert_sorted (x : A) (l : list A) :
  isFinite (key x) = true ->
  Forall (fun a => isFinite (key a) = true) l ->
  StronglySorted (keyDesc key) l ->
  StronglySorted (keyDesc key) (sort_insert (descending key) x l).
Proof.
  intros Hx Hl Hs. induction Hs as [|y l Hs IH Hy]; cbn [sort_insert].
  - repeat constructor.
  - inversion Hl as [|? ? Hfy Hfl]; subst.
    destruct (key x) as [p| | |] eqn:Ex; try discriminate Hx.
    destruct (key y) as [q| | |] eqn:Ey; try discriminate Hfy.
    rewrite (descending_gt x y p q Ex Ey).
    destruct (Qltb p q) eqn:E.
    + constructor; [apply IH; assumption|].
      eapply Permutation_Forall;
        [symmetry; apply sort_insert_Permutation|].
      constructor; [|assumption].
      unfold keyDesc, nge. rewrite Ex, Ey. simpl. qprop. lra.
    + constructor; [constructor; assumption|].
      assert (Hxy : keyDesc key x y).
      { unfold keyDesc, nge. rewrite Ex, Ey. simpl. qprop. lra. }
      constructor; [assumption|].
      eapply List.Forall_impl; [|exact Hy].
      intros a Hya. unfold keyDesc, nge in *.
      eapply nle_trans; eassumption.
Qed.

Lemma Array_sort_sorted (l : list A) :
  Forall (fun a => isFinite (key a) = true) l ->
  StronglySorted (keyDesc key) (Array_sort (descending key) l).
Proof.
  induction l as [|x l IH]; intros Hl; cbn [Array_sort foldr].
  - constructor.
  - inversion Hl as [|? ? Hx Hl']; subst.
    apply sort_insert_sorted; [assumption| |apply IH; assumption].
    eapply Permutation_Forall;
      [symmetry; apply Array_sort_Permutation|assumption].
Qed.

End ArraySortByKey.

(** ** Finite results of the evaluation *)

Lemma isFinite_inv (x : number) : isFinite x = true -> exists q, x = Fin q.
Proof. destruct x; try discriminate. eauto. Qed.

Lemma isFinite_lowerBounded (x : number) :
  isFinite x = true -> lowerBounded x = true.
Proof. destruct x; auto. Qed.

Lemma isFinite_min2 (x y : number) :
  isFinite x = true -> lowerBounded y = true -> isFinite (min2 x y) = true.
Proof.
  destruct x, y; try discriminate; intros _ _; simpl; try reflexivity.
  destruct (Qle_bool q q0); reflexivity.
Qed.

Lemma isFinite_max2 (x y : number) :
  isFinite x = true -> isFinite y = true -> isFinite (max2 x y) = true.
Proof.
  destruct x, y; try discriminate; intros _ _; simpl.
  destruct (Qle_bool q q0); reflexivity.
Qed.

Lemma lowerBounded_floor (x : number) :
  lowerBounded x = true -> lowerBounded (Math_floor x) = true.
Proof. destruct x; auto. Qed.

Lemma lowerBounded_mul_1 (x : number) :
  lowerBounded x = true -> lowerBounded (x * num 1)%js = true.
Proof. destruct x; try discriminate; reflexivity. Qed.

Lemma lowerBounded_div_pos (x : number) (a : Q) :
  (0 < a)%Q -> lowerBounded x = true -> lowerBounded (x / Fin a)%js = true.
Proof.
  intros Ha. destruct x; try discriminate; intros _.
  - rewrite ndiv_Fin by lra. reflexivity.
  - simpl. destruct (Qltb a 0) eqn:E; [qprop; lra|reflexivity].
Qed.

Lemma gt_lowerBounded (x y : number) :
  (x >? y)%js = true -> lowerBounded x = true.
Proof. destruct x, y; simpl; congruence. Qed.

Lemma volumeOf_Fin (volumeData : gmap Z Q) (itemId : Z) :
  exists v : Q, volumeOf volumeData itemId = Fin v.
Proof.
  unfold volumeOf. destruct (volumeData !! itemId) as [v|]; [|eauto].
  unfold or_else. destruct (truthy (Fin v)); eauto.
Qed.

Lemma calculateOptimalQuantity_finite (budget : number) (a L v : Q) :
  lowerBounded budget = true -> (0 < a)%Q ->
  isFinite (calculateOptimalQuantity budget (Fin a) (Fin L) (Fin v)
              default_maxBudgetPercent) = true.
Proof.
  intros Hb Ha. rewrite calculateOptimalQuantity_unfold.
  apply isFinite_min2; [apply isFinite_min2; [apply isFinite_min2|]|].
  - destruct (Fin L === num 0)%js; reflexivity.
  - apply lowerBounded_floor, lowerBounded_div_pos; [assumption|].
    apply lowerBounded_mul_1. assumption.
  - apply lowerBounded_floor, lowerBounded_div_pos; assumption.
  - apply isFinite_lowerBounded.
    destruct (Fin v >? num 0)%js; [|reflexivity].
    unfold Math_max. cbn [fold_left]. rewrite max2_NInf_l.
    apply isFinite_max2; reflexivity.
Qed.

Lemma calculateROI_finite (p c : Q) :
  isFinite (calculateROI (Fin p) (Fin c)) = true.
Proof.
  unfold calculateROI. cbn [nseq num].
  destruct (Qeq_bool c (inject_Z 0)) eqn:E; [reflexivity|].
  cbn [ndiv]. change 0%Q with (inject_Z 0). rewrite E. reflexivity.
Qed.

Lemma calculateProfitAfterTax_finite (m h k : Q) :
  isFinite (calculateProfitAfterTax (Fin m) (Fin h) (Fin k)) = true.
Proof.
  unfold calculateProfitAfterTax. rewrite calculateGETax_Fin. reflexivity.
Qed.

(** Peels one guard of the loop body off a hypothesis of the form
    [(if guard then None else ...) = Some opp]. *)
Ltac step_guard H :=
  match type of H with
  | (if ?c then None else _) = Some _ =>
      let E := fresh "Eguard" in destruct c eqn:E; [discriminate H|]
  end.

Section OpportunitiesFacts.

Variable Math_sqrt : number -> number.

Lemma evaluateItem_Some (volumeData : gmap Z Q) (budget : number)
    (includeSpikes includeHighRisk : bool) (item : Item.t)
    (opp : FlipOpportunity) :
  evaluateItem Math_sqrt volumeData budget includeSpikes includeHighRisk item
  = Some opp ->
  compositeScore opp = None /\
  (lowerBounded budget = true -> isFinite (roi opp) = true).
Proof.
  intros H. unfold evaluateItem in H.
  destruct (Item.prices item) as [|latestPrice ps]; [discriminate H|].
  destruct (Price.high latestPrice) as [h|]; [|discriminate H].
  destruct (Price.low latestPrice) as [l|]; [|discriminate H].
  cbv zeta in H. do 3 step_guard H.
  apply orb_false_elim in Eguard1. destruct Eguard1 as [_ Havg].
  do 4 step_guard H.
  injection H as <-. cbn [compositeScore roi]. split; [reflexivity|].
  intros Hb.
  assert (Ha : (0 < (h + l) / inject_Z 2)%Q).
  { cbn [nadd] in Havg. unfold num in Havg.
    rewrite ndiv_Fin in Havg by (intros E; discriminate E).
    cbn [nle] in Havg. qprop. exact Havg. }
  set (a := ((h + l) / inject_Z 2)%Q) in *.
  destruct (volumeOf_Fin volumeData (Item.id item)) as [v ->].
  destruct (isFinite_inv _ (calculateOptimalQuantity_finite budget a
                              (Item.buyLimit item) v Hb Ha)) as [k ->].
  unfold calculateMargin. cbn [nsub nneg nadd nmul].
  destruct (isFinite_inv _ (calculateProfitAfterTax_finite
                              (h + - l) h k)) as [pr ->].
  apply calculateROI_finite.
Qed.

Lemma profitableOpportunitiesOf_In (volumeData : gmap Z Q)
    (items : list Item.t) (budget : number) (options : Filters.t)
    (opp : FlipOpportunity) :
  In opp (profitableOpportunitiesOf Math_sqrt volumeData items budget options)
  ->
  compositeScore opp = None /\
  (lowerBounded budget = true -> isFinite (roi opp) = true).
Proof.
  unfold profitableOpportunitiesOf, filterProfitableOpportunities.
  intros Hin. apply List.filter_In in Hin. destruct Hin as [Hin _].
  apply list_elem_of_In, list_elem_of_omap in Hin.
  destruct Hin as (item & _ & Hev).
  eapply evaluateItem_Some. exact Hev.
Qed.

End OpportunitiesFacts.

(** ** Ranking of the opportunities (C9) *)

Lemma StronglySorted_impl_In {A} (R R' : A -> A -> Prop) (l : list A) :
  (forall a b, In a l -> In b l -> R a b -> R' a b) ->
  StronglySorted R l -> StronglySorted R' l.
Proof.
  intros Himpl Hs. induction Hs as [|x l Hs IH Hx]; constructor.
  - apply IH. intros a b Ha Hb. apply Himpl; right; assumption.
  - rewrite List.Forall_forall in *. intros b Hb.
    apply Himpl; [left; reflexivity|right; assumption|].
    apply Hx. assumption.
Qed.

Lemma calculateOpportunityScores_scored
    (opportunities : list FlipOpportunity) (scored : FlipOpportunity) :
  In scored (calculateOpportunityScores opportunities) ->
  exists s : Q,
    compositeScore scored = Some (Fin s) /\ scoreOrZero scored = Fin s.
Proof.
  intros Hin.
  destruct (calculateOpportunityScores_In opportunities scored Hin)
    as (opp & Hopp & ->).
  destruct (compositeScoreOf_range opportunities opp Hopp)
    as (p & v & r & _ & _ & _ & _ & _ & _ & Hc & Hpos & _).
  eexists. unfold scoreOrZero. cbn [compositeScore with_compositeScore].
  rewrite Hc. split; [reflexivity|].
  unfold or_else, truthy.
  destruct (Qeq_bool _ 0) eqn:E; [|reflexivity].
  qprop. lra.
Qed.

(** C9. [getFlipOpportunities] orders the profitable opportunities in one
    of two ways.  For every budget above 100,000,000 the list returned
    is the profitable opportunities sorted by [roi], highest first, and no
    composite score is set on any of them.  For every other budget (at
    most 100,000,000, or [NaN]) it is the scored opportunities sorted by
    composite score, highest first, each carrying its score. *)
Theorem getFlipOpportunities_ranking (Math_sqrt : number -> number)
    (volumeData : gmap Z Q) (items : list Item.t) (budget : number)
    (options : Filters.t) :
  let profitable :=
    profitableOpportunitiesOf Math_sqrt volumeData items budget options in
  let result :=
    getFlipOpportunities Math_sqrt volumeData items budget options in
  ((budget >? num 100000000)%js = true ->
   Permutation result profitable /\
   StronglySorted (keyDesc roi) result /\
   Forall (fun o => compositeScore o = None) result) /\
  ((budget >? num 100000000)%js = false ->
   Permutation result (calculateOpportunityScores profitable) /\
   Forall (fun o => exists s, compositeScore o = Some (Fin s)) result /\
   StronglySorted scoreDesc result).
Proof.
  intros profitable result. subst result. unfold getFlipOpportunities.
  fold profitable. split; intros Hb; rewrite Hb.
  - assert (Hlb : lowerBounded budget = true)
      by (eapply gt_lowerBounded; exact Hb).
    split; [apply Array_sort_Permutation|]. split.
    + apply (Array_sort_sorted roi).
      apply List.Forall_forall. intros o Ho.
      apply (profitableOpportunitiesOf_In _ _ _ _ _ _ Ho). exact Hlb.
    + apply List.Forall_forall. intros o Ho.
      apply Array_sort_In in Ho.
      apply (profitableOpportunitiesOf_In _ _ _ _ _ _ Ho).
  - unfold sortOpportunitiesByScore.
    split; [apply Array_sort_Permutation|]. split.
    + apply List.Forall_forall. intros o Ho.
      apply Array_sort_In in Ho.
      destruct (calculateOpportunityScores_scored _ _ Ho) as (s & Hs & _).
      eauto.
    + apply (StronglySorted_impl_In (keyDesc scoreOrZero)).
      * intros a b Ha Hb' Hab.
        apply Array_sort_In in Ha, Hb'.
        destruct (calculateOpportunityScores_scored _ _ Ha)
          as (sa & Hsa & Hza).
        destruct (calculateOpportunityScores_scored _ _ Hb')
          as (sb & Hsb & Hzb).
        unfold scoreDesc, keyDesc in *.
        rewrite Hsa, Hsb. rewrite Hza, Hzb in Hab. exact Hab.
      * apply (Array_sort_sorted scoreOrZero).
        apply List.Forall_forall. intros o Ho.
        destruct (calculateOpportunityScores_scored _ _ Ho) as (s & _ & ->).
        reflexivity.
Qed.

(** ** The selection pass (C1) *)










(** ** The sample market, evaluated *)

(** Above 100,000,000 the sample is ranked by return, below by composite
    score; the two orders differ. *)
Example sampleOpportunities_large_budget :
  map id (sampleOpportunities (num 200000000)) = [4; 3; 2; 1]%Z.
Proof. vm_compute. reflexivity. Qed.

Example sampleOpportunities_small_budget :
  map id (sampleOpportunities (num 12000000)) = [3; 2; 1; 4]%Z.
Proof. vm_compute. reflexivity. Qed.

Example samplePortfolio :
  let p := buildPortfolio (sampleOpportunities (num 12000000))
             (num 12000000) 0 in
  map (fun o => (id o, quantity o, totalCost o))
    (PortfolioSuggestion.opportunities p)
  = [(3%Z, num 20000, num 10000000); (2%Z, num 400, num 800000);
     (1%Z, num 500, num 500000); (4%Z, num 130, num 13000)] /\
  PortfolioSuggestion.totalCost p = num 11313000.
Proof. vm_compute. split; reflexivity. Qed.


Lemma getFlipOpportunities_ranking_witness :
  StronglySorted (keyDesc roi) (sampleOpportunities (num 200000000)) /\
  StronglySorted scoreDesc (sampleOpportunities (num 12000000)).
Proof.
  split.
  - apply (proj1 (getFlipOpportunities_ranking sqrt_floor sampleVolumes
                    sampleItems (num 200000000) Filters.none)).
    reflexivity.
  - apply (proj2 (getFlipOpportunities_ranking sqrt_floor sampleVolumes
                    sampleItems (num 12000000) Filters.none)).
    reflexivity.
Defined.


(** * Further properties of the calculations *)

(** ** Profit, tax and return *)

Lemma calculateProfitAfterTax_Fin (m h k : Q) :
  calculateProfitAfterTax (Fin m) (Fin h) (Fin k)
  = Fin ((m + - inject_Z (tax_spec h)) * k).
Proof.
  unfold calculateProfitAfterTax. rewrite calculateGETax_Fin. reflexivity.
Qed.

Lemma tax_spec_ge_1 (h : Q) : (1 <= inject_Z (tax_spec h))%Q.
Proof.
  change 1%Q with (inject_Z 1). rewrite <- Zle_Qle. unfold tax_spec. lia.
Qed.

Lemma calculateROI_Fin (p c : Q) :
  ~ (c == 0)%Q -> calculateROI (Fin p) (Fin c) = Fin (p / c * inject_Z 100).
Proof.
  intros Hc. unfold calculateROI. cbn [nseq num].
  change (inject_Z 0) with 0%Q.
  apply Qeq_bool_false in Hc. rewrite Hc.
  apply Qeq_bool_false in Hc. rewrite ndiv_Fin by assumption. reflexivity.
Qed.

Lemma calculateROI_zero_cost (p c : Q) :
  (c == 0)%Q -> calculateROI (Fin p) (Fin c) = num 0.
Proof.
  intros Hc. unfold calculateROI. cbn [nseq num].
  change (inject_Z 0) with 0%Q.
  apply Qeq_bool_iff in Hc. rewrite Hc. reflexivity.
Qed.




(** X2. For a finite margin and sell price and a quantity above zero, the
    profit after tax is above zero exactly when the margin is above the
    tax on the sell price; as the tax is never below 1, a margin of 1 or
    less never yields a profit. *)
Theorem calculateProfitAfterTax_positive_iff (m h k : Q) :
  (0 < k)%Q ->
  (calculateProfitAfterTax (Fin m) (Fin h) (Fin k) >? num 0)%js
  = (Fin m >? calculateGETax (Fin h))%js /\
  ((m <= 1)%Q ->
   (calculateProfitAfterTax (Fin m) (Fin h) (Fin k) >? num 0)%js = false).
Proof.
  intros Hk. rewrite calculateProfitAfterTax_Fin, calculateGETax_Fin.
  pose proof (tax_spec_ge_1 h) as Ht.
  set (t := inject_Z (tax_spec h)) in *.
  unfold ngt, num. cbn [nlt]. change (inject_Z 0) with 0%Q. fold t.
  split.
  - destruct (Qltb t m) eqn:E; qprop.
    + apply Qmult_lt_0_compat; lra.
    + assert (E' : ((m + - t) * k == - ((t - m) * k))%Q) by ring.
      rewrite E'.
      assert (0 <= (t - m) * k)%Q by (apply Qmult_le_0_compat; lra).
      lra.
  - intros Hm. qprop.
    assert (E' : ((m + - t) * k == - ((t - m) * k))%Q) by ring.
    rewrite E'.
    assert (0 <= (t - m) * k)%Q by (apply Qmult_le_0_compat; lra).
    lra.
Qed.

Lemma calculateProfitAfterTax_positive_iff_witness :
  (calculateProfitAfterTax (Fin 10) (Fin 110) (Fin 95) >? num 0)%js
  = (Fin 10 >? calculateGETax (Fin 110))%js /\
  (calculateProfitAfterTax (Fin 1) (Fin 110) (Fin 95) >? num 0)%js = false.
Proof.
  split.
  - apply (calculateProfitAfterTax_positive_iff 10 110 95). reflexivity.
  - apply (calculateProfitAfterTax_positive_iff 1 110 95); [reflexivity|].
    discriminate.
Defined.



(** ** Volatility and risk *)






(** X5. The risk label never decreases with the volatility: of two
    volatilities the larger one is labelled at least as severely; and a
    volatility that is [NaN] is labelled [Extreme]. *)
Theorem getRiskLevel_monotone (v v' : number) :
  ((v <=? v')%js = true ->
   (riskRank (getRiskLevel v) <= riskRank (getRiskLevel v'))%nat) /\
  getRiskLevel NaN = Extreme.
Proof.
  split; [|reflexivity].
  unfold getRiskLevel, VOLATILITY_THRESHOLDS_LOW, VOLATILITY_THRESHOLDS_MEDIUM,
    VOLATILITY_THRESHOLDS_HIGH, num.
  destruct v as [p| | |], v' as [q| | |]; cbn [nle nlt];
    try discriminate; intros Hle;
    change (inject_Z 5) with 5%Q; change (inject_Z 15) with 15%Q;
    change (inject_Z 20) with 20%Q;
    repeat match goal with
    | |- context [Qltb ?a ?b] => destruct (Qltb a b) eqn:?
    end; cbn [riskRank]; try lia; qprop; lra.
Qed.

Lemma getRiskLevel_monotone_witness :
  (riskRank (getRiskLevel (num 12)) <= riskRank (getRiskLevel (num 22)))%nat.
Proof.
  apply (proj1 (getRiskLevel_monotone (num 12) (num 22))). reflexivity.
Defined.

(** ** Anomaly detection within a band *)





(** ** Quantity sizing: budget and liquidity *)

Lemma below_Fin_Fin (k f : Q) : below (Fin k) (Fin f) -> (k <= f)%Q.
Proof.
  intros [H|H]; [discriminate H|]. cbn [nle] in H. qprop. assumption.
Qed.

Lemma calculateOptimalQuantity_le_budget
    (budget avgPrice quantity : Q) (buyLimit volume maxBudgetPercent : number) :
  (0 < avgPrice)%Q ->
  calculateOptimalQuantity (Fin budget) (Fin avgPrice) buyLimit volume
    maxBudgetPercent = Fin quantity ->
  (quantity * avgPrice <= budget)%Q.
Proof.
  intros Ha Hq.
  assert (Hb : below (Fin quantity) (byBudget (Fin budget) (Fin avgPrice))).
  { rewrite <- Hq. unfold calculateOptimalQuantity.
    apply Math_min_below. right. right. left. reflexivity. }
  unfold byBudget in Hb. rewrite ndiv_Fin in Hb by lra.
  apply below_Fin_Fin in Hb.
  pose proof (Qfloor_le (budget / avgPrice)) as Hfl.
  assert (Hk : (quantity <= budget / avgPrice)%Q) by lra.
  apply (Qmult_le_compat_r _ _ avgPrice) in Hk; [|lra].
  assert (E : (budget / avgPrice * avgPrice == budget)%Q) by (field; lra).
  rewrite E in Hk. exact Hk.
Qed.



Lemma nle_numeq (x x' y y' : number) :
  numeq x x' -> numeq y y' -> (x <=? y)%js = (x' <=? y')%js.
Proof.
  destruct x, x', y, y'; cbn [numeq nle]; try contradiction; try reflexivity.
  intros Hx Hy. destruct (Qle_bool q q1) eqn:E1, (Qle_bool q0 q2) eqn:E2;
    try reflexivity; qprop; lra.
Qed.

Lemma sizeQuantity_spec_monotone (b b' a L v p : Q) :
  (0 < a)%Q -> (0 <= p)%Q -> (b <= b')%Q ->
  (sizeQuantity_spec b a L v p <= sizeQuantity_spec b' a L v p)%Q.
Proof.
  intros Ha Hp Hb. unfold sizeQuantity_spec.
  assert (Hinv : (0 <= / a)%Q) by (apply Qinv_le_0_compat; lra).
  apply Q.min_le_compat_l. apply Q.min_le_compat.
  - rewrite <- Zle_Qle. apply Qfloor_resp_le. unfold Qdiv.
    apply Qmult_le_compat_r; [|assumption].
    apply Qmult_le_compat_r; assumption.
  - apply Q.min_le_compat_r.
    rewrite <- Zle_Qle. apply Qfloor_resp_le. unfold Qdiv.
    apply Qmult_le_compat_r; assumption.
Qed.

(** X8. More budget never buys less: for finite inputs with an average
    price above zero and a budget share that is not negative, the
    quantity returned for a budget is at most the quantity returned for
    any larger budget. *)
Theorem calculateOptimalQuantity_monotone_in_budget
    (budget budget' avgPrice buyLimit volume maxBudgetPercent : Q) :
  (0 < avgPrice)%Q -> (0 <= maxBudgetPercent)%Q -> (budget <= budget')%Q ->
  (calculateOptimalQuantity (Fin budget) (Fin avgPrice) (Fin buyLimit)
     (Fin volume) (Fin maxBudgetPercent)
   <=? calculateOptimalQuantity (Fin budget') (Fin avgPrice) (Fin buyLimit)
         (Fin volume) (Fin maxBudgetPercent))%js = true.
Proof.
  intros Ha Hp Hb.
  rewrite (nle_numeq _ _ _ _
             (calculateOptimalQuantity_Fin budget avgPrice buyLimit volume
                maxBudgetPercent Ha)
             (calculateOptimalQuantity_Fin budget' avgPrice buyLimit volume
                maxBudgetPercent Ha)).
  cbn [nle]. qprop. apply sizeQuantity_spec_monotone; assumption.
Qed.

Lemma calculateOptimalQuantity_monotone_in_budget_witness :
  (calculateOptimalQuantity (Fin 5000) (Fin 105) (Fin 100) (Fin 2000) (Fin 1)
   <=? calculateOptimalQuantity (Fin 10000) (Fin 105) (Fin 100) (Fin 2000)
         (Fin 1))%js = true.
Proof.
  apply (calculateOptimalQuantity_monotone_in_budget 5000 10000 105 100 2000
           1); [reflexivity|discriminate|discriminate].
Defined.

(** * Further properties of the evaluation *)


Section EvaluationFacts.

Variable Math_sqrt : number -> number.

(** What the loop body has checked and computed when it pushes a
    record. *)
Lemma evaluateItem_inv (volumeData : gmap Z Q) (budget : number)
    (includeSpikes includeHighRisk : bool) (item : Item.t)
    (o : FlipOpportunity) :
  evaluateItem Math_sqrt volumeData budget includeSpikes includeHighRisk item
  = Some o ->
  exists (latest : Price.t) (rest : list Price.t) (h l : Q),
    Item.prices item = latest :: rest /\
    Price.high latest = Some h /\ Price.low latest = Some l /\
    ~ (h == 0)%Q /\ ~ (l == 0)%Q /\ (l < h)%Q /\ (0 < (h + l) / inject_Z 2)%Q /\
    hassufficientVolume (volumeOf volumeData (Item.id item)) (Fin h) = true /\
    (negb includeHighRisk && (volatility o >? num 25)%js = false) /\
    (volatility o >? VOLATILITY_THRESHOLDS_EXTREME)%js = false /\
    (negb includeSpikes
     && negb (PriceAnalysis.isStable
                (detectPriceAnomalies (Fin h) (Fin l)
                   (recentPositive Price.high (Item.prices item))
                   (recentPositive Price.low (Item.prices item)))) = false) /\
    (quantity o === num 0)%js = false /\
    id o = Item.id item /\
    currentHigh o = Fin h /\ currentLow o = Fin l /\
    avgPrice o = Fin ((h + l) / inject_Z 2) /\
    margin o = Fin (h + - l) /\
    marginPercent o = calculateMarginPercent (Fin (h + - l)) (Fin l) /\
    quantity o
    = calculateOptimalQuantity budget (Fin ((h + l) / inject_Z 2))
        (Fin (Item.buyLimit item)) (volumeOf volumeData (Item.id item))
        default_maxBudgetPercent /\
    totalCost o = (quantity o * Fin l)%js /\
    totalProfit o = (quantity o * Fin (h + - l))%js /\
    profitAfterTax o
    = calculateProfitAfterTax (Fin (h + - l)) (Fin h) (quantity o) /\
    roi o = calculateROI (profitAfterTax o) (totalCost o) /\
    buyLimit o = Fin (Item.buyLimit item) /\
    volume o = volumeOf volumeData (Item.id item) /\
    volatility o
    = calculateVolatility Math_sqrt
        (recentPositive Price.high (Item.prices item)) /\
    compositeScore o = None /\
    riskLevel o = Some (getRiskLevel (volatility o)) /\
    isStable o
    = Some (PriceAnalysis.isStable
              (detectPriceAnomalies (Fin h) (Fin l)
                 (recentPositive Price.high (Item.prices item))
                 (recentPositive Price.low (Item.prices item)))).
Proof.
  intros H. unfold evaluateItem in H.
  destruct (Item.prices item) as [|latest rest] eqn:Eprices;
    [discriminate H|].
  destruct (Price.high latest) as [h|] eqn:Eh; [|discriminate H].
  destruct (Price.low latest) as [l|] eqn:El; [|discriminate H].
  cbv zeta in H. do 7 step_guard H.
  injection H as <-.
  apply orb_false_elim in Eguard. destruct Eguard as [Hh0 Hl0].
  apply negb_false_iff in Eguard0.
  apply orb_false_elim in Eguard1. destruct Eguard1 as [Hm Havg].
  exists latest, rest, h, l.
  assert (Hdiv : ((Fin h + Fin l) / num 2)%js = Fin ((h + l) / inject_Z 2)).
  { cbn [nadd]. unfold num. apply ndiv_Fin. intros E. discriminate E. }
  rewrite Hdiv in *.
  unfold calculateMargin in *. cbn [nsub nneg nadd] in *.
  cbn [nle num] in Hm, Havg. qprop.
  cbn [id currentHigh currentLow avgPrice margin marginPercent quantity
       totalCost totalProfit profitAfterTax roi buyLimit volume volatility
       compositeScore riskLevel isStable].
  repeat split; try assumption; try reflexivity; lra.
Qed.

End EvaluationFacts.

(** ** What the opportunities endpoint returns *)

Lemma withoutScore_with_compositeScore (o : FlipOpportunity) (s : number) :
  withoutScore (with_compositeScore o s) = withoutScore o.
Proof. reflexivity. Qed.

Lemma map_withoutScore_scores (l : list FlipOpportunity) :
  map withoutScore (calculateOpportunityScores l) = map withoutScore l.
Proof.
  unfold calculateOpportunityScores.
  destruct (length l =? 0)%nat; [reflexivity|].
  rewrite map_map. apply map_ext. intros o.
  apply withoutScore_with_compositeScore.
Qed.

(** X9. Scoring and ranking lose nothing and change nothing but the
    score: the records returned by [sortOpportunitiesByScore], their
    composite scores removed, are a permutation of the input records
    with theirs removed. *)
Theorem sortOpportunitiesByScore_permutation (l : list FlipOpportunity) :
  Permutation (map withoutScore (sortOpportunitiesByScore l))
    (map withoutScore l).
Proof.
  unfold sortOpportunitiesByScore.
  rewrite <- (map_withoutScore_scores l).
  apply Permutation_map, Array_sort_Permutation.
Qed.

Section EndpointFacts.

Variable Math_sqrt : number -> number.
Variable volumeData : gmap Z Q.
Variable items : list Item.t.
Variable budget : number.
Variable options : Filters.t.

Lemma getFlipOpportunities_withoutScore :
  Permutation
    (map withoutScore
       (getFlipOpportunities Math_sqrt volumeData items budget options))
    (map withoutScore
       (profitableOpportunitiesOf Math_sqrt volumeData items budget options)).
Proof.
  unfold getFlipOpportunities.
  destruct (budget >? num 100000000)%js.
  - apply Permutation_map, Array_sort_Permutation.
  - unfold sortOpportunitiesByScore.
    rewrite <- (map_withoutScore_scores (profitableOpportunitiesOf _ _ _ _ _)).
    apply Permutation_map, Array_sort_Permutation.
Qed.

(** Every record returned is, up to its score, a record that the loop
    body pushed for one of the items and that the filter kept. *)
Lemma getFlipOpportunities_origin (o : FlipOpportunity) :
  In o (getFlipOpportunities Math_sqrt volumeData items budget options) ->
  exists (o0 : FlipOpportunity) (item : Item.t),
    withoutScore o = withoutScore o0 /\
    In item items /\
    evaluateItem Math_sqrt volumeData budget
      (default false (Filters.includeSpikes options))
      (default false (Filters.includeHighRisk options)) item = Some o0 /\
    In o0 (profitableOpportunitiesOf Math_sqrt volumeData items budget
             options).
Proof.
  intros Hin.
  apply (in_map withoutScore) in Hin.
  eapply Permutation_in in Hin; [|apply getFlipOpportunities_withoutScore].
  apply in_map_iff in Hin. destruct Hin as (o0 & Ho0 & Hin).
  pose proof Hin as Hprof.
  unfold profitableOpportunitiesOf, filterProfitableOpportunities in Hin.
  apply List.filter_In in Hin. destruct Hin as [Hin _].
  apply list_elem_of_In, list_elem_of_omap in Hin.
  destruct Hin as (item & Hitem & Hev).
  exists o0, item. repeat split; try assumption.
  - symmetry. exact Ho0.
  - apply list_elem_of_In. exact Hitem.
Qed.

End EndpointFacts.

(** Names the facts of [evaluateItem_inv] for an evaluation [Hev]. *)
Ltac evaluateItem_facts Hev :=
  destruct (evaluateItem_inv _ _ _ _ _ _ _ Hev)
    as (latest & rest & h & l & Hprices & Hhigh & Hlow & Hh0 & Hl0 & Hlh
        & Havg & Hliquid & Hrisk & Hextreme & Hstable & Hq0 & Hid & Hch
        & Hcl & Havgp & Hmargin & Hmp & Hq & Hcost & Htp & Hpat & Hroi
        & Hbl & Hvolume & Hvola & Hcs & Hrl & Hst).

Lemma map_omap_sublist {A B C} (f : A -> option B) (g : B -> C) (h : A -> C)
    (l : list A) :
  (forall x y, f x = Some y -> g y = h x) ->
  map g (omap f l) `sublist_of` map h l.
Proof.
  intros Hf. induction l as [|x l IH]; cbn [omap list_omap map].
  - constructor.
  - destruct (f x) as [y|] eqn:E; cbn [map].
    + rewrite (Hf x y E). constructor. exact IH.
    + constructor. exact IH.
Qed.

Lemma map_filter_sublist {A B} (p : A -> bool) (g : A -> B) (l : list A) :
  map g (List.filter p l) `sublist_of` map g l.
Proof.
  induction l as [|x l IH]; cbn [List.filter map].
  - constructor.
  - destruct (p x); cbn [map]; constructor; exact IH.
Qed.

Lemma submseteq_NoDup {A} (l1 l2 : list A) :
  l1 ⊆+ l2 -> NoDup l2 -> NoDup l1.
Proof.
  intros Hsub Hnd. apply submseteq_sublist_l in Hsub.
  destruct Hsub as (l' & Hsl & Hperm).
  eapply sublist_NoDup; [|exact Hsl].
  rewrite Hperm. exact Hnd.
Qed.

Lemma map_id_withoutScore (l : list FlipOpportunity) :
  map id (map withoutScore l) = map id l.
Proof. rewrite map_map. reflexivity. Qed.

Lemma nlt_false_nge (x y : number) :
  isFinite x = true -> isFinite y = true ->
  (x <? y)%js = false -> (x >=? y)%js = true.
Proof.
  destruct x, y; try discriminate. intros _ _. unfold nge. cbn [nlt nle].
  intros H. qprop. assumption.
Qed.

Section EndpointProperties.

Variable Math_sqrt : number -> number.
Variable volumeData : gmap Z Q.
Variable items : list Item.t.
Variable budget : number.
Variable options : Filters.t.

(** X10. The opportunities endpoint invents no item and repeats none:
    the ids of the records returned by [getFlipOpportunities] are, up to
    order, a sub-list of the ids of the items read; so there are at most
    as many records as items, and when the item ids are pairwise
    distinct, so are the ids returned. *)
Theorem getFlipOpportunities_ids :
  let result :=
    getFlipOpportunities Math_sqrt volumeData items budget options in
  map id result ⊆+ map Item.id items /\
  (length result <= length items)%nat /\
  (NoDup (map Item.id items) -> NoDup (map id result)).
Proof using Type.
  intros result.
  assert (Hsub : map id result ⊆+ map Item.id items).
  { subst result.
    rewrite <- map_id_withoutScore.
    rewrite (getFlipOpportunities_withoutScore Math_sqrt volumeData items
               budget options).
    rewrite map_id_withoutScore.
    apply sublist_submseteq.
    unfold profitableOpportunitiesOf, filterProfitableOpportunities.
    etransitivity; [apply map_filter_sublist|].
    apply map_omap_sublist. intros item o Hev.
    evaluateItem_facts Hev. exact Hid. }
  split; [exact Hsub|]. split.
  - apply submseteq_length in Hsub. rewrite !length_map in Hsub. exact Hsub.
  - intros Hnd. eapply submseteq_NoDup; eassumption.
Qed.

Lemma profitable_kept (o : FlipOpportunity) :
  In o (profitableOpportunitiesOf Math_sqrt volumeData items budget options)
  ->
  (profitAfterTax o <? num 1000)%js = false /\
  (roi o <? num 5)%js = false /\
  (marginPercent o >? num 1000)%js = false /\
  hassufficientVolume (volume o) (currentHigh o) = true /\
  ((default (num 0) (Filters.minVolume options) >? num 0)%js
   && (volume o <? default (num 0) (Filters.minVolume options))%js = false)
  /\
  (volatility o
   >? default VOLATILITY_THRESHOLDS_EXTREME (Filters.maxVolatility options))%js
  = false.
Proof using Type.
  unfold profitableOpportunitiesOf, filterProfitableOpportunities.
  intros Hin. apply List.filter_In in Hin. destruct Hin as [_ Hkeep].
  change MAX_MARGIN_PERCENT with (num 1000) in Hkeep.
  destruct (profitAfterTax o <? num 1000)%js; [discriminate Hkeep|].
  destruct (roi o <? num 5)%js; [discriminate Hkeep|].
  cbn [orb] in Hkeep.
  destruct (marginPercent o >? num 1000)%js; [discriminate Hkeep|].
  destruct (hassufficientVolume (volume o) (currentHigh o));
    [|discriminate Hkeep].
  cbn [negb] in Hkeep.
  destruct (_ && _); [discriminate Hkeep|].
  destruct (volatility o >? _)%js; [discriminate Hkeep|].
  repeat split.
Qed.

(** X11. Whatever the items and the options, and for every budget other
    than [NaN] and the negative infinity, every record returned by
    [getFlipOpportunities] has a profit after tax of at least 1000, a
    return of at least 5 percent, a margin percentage not above 1000 and
    a sell price above its buy price; its volatility is above neither 30
    nor the caller's ceiling, nor above 25 unless high-risk items were
    asked for; it is stable unless spikes were asked for; and its risk
    label is the label of its volatility. *)
Theorem getFlipOpportunities_listing (o : FlipOpportunity) :
  lowerBounded budget = true ->
  In o (getFlipOpportunities Math_sqrt volumeData items budget options) ->
  (profitAfterTax o >=? num 1000)%js = true /\
  (roi o >=? num 5)%js = true /\
  (marginPercent o >? num 1000)%js = false /\
  (currentHigh o >? currentLow o)%js = true /\
  (volatility o >? num 30)%js = false /\
  (volatility o
   >? default VOLATILITY_THRESHOLDS_EXTREME (Filters.maxVolatility options))%js
  = false /\
  (default false (Filters.includeHighRisk options) = false ->
   (volatility o >? num 25)%js = false) /\
  (default false (Filters.includeSpikes options) = false ->
   isStable o = Some true) /\
  riskLevel o = Some (getRiskLevel (volatility o)).
Proof using Type.
  intros Hb Hin.
  destruct (getFlipOpportunities_origin _ _ _ _ _ _ Hin)
    as (o0 & item & Hws & Hitem & Hev & Hprof).
  destruct (profitable_kept o0 Hprof)
    as (Hp & Hr & Hmpc & _ & _ & Hmaxv).
  evaluateItem_facts Hev.
  destruct (volumeOf_Fin volumeData (Item.id item)) as [v Hv].
  rewrite Hv in Hq.
  destruct (isFinite_inv _ (calculateOptimalQuantity_finite budget _
                              (Item.buyLimit item) v Hb Havg)) as [k Hk].
  rewrite Hk in Hq. rewrite Hq in Hpat, Hcost.
  rewrite calculateProfitAfterTax_Fin in Hpat. cbn [nmul] in Hcost.
  rewrite Hpat, Hcost in Hroi.
  assert (E1 : profitAfterTax o = profitAfterTax o0)
    by (apply (f_equal profitAfterTax) in Hws; exact Hws).
  assert (E2 : roi o = roi o0) by (apply (f_equal roi) in Hws; exact Hws).
  assert (E3 : marginPercent o = marginPercent o0)
    by (apply (f_equal marginPercent) in Hws; exact Hws).
  assert (E4 : currentHigh o = currentHigh o0)
    by (apply (f_equal currentHigh) in Hws; exact Hws).
  assert (E5 : currentLow o = currentLow o0)
    by (apply (f_equal currentLow) in Hws; exact Hws).
  assert (E6 : volatility o = volatility o0)
    by (apply (f_equal volatility) in Hws; exact Hws).
  assert (E7 : isStable o = isStable o0)
    by (apply (f_equal isStable) in Hws; exact Hws).
  assert (E8 : riskLevel o = riskLevel o0)
    by (apply (f_equal riskLevel) in Hws; exact Hws).
  rewrite E1, E2, E3, E4, E5, E6, E7, E8.
  split; [|split; [|split; [|split; [|split; [|split; [|split; [|split]]]]]]].
  - apply nlt_false_nge; [rewrite Hpat; reflexivity|reflexivity|exact Hp].
  - apply nlt_false_nge; [|reflexivity|exact Hr].
    rewrite Hroi. apply calculateROI_finite.
  - exact Hmpc.
  - rewrite Hch, Hcl. unfold ngt. cbn [nlt]. qprop. exact Hlh.
  - exact Hextreme.
  - exact Hmaxv.
  - intros Hhr. rewrite Hhr in Hrisk. exact Hrisk.
  - intros Hsp. rewrite Hsp in Hstable. cbn [negb andb] in Hstable.
    apply negb_false_iff in Hstable. rewrite Hst, Hstable. reflexivity.
  - exact Hrl.
Qed.

Lemma volumeOf_sufficient (itemId : Z) (price : number) :
  hassufficientVolume (volumeOf volumeData itemId) price = true ->
  exists v : Q,
    volumeData !! itemId = Some v /\ volumeOf volumeData itemId = Fin v /\
    (50 <= v)%Q /\ ((price <=? num 1000000)%js = true -> (1200 <= v)%Q).
Proof using Type.
  unfold hassufficientVolume, volumeOf, nge, ngt.
  destruct (volumeData !! itemId) as [v|].
  - unfold or_else, truthy.
    destruct (Qeq_bool v 0) eqn:E; cbn [negb].
    + destruct (num 1000000 <? price)%js; intros H; discriminate H.
    + intros H. exists v. split; [reflexivity|]. split; [reflexivity|].
      destruct price as [p| | |]; cbn [nlt nle num] in *;
        unfold MIN_VOLUME_THRESHOLDS_HOURLY, MIN_VOLUME_THRESHOLDS_DAILY, num
          in *;
        change (inject_Z 50) with 50%Q in *;
        change (inject_Z 1200) with 1200%Q in *;
        change (inject_Z 1000000) with 1000000%Q in *;
        try (destruct (Qltb 1000000 p) eqn:Ep);
        cbn [nle] in H; qprop;
        (split; [lra|]); intros Hle; try discriminate Hle;
        try (cbn [nle] in Hle; qprop); lra.
  - destruct (num 1000000 <? price)%js; intros H; discriminate H.
Qed.

(** X12. An item is listed only with sufficient volume data: for every
    record returned by [getFlipOpportunities], the volume data holds an
    entry for its id, the record carries that volume, the volume is at
    least 50, at least 1200 unless the sell price is above 1,000,000,
    and not below the caller's minimum when that is above zero.  An item
    without an entry is never returned. *)
Theorem getFlipOpportunities_volume (o : FlipOpportunity) :
  In o (getFlipOpportunities Math_sqrt volumeData items budget options) ->
  exists v : Q,
    volumeData !! id o = Some v /\ volume o = Fin v /\ (50 <= v)%Q /\
    ((currentHigh o <=? num 1000000)%js = true -> (1200 <= v)%Q) /\
    ((default (num 0) (Filters.minVolume options) >? num 0)%js = true ->
     (Fin v <? default (num 0) (Filters.minVolume options))%js = false).
Proof using Type.
  intros Hin.
  destruct (getFlipOpportunities_origin _ _ _ _ _ _ Hin)
    as (o0 & item & Hws & Hitem & Hev & Hprof).
  destruct (profitable_kept o0 Hprof) as (_ & _ & _ & _ & Hminv & _).
  evaluateItem_facts Hev.
  assert (E1 : id o = id o0) by (apply (f_equal id) in Hws; exact Hws).
  assert (E2 : volume o = volume o0)
    by (apply (f_equal volume) in Hws; exact Hws).
  assert (E3 : currentHigh o = currentHigh o0)
    by (apply (f_equal currentHigh) in Hws; exact Hws).
  rewrite E1, E2, E3, Hid, Hvolume, Hch.
  destruct (volumeOf_sufficient _ _ Hliquid) as (v & Hlook & Hv & H50 & H1200).
  exists v. rewrite Hv. repeat split; try assumption.
  intros Hmin. rewrite Hmin, Hvolume, Hv in Hminv. exact Hminv.
Qed.

(** The numbers of a record that the loop body pushed and the filter
    kept, for a budget that is not negative and a buy limit that is not
    negative. *)
Lemma profitable_numbers (item : Item.t) (o : FlipOpportunity) :
  (budget >=? num 0)%js = true ->
  (0 <= Item.buyLimit item)%Q ->
  evaluateItem Math_sqrt volumeData budget
    (default false (Filters.includeSpikes options))
    (default false (Filters.includeHighRisk options)) item = Some o ->
  In o (profitableOpportunitiesOf Math_sqrt volumeData items budget options)
  ->
  exists h l k : Q,
    currentHigh o = Fin h /\ currentLow o = Fin l /\ quantity o = Fin k /\
    margin o = Fin (h + - l) /\
    totalCost o = Fin (k * l) /\
    roi o = calculateROI
              (calculateProfitAfterTax (Fin (h + - l)) (Fin h) (Fin k))
              (Fin k * Fin l)%js /\
    (0 < k)%Q /\ (0 < l)%Q /\ (l < h)%Q /\
    (forall b : Q, budget = Fin b -> (k * l <= b)%Q).
Proof using Type.
  intros Hb HL Hev Hprof.
  destruct (profitable_kept o Hprof) as (Hp & Hr & _).
  evaluateItem_facts Hev.
  destruct (volumeOf_sufficient _ _ Hliquid) as (v & _ & Hv & H50 & _).
  assert (Hlb : lowerBounded budget = true)
    by (destruct budget; try discriminate Hb; reflexivity).
  pose proof (calculateOptimalQuantity_nonneg budget
                (Fin ((h + l) / inject_Z 2)) (Fin (Item.buyLimit item))
                (volumeOf volumeData (Item.id item)) default_maxBudgetPercent)
    as Hnn.
  rewrite Hv in Hq, Hnn.
  destruct (isFinite_inv _ (calculateOptimalQuantity_finite budget _
                              (Item.buyLimit item) v Hlb Havg)) as [k Hk].
  rewrite Hk in Hq, Hnn.
  assert (Hk0 : (0 <= k)%Q).
  { apply nonneg_Fin. apply Hnn.
    - exact Hb.
    - unfold ngt. cbn [nlt num]. qprop. exact Havg.
    - unfold nge. cbn [nle num]. qprop. exact HL.
    - unfold nge. cbn [nle num]. qprop. lra.
    - reflexivity. }
  rewrite Hq in Hq0, Hpat, Hcost. cbn [nseq num] in Hq0. qprop.
  assert (Hkpos : (0 < k)%Q).
  { destruct (Qlt_le_dec 0 k) as [|Hle]; [assumption|].
    exfalso. apply Hq0. lra. }
  rewrite calculateProfitAfterTax_Fin in Hpat. cbn [nmul] in Hcost.
  set (p := ((h + - l + - inject_Z (tax_spec h)) * k)%Q) in *.
  rewrite Hpat in Hp. cbn [nlt num] in Hp. qprop.
  change (inject_Z 1000) with 1000%Q in Hp.
  rewrite Hpat, Hcost in Hroi. rewrite Hroi in Hr.
  assert (Hc : (0 < k * l)%Q).
  { destruct (Qeq_dec (k * l) 0) as [E|E].
    - rewrite (calculateROI_zero_cost p _ E) in Hr. discriminate Hr.
    - rewrite (calculateROI_Fin p _ E) in Hr. cbn [nlt num] in Hr. qprop.
      change (inject_Z 100) with 100%Q in Hr.
      change (inject_Z 5) with 5%Q in Hr.
      destruct (Qlt_le_dec 0 (k * l)) as [|Hneg]; [assumption|].
      exfalso.
      assert (Hx : (p / (k * l) * (k * l) == p)%Q)
        by (field; split; [exact Hl0|exact Hq0]).
      assert (Hpos : (0 < p / (k * l) * - (k * l))%Q)
        by (apply Qmult_lt_0_compat; lra).
      assert (Hopp : (p / (k * l) * - (k * l) == - p)%Q)
        by (rewrite <- Hx at 2; ring).
      lra. }
  assert (Hl : (0 < l)%Q).
  { destruct (Qlt_le_dec 0 l) as [|Hle]; [assumption|]. exfalso.
    assert (0 <= k * - l)%Q by (apply Qmult_le_0_compat; lra).
    assert (k * - l == - (k * l))%Q by ring. lra. }
  exists h, l, k.
  split; [exact Hch|]. split; [exact Hcl|]. split; [exact Hq|].
  split; [exact Hmargin|]. split; [exact Hcost|].
  split; [rewrite Hroi, calculateProfitAfterTax_Fin; reflexivity|].
  split; [exact Hkpos|]. split; [exact Hl|]. split; [exact Hlh|].
  intros b Eb. rewrite Eb in Hk.
  pose proof (calculateOptimalQuantity_le_budget _ _ _ _ _ _ Havg Hk) as Hle.
  set (a := ((h + l) / inject_Z 2)%Q) in *.
  assert (Ea : (a * 2 == h + l)%Q)
    by (unfold a; change (inject_Z 2) with 2%Q; field).
  assert (Hla : (k * l <= k * a)%Q).
  { rewrite (Qmult_comm k l), (Qmult_comm k a).
    apply Qmult_le_compat_r; lra. }
  lra.
Qed.

(** X13. Every opportunity listed can be bought on its own: for every
    budget that is not negative, and stored buy limits that are not
    negative, every record returned by [getFlipOpportunities] has a
    quantity above zero, a buy price above zero, and a total cost above
    zero and within the budget. *)
Theorem getFlipOpportunities_affordable (o : FlipOpportunity) :
  (budget >=? num 0)%js = true ->
  Forall (fun item => (0 <= Item.buyLimit item)%Q) items ->
  In o (getFlipOpportunities Math_sqrt volumeData items budget options) ->
  (quantity o >? num 0)%js = true /\
  (currentLow o >? num 0)%js = true /\
  (totalCost o >? num 0)%js = true /\
  (totalCost o <=? budget)%js = true.
Proof using Type.
  intros Hb Hlimits Hin.
  destruct (getFlipOpportunities_origin _ _ _ _ _ _ Hin)
    as (o0 & item & Hws & Hitem & Hev & Hprof).
  assert (HL : (0 <= Item.buyLimit item)%Q).
  { rewrite List.Forall_forall in Hlimits. apply Hlimits. exact Hitem. }
  destruct (profitable_numbers item o0 Hb HL Hev Hprof)
    as (h & l & k & Hch & Hcl & Hq & _ & Hcost & _ & Hk & Hl & _ & Hfit).
  assert (E1 : quantity o = quantity o0)
    by (apply (f_equal quantity) in Hws; exact Hws).
  assert (E2 : currentLow o = currentLow o0)
    by (apply (f_equal currentLow) in Hws; exact Hws).
  assert (E3 : totalCost o = totalCost o0)
    by (apply (f_equal totalCost) in Hws; exact Hws).
  rewrite E1, E2, E3, Hq, Hcl, Hcost. unfold ngt. cbn [nlt num].
  repeat split; qprop; try assumption.
  - apply Qmult_lt_0_compat; assumption.
  - destruct budget as [b| | |]; try discriminate Hb; [|reflexivity].
    cbn [nle]. qprop. apply Hfit. reflexivity.
Qed.



End EndpointProperties.

(** * Further properties of the portfolio *)

Lemma adjustedQuantityOf_capped (budget rem : number) (o : FlipOpportunity) :
  quantityCapped o (adjustOpportunity o (adjustedQuantityOf budget rem o)).
Proof.
  unfold quantityCapped, adjustedQuantityOf.
  change (quantity (adjustOpportunity o ?q)) with q.
  destruct (buyLimit o === num 0)%js.
  - destruct (rem >? budget * Fin 0.5)%js; [left|right];
      apply below_not_gt, Math_min_below; right; left; reflexivity.
  - apply below_not_gt, Math_min_below. left. reflexivity.
Qed.

Lemma selectedFrom_weaken (o : FlipOpportunity)
    (candidates : list FlipOpportunity) (s : FlipOpportunity) :
  selectedFrom candidates s -> selectedFrom (o :: candidates) s.
Proof.
  intros (o' & Hin & Hs). exists o'. split; [right; exact Hin|exact Hs].
Qed.

Lemma selectLoop_picks (budget : number)
    (opportunities : list FlipOpportunity) :
  forall (rem : number) (selected : list FlipOpportunity),
  exists picks : list FlipOpportunity,
    snd (selectLoop budget opportunities rem selected) = selected ++ picks /\
    map id picks `sublist_of` map id opportunities /\
    Forall (selectedFrom opportunities) picks.
Proof.
  induction opportunities as [|o rest IH]; intros rem sel; cbn [selectLoop].
  - exists []. rewrite app_nil_r. repeat split; constructor.
  - destruct ((rem <=? num 0)%js || (maxItems <=? length sel)%nat).
    { exists []. rewrite app_nil_r. repeat split; [apply sublist_nil_l|].
      constructor. }
    destruct (adjustedQuantityOf budget rem o >? num 0)%js eqn:Hq.
    + destruct (IH (rem - totalCost
                            (adjustOpportunity o
                               (adjustedQuantityOf budget rem o)))%js
                  (sel ++ [adjustOpportunity o
                             (adjustedQuantityOf budget rem o)]))
        as (picks & Hsel & Hsub & Hall).
      exists (adjustOpportunity o (adjustedQuantityOf budget rem o) :: picks).
      split; [rewrite Hsel, <- app_assoc; reflexivity|]. split.
      * cbn [map]. constructor. exact Hsub.
      * constructor.
        -- exists o. split; [left; reflexivity|].
           split; [reflexivity|]. split; [exact Hq|].
           apply adjustedQuantityOf_capped.
        -- eapply List.Forall_impl; [|exact Hall].
           apply selectedFrom_weaken.
    + destruct (IH rem sel) as (picks & Hsel & Hsub & Hall).
      exists picks. split; [exact Hsel|]. split.
      * cbn [map]. constructor. exact Hsub.
      * eapply List.Forall_impl; [|exact Hall]. apply selectedFrom_weaken.
Qed.

(** X14. The portfolio is picked from the candidates, in their order:
    for every list of candidates and every budget, the ids selected by
    [buildPortfolio] are a sub-list of the candidates' ids (so a
    candidate is selected at most once, and pairwise distinct candidate
    ids stay distinct), and every selection is a candidate recomputed
    for a quantity above zero that is within the candidate's cap: its
    own quantity when it has a buy limit, a fifth or a tenth of its
    volume when it has none. *)
Theorem buildPortfolio_selections
    (opportunities : list FlipOpportunity) (budget : number) (now : Z) :
  let selected :=
    PortfolioSuggestion.opportunities
      (buildPortfolio opportunities budget now) in
  map id selected `sublist_of` map id opportunities /\
  (NoDup (map id opportunities) -> NoDup (map id selected)) /\
  Forall (selectedFrom opportunities) selected.
Proof.
  intros selected. subst selected. unfold buildPortfolio.
  cbn [PortfolioSuggestion.opportunities].
  destruct (selectLoop_picks budget opportunities budget [])
    as (picks & -> & Hsub & Hall).
  cbn [app]. split; [exact Hsub|]. split; [|exact Hall].
  intros Hnd. eapply sublist_NoDup; eassumption.
Qed.







(** ** The sample market, listed *)

Lemma getFlipOpportunities_ids_witness :
  NoDup (map id (sampleOpportunities (num 12000000))).
Proof.
  apply (proj2 (proj2 (getFlipOpportunities_ids sqrt_floor sampleVolumes
                         sampleItems (num 12000000) Filters.none))).
  apply (bool_decide_unpack _). vm_compute. exact I.
Defined.

Lemma getFlipOpportunities_listing_witness :
  (profitAfterTax
     (nth 0 (sampleOpportunities (num 12000000)) (testOpportunity 0 (num 0)))
   >=? num 1000)%js = true /\
  (roi
     (nth 0 (sampleOpportunities (num 12000000)) (testOpportunity 0 (num 0)))
   >=? num 5)%js = true.
Proof.
  pose proof (getFlipOpportunities_listing sqrt_floor sampleVolumes
                sampleItems (num 12000000) Filters.none
                (nth 0 (sampleOpportunities (num 12000000))
                   (testOpportunity 0 (num 0)))) as H.
  destruct H as (Hp & Hr & _).
  - reflexivity.
  - vm_compute. left. reflexivity.
  - split; [exact Hp|exact Hr].
Defined.

Lemma getFlipOpportunities_volume_witness :
  exists v : Q,
    sampleVolumes
    !! id (nth 0 (sampleOpportunities (num 12000000))
             (testOpportunity 0 (num 0))) = Some v /\
    (50 <= v)%Q.
Proof.
  destruct (getFlipOpportunities_volume sqrt_floor sampleVolumes sampleItems
              (num 12000000) Filters.none
              (nth 0 (sampleOpportunities (num 12000000))
                 (testOpportunity 0 (num 0))))
    as (v & Hv & _ & H50 & _).
  - vm_compute. left. reflexivity.
  - exists v. split; [exact Hv|exact H50].
Defined.

Lemma getFlipOpportunities_affordable_witness :
  (totalCost
     (nth 0 (sampleOpportunities (num 12000000)) (testOpportunity 0 (num 0)))
   <=? num 12000000)%js = true.
Proof.
  apply (getFlipOpportunities_affordable sqrt_floor sampleVolumes sampleItems
           (num 12000000) Filters.none
           (nth 0 (sampleOpportunities (num 12000000))
              (testOpportunity 0 (num 0)))).
  - reflexivity.
  - repeat constructor; discriminate.
  - vm_compute. left. reflexivity.
Defined.

Lemma buildPortfolio_selections_witness :
  NoDup (map id (PortfolioSuggestion.opportunities
                   (buildPortfolio (sampleOpportunities (num 12000000))
                      (num 12000000) 0))).
Proof.
  apply (proj1 (proj2 (buildPortfolio_selections
                         (sampleOpportunities (num 12000000))
                         (num 12000000) 0))).
  apply (bool_decide_unpack _). vm_compute. exact I.
Defined.

(** ** The volume request *)

Lemma orZero_nonzero (x : option Q) :
  ~ (orZero x == 0)%Q -> x = Some (orZero x).
Proof.
  destruct x as [q|]; cbn [orZero].
  - destruct (Qeq_bool q 0); [intros H; exfalso; apply H|]; reflexivity.
  - intros H. exfalso. apply H. reflexivity.
Qed.

(** The loop of [fetchVolumeData] leaves the keys it does not meet
    alone. *)
Lemma fetchVolumeData_loop_other (volumeData : list (Z * OSRSVolume.t))
    (processed : gmap Z Q) (itemId : Z) :
  ~ In itemId (map fst volumeData) ->
  fold_left
    (fun (processedVolumes : gmap Z Q) (entry : Z * OSRSVolume.t) =>
       let (itemId, volumes) := entry in
       let totalVolume := totalVolumeOf volumes in
       if Qltb 0 totalVolume
       then <[itemId := totalVolume]> processedVolumes
       else processedVolumes)
    volumeData processed !! itemId
  = processed !! itemId.
Proof.
  revert processed.
  induction volumeData as [|[k volumes] rest IH]; intros processed Hnot;
    cbn [fold_left].
  - reflexivity.
  - cbn [map fst In] in Hnot.
    rewrite IH by (intros H; apply Hnot; right; exact H).
    destruct (Qltb 0 (totalVolumeOf volumes)); [|reflexivity].
    apply lookup_insert_ne. intros E. apply Hnot. left. exact E.
Qed.

(** Whatever the loop stores, it stores for an entry of the response,
    and above zero. *)
Lemma fetchVolumeData_loop_stored (volumeData : list (Z * OSRSVolume.t))
    (processed : gmap Z Q) (itemId : Z) (v : Q) :
  fold_left
    (fun (processedVolumes : gmap Z Q) (entry : Z * OSRSVolume.t) =>
       let (itemId, volumes) := entry in
       let totalVolume := totalVolumeOf volumes in
       if Qltb 0 totalVolume
       then <[itemId := totalVolume]> processedVolumes
       else processedVolumes)
    volumeData processed !! itemId
  = Some v ->
  processed !! itemId = Some v \/
  exists volumes : OSRSVolume.t,
    In (itemId, volumes) volumeData /\ v = totalVolumeOf volumes /\
    (0 < v)%Q.
Proof.
  revert processed.
  induction volumeData as [|[k volumes] rest IH]; intros processed;
    cbn [fold_left].
  - intros H. left. exact H.
  - intros H. apply IH in H. destruct H as [H|(vs & Hin & Hv & Hpos)].
    + destruct (Qltb 0 (totalVolumeOf volumes)) eqn:E.
      * destruct (decide (k = itemId)) as [->|Hne].
        -- rewrite lookup_insert_eq in H. injection H as <-.
           right. exists volumes. split; [left; reflexivity|].
           split; [reflexivity|]. qprop. exact E.
        -- rewrite lookup_insert_ne in H by exact Hne. left. exact H.
      * left. exact H.
    + right. exists vs. split; [right; exact Hin|]. split; assumption.
Qed.

Lemma fetchVolumeData_stored (response : option (list (Z * OSRSVolume.t)))
    (itemId : Z) (v : Q) :
  fetchVolumeData response !! itemId = Some v ->
  exists (volumeData : list (Z * OSRSVolume.t)) (volumes : OSRSVolume.t),
    response = Some volumeData /\ In (itemId, volumes) volumeData /\
    v = totalVolumeOf volumes /\ (0 < v)%Q.
Proof.
  destruct response as [volumeData|]; cbn [fetchVolumeData].
  - intros H. apply fetchVolumeData_loop_stored in H.
    destruct H as [H|(volumes & Hin & Hv & Hpos)].
    + rewrite lookup_empty in H. discriminate H.
    + exists volumeData, volumes. repeat split; assumption.
  - intros H. rewrite lookup_empty in H. discriminate H.
Qed.

(** With pairwise distinct ids, the loop settles the key of each entry
    it meets. *)
Lemma fetchVolumeData_loop_entry (volumeData : list (Z * OSRSVolume.t))
    (processed : gmap Z Q) (itemId : Z) (volumes : OSRSVolume.t) :
  NoDup (map fst volumeData) ->
  In (itemId, volumes) volumeData ->
  fold_left
    (fun (processedVolumes : gmap Z Q) (entry : Z * OSRSVolume.t) =>
       let (itemId, volumes) := entry in
       let totalVolume := totalVolumeOf volumes in
       if Qltb 0 totalVolume
       then <[itemId := totalVolume]> processedVolumes
       else processedVolumes)
    volumeData processed !! itemId
  = if Qltb 0 (totalVolumeOf volumes)
    then Some (totalVolumeOf volumes) else processed !! itemId.
Proof.
  revert processed.
  induction volumeData as [|[k vs] rest IH]; intros processed Hnd Hin;
    [destruct Hin|].
  cbn [map fst] in Hnd. apply NoDup_cons in Hnd.
  destruct Hnd as [Hk Hnd]. cbn [fold_left].
  destruct Hin as [E|Hin].
  - injection E as -> ->.
    rewrite fetchVolumeData_loop_other
      by (intros H; apply Hk, list_elem_of_In; exact H).
    destruct (Qltb 0 (totalVolumeOf volumes)); [|reflexivity].
    apply lookup_insert_eq.
  - rewrite (IH _ Hnd Hin).
    destruct (Qltb 0 (totalVolumeOf volumes)); [reflexivity|].
    destruct (Qltb 0 (totalVolumeOf vs)); [|reflexivity].
    apply lookup_insert_ne. intros ->. apply Hk, list_elem_of_In.
    apply (in_map fst) in Hin. exact Hin.
Qed.

(** X17. What [fetchVolumeData] stores for an item is above zero, so the
    fallback [volumeData[id] || 0] of the opportunities endpoint reads it
    back unchanged; a failed request stores nothing.  When the ids of the
    response are pairwise distinct, as the keys of an object are, an
    entry whose two trade counts add up to more than zero is stored under
    its id with that total, and an entry whose counts are absent or add
    up to zero is left out. *)
Theorem fetchVolumeData_lookup (volumeData : list (Z * OSRSVolume.t))
    (itemId : Z) :
  NoDup (map fst volumeData) ->
  fetchVolumeData None !! itemId = None /\
  (forall v : Q,
     fetchVolumeData (Some volumeData) !! itemId = Some v ->
     volumeOf (fetchVolumeData (Some volumeData)) itemId = Fin v /\
     (0 < v)%Q) /\
  (forall volumes : OSRSVolume.t,
     In (itemId, volumes) volumeData ->
     fetchVolumeData (Some volumeData) !! itemId
     = if Qltb 0 (totalVolumeOf volumes)
       then Some (totalVolumeOf volumes) else None).
Proof.
  intros Hnd. split; [apply lookup_empty|]. split.
  - intros v Hv. pose proof Hv as Hs.
    apply fetchVolumeData_stored in Hs.
    destruct Hs as (vd & volumes & _ & _ & _ & Hpos).
    split; [|exact Hpos].
    unfold volumeOf. rewrite Hv. unfold or_else, truthy.
    destruct (Qeq_bool v 0) eqn:E; [|reflexivity].
    qprop. lra.
  - intros volumes Hin. cbn [fetchVolumeData].
    rewrite (fetchVolumeData_loop_entry _ _ _ _ Hnd Hin).
    rewrite lookup_empty. reflexivity.
Qed.

Lemma fetchVolumeData_lookup_witness :
  fetchVolumeData (Some sampleVolumeResponse) !! 4%Z = Some 1300%Q /\
  fetchVolumeData (Some sampleVolumeResponse) !! 6%Z = None.
Proof.
  assert (Hnd : NoDup (map fst sampleVolumeResponse))
    by (apply (bool_decide_unpack _); vm_compute; exact I).
  destruct (fetchVolumeData_lookup sampleVolumeResponse 4 Hnd)
    as (_ & _ & H4).
  destruct (fetchVolumeData_lookup sampleVolumeResponse 6 Hnd)
    as (_ & _ & H6).
  split.
  - apply (H4 (OSRSVolume.mk (Some 650%Q) (Some 650%Q))).
    vm_compute. tauto.
  - apply (H6 (OSRSVolume.mk (Some 0%Q) None)).
    vm_compute. tauto.
Defined.

(** X18. The opportunities endpoint lists an item only on the strength
    of the volume response: every record that [getFlipOpportunities]
    returns on the volumes stored by [fetchVolumeData] comes with a
    response entry for its id whose two trade counts add up to the
    volume of the record, which is at least 50.  So when the volume
    request fails, nothing is listed. *)
Theorem getFlipOpportunities_volume_response
    (Math_sqrt : number -> number)
    (response : option (list (Z * OSRSVolume.t))) (items : list Item.t)
    (budget : number) (options : Filters.t) :
  getFlipOpportunities Math_sqrt (fetchVolumeData None) items budget options
  = [] /\
  forall o : FlipOpportunity,
    In o (getFlipOpportunities Math_sqrt (fetchVolumeData response) items
            budget options) ->
    exists (volumeData : list (Z * OSRSVolume.t)) (volumes : OSRSVolume.t),
      response = Some volumeData /\ In (id o, volumes) volumeData /\
      volume o = Fin (totalVolumeOf volumes) /\
      (50 <= totalVolumeOf volumes)%Q.
Proof.
  assert (Hall : forall r (o : FlipOpportunity),
    In o (getFlipOpportunities Math_sqrt (fetchVolumeData r) items budget
            options) ->
    exists (volumeData : list (Z * OSRSVolume.t)) (volumes : OSRSVolume.t),
      r = Some volumeData /\ In (id o, volumes) volumeData /\
      volume o = Fin (totalVolumeOf volumes) /\
      (50 <= totalVolumeOf volumes)%Q).
  { intros r o Hin.
    destruct (getFlipOpportunities_origin _ _ _ _ _ _ Hin)
      as (o0 & item & Hws & Hitem & Hev & _).
    evaluateItem_facts Hev.
    assert (E1 : id o = id o0) by (apply (f_equal id) in Hws; exact Hws).
    assert (E2 : volume o = volume o0)
      by (apply (f_equal volume) in Hws; exact Hws).
    rewrite E1, E2, Hid, Hvolume.
    destruct (volumeOf_sufficient _ _ _ Hliquid)
      as (v & Hlook & Hv & H50 & _).
    destruct (fetchVolumeData_stored _ _ _ Hlook)
      as (volumeData & volumes & Hr & Hentry & Htotal & _).
    exists volumeData, volumes. rewrite Hv, <- Htotal.
    repeat split; assumption. }
  split; [|apply Hall].
  destruct (getFlipOpportunities Math_sqrt (fetchVolumeData None) items
              budget options) as [|o rest] eqn:E; [reflexivity|].
  destruct (Hall None o) as (vd & _ & Hr & _).
  - rewrite E. left. reflexivity.
  - discriminate Hr.
Qed.

Lemma getFlipOpportunities_volume_response_witness :
  exists (volumeData : list (Z * OSRSVolume.t)) (volumes : OSRSVolume.t),
    Some sampleVolumeResponse = Some volumeData /\
    In (3%Z, volumes) volumeData /\
    Fin 100000 = Fin (totalVolumeOf volumes) /\
    (50 <= totalVolumeOf volumes)%Q.
Proof.
  apply (proj2 (getFlipOpportunities_volume_response sqrt_floor
                  (Some sampleVolumeResponse) sampleItems (num 12000000)
                  Filters.none)
           (nth 0 (getFlipOpportunities sqrt_floor
                     (fetchVolumeData (Some sampleVolumeResponse))
                     sampleItems (num 12000000) Filters.none)
              (testOpportunity 0 (num 0)))).
  vm_compute. left. reflexivity.
Defined.

(** ** The HTTP routes *)

(** With the options of the routes, which ask for neither spikes nor
    high-risk items, every record listed is stable and its volatility is
    not above 25. *)
Lemma getFlipOpportunities_cautious (Math_sqrt : number -> number)
    (volumeData : gmap Z Q) (items : list Item.t) (budget : number)
    (minVolume maxVolatility : option number) (o : FlipOpportunity) :
  In o (getFlipOpportunities Math_sqrt volumeData items budget
          (Filters.mk minVolume maxVolatility None None)) ->
  isStable o = Some true /\ (volatility o >? num 25)%js = false.
Proof.
  intros Hin.
  destruct (getFlipOpportunities_origin _ _ _ _ _ _ Hin)
    as (o0 & item & Hws & Hitem & Hev & _).
  cbn [Filters.includeSpikes Filters.includeHighRisk default] in Hev.
  evaluateItem_facts Hev.
  assert (E1 : isStable o = isStable o0)
    by (apply (f_equal isStable) in Hws; exact Hws).
  assert (E2 : volatility o = volatility o0)
    by (apply (f_equal volatility) in Hws; exact Hws).
  rewrite E1, E2. split.
  - cbn [negb andb] in Hstable. apply negb_false_iff in Hstable.
    rewrite Hst, Hstable. reflexivity.
  - exact Hrisk.
Qed.

Lemma sliceEnd_le (len : nat) (end_ : number) :
  (sliceEnd len end_ <= len)%nat.
Proof.
  unfold sliceEnd. destruct end_ as [q| | |]; try lia.
  destruct (truncate q <? 0)%Z eqn:E; lia.
Qed.

Lemma sliceEnd_bound (len : nat) (k : Z) :
  (0 <= k)%Z -> (Z.of_nat (sliceEnd len (num k)) <= k)%Z.
Proof.
  intros Hk. unfold sliceEnd, num, truncate.
  assert (Hlt : Qltb (inject_Z k) 0 = false).
  { apply negb_false_iff, Qle_bool_iff.
    change 0%Q with (inject_Z 0). rewrite <- Zle_Qle. exact Hk. }
  rewrite Hlt, Qfloor_Z.
  destruct (k <? 0)%Z eqn:E; lia.
Qed.






(** X20. Whatever the query string, the opportunities route answers with
    a prefix of the ranking that [getFlipOpportunities] returns for the
    parsed budget and options: with the first [limit] records of it (all
    of them when there are fewer) for a limit that is not negative, and
    with none for a limit that does not parse.  As the route hands on
    neither [includeSpikes] nor [includeHighRisk], every record served
    is stable and has a volatility not above 25. *)
Theorem opportunitiesRoute_reply (Math_sqrt : number -> number)
    (parseFloat parseInt : string -> number)
    (response : option (list (Z * OSRSVolume.t))) (items : list Item.t)
    (query : OpportunitiesQuery.t) :
  let limit :=
    parseInt
      (default "50"%string (nonEmpty (OpportunitiesQuery.limit query))) in
  let listed :=
    getFlipOpportunities Math_sqrt (fetchVolumeData response) items
      (parseFloat
         (default "100000000"%string
            (nonEmpty (OpportunitiesQuery.budget query))))
      (Filters.mk
         (Some (parsedOr parseInt (num 0)
                  (OpportunitiesQuery.minVolume query)))
         (Some (parsedOr parseFloat VOLATILITY_THRESHOLDS_EXTREME
                  (OpportunitiesQuery.maxVolatility query)))
         None None) in
  exists served : list FlipOpportunity,
    opportunitiesRoute Math_sqrt parseFloat parseInt response items query
    = Success served /\
    served `prefix_of` listed /\
    (forall k : Z,
       limit = num k -> (0 <= k)%Z ->
       Z.of_nat (length served) = Z.min k (Z.of_nat (length listed))) /\
    (limit = NaN -> served = []) /\
    Forall (fun o => isStable o = Some true /\
                     (volatility o >? num 25)%js = false) served.
Proof.
  intros limit listed.
  exists (Array_slice_0 listed limit).
  split; [reflexivity|].
  assert (Hpre : Array_slice_0 listed limit `prefix_of` listed).
  { unfold Array_slice_0. exists (drop (sliceEnd (length listed) limit) listed).
    symmetry. apply take_drop. }
  split; [exact Hpre|]. split; [|split].
  - intros k Hk Hk0. unfold Array_slice_0. rewrite Hk.
    rewrite length_take.
    unfold sliceEnd, num, truncate.
    assert (Hlt : Qltb (inject_Z k) 0 = false).
    { apply negb_false_iff, Qle_bool_iff.
      change 0%Q with (inject_Z 0). rewrite <- Zle_Qle. exact Hk0. }
    rewrite Hlt, Qfloor_Z.
    destruct (k <? 0)%Z eqn:E; lia.
  - intros Hnan. unfold Array_slice_0. rewrite Hnan. reflexivity.
  - apply List.Forall_forall. intros o Ho.
    assert (Hin : In o listed).
    { destruct Hpre as [rest Hrest]. rewrite Hrest.
      apply in_or_app. left. exact Ho. }
    eapply getFlipOpportunities_cautious. exact Hin.
Qed.

Lemma opportunitiesRoute_reply_witness :
  exists served : list FlipOpportunity,
    opportunitiesRoute sqrt_floor parseSample parseSample
      (Some sampleVolumeResponse) sampleItems
      (OpportunitiesQuery.mk (Some "12000000"%string) (Some "2"%string)
         None None)
    = Success served /\
    Z.of_nat (length served) = 2%Z.
Proof.
  destruct (opportunitiesRoute_reply sqrt_floor parseSample parseSample
              (Some sampleVolumeResponse) sampleItems
              (OpportunitiesQuery.mk (Some "12000000"%string)
                 (Some "2"%string) None None))
    as (served & Hreply & _ & Hlen & _).
  exists served. split; [exact Hreply|].
  rewrite (Hlen 2%Z eq_refl ltac:(lia)). reflexivity.
Defined.





(** ** The item detail view: statistics and chart *)

Lemma fold_min2_Fin (qs : list Q) (a : Q) :
  exists m : Q,
    fold_left min2 (map Fin qs) (Fin a) = Fin m /\ (m <= a)%Q /\
    Forall (fun q => m <= q)%Q qs /\ In m (a :: qs).
Proof.
  revert a. induction qs as [|q qs IH]; intros a; cbn [map fold_left].
  - exists a. split; [reflexivity|]. split; [lra|].
    split; [constructor|left; reflexivity].
  - cbn [min2 nle].
    destruct (Qle_bool a q) eqn:E; qprop.
    + destruct (IH a) as (m & Hm & Hma & Hall & Hin).
      exists m. split; [exact Hm|]. split; [exact Hma|].
      split; [constructor; [lra|exact Hall]|].
      destruct Hin as [Hin|Hin]; [left; exact Hin|right; right; exact Hin].
    + destruct (IH q) as (m & Hm & Hmq & Hall & Hin).
      exists m. split; [exact Hm|]. split; [lra|].
      split; [constructor; [exact Hmq|exact Hall]|].
      right. exact Hin.
Qed.

Lemma fold_max2_Fin (qs : list Q) (a : Q) :
  exists m : Q,
    fold_left max2 (map Fin qs) (Fin a) = Fin m /\ (a <= m)%Q /\
    Forall (fun q => q <= m)%Q qs.
Proof.
  revert a. induction qs as [|q qs IH]; intros a; cbn [map fold_left].
  - exists a. split; [reflexivity|]. split; [lra|constructor].
  - cbn [max2 nle].
    destruct (Qle_bool a q) eqn:E; qprop.
    + destruct (IH q) as (m & Hm & Hmq & Hall).
      exists m. split; [exact Hm|]. split; [lra|].
      constructor; [exact Hmq|exact Hall].
    + destruct (IH a) as (m & Hm & Hma & Hall).
      exists m. split; [exact Hm|]. split; [exact Hma|].
      constructor; [lra|exact Hall].
Qed.

(** [Math.min] and [Math.max] of finite numbers, at least one. *)
Lemma Math_min_Fin (q : Q) (qs : list Q) :
  exists m : Q,
    Math_min (map Fin (q :: qs)) = Fin m /\
    Forall (fun x => m <= x)%Q (q :: qs) /\ In m (q :: qs).
Proof.
  unfold Math_min. cbn [map fold_left min2 nle].
  destruct (fold_min2_Fin qs q) as (m & Hm & Hmq & Hall & Hin).
  exists m. split; [exact Hm|]. split; [constructor; assumption|exact Hin].
Qed.

Lemma Math_max_Fin (q : Q) (qs : list Q) :
  exists m : Q,
    Math_max (map Fin (q :: qs)) = Fin m /\
    Forall (fun x => x <= m)%Q (q :: qs).
Proof.
  unfold Math_max. cbn [map fold_left max2 nle].
  destruct (fold_max2_Fin qs q) as (m & Hm & Hmq & Hall).
  exists m. split; [exact Hm|]. constructor; assumption.
Qed.

Lemma truthyPrice_Some (price : option Q) (x : number) :
  truthyPrice price = Some x ->
  exists q : Q, price = Some q /\ x = Fin q /\ ~ (q == 0)%Q.
Proof.
  destruct price as [q|]; cbn [truthyPrice]; [|discriminate].
  destruct (Qeq_bool q 0) eqn:E; [discriminate|].
  intros H. injection H as <-. exists q. qprop. repeat split. exact E.
Qed.

(** The valid prices of a column are finite: they are the prices of the
    samples that have one. *)
Lemma validPrices_Fin (column : Price.t -> option Q)
    (prices : list Price.t) :
  exists qs : list Q,
    validPrices column prices = map Fin qs /\
    (length qs <= length prices)%nat /\
    Forall (fun q => exists p, In p prices /\ column p = Some q) qs.
Proof.
  unfold validPrices.
  induction prices as [|p prices (qs & Hqs & Hlen & Hall)];
    cbn [omap list_omap].
  - exists []. split; [reflexivity|]. split; [reflexivity|constructor].
  - destruct (truthyPrice (column p)) as [x|] eqn:E.
    + destruct (truthyPrice_Some _ _ E) as (q & Hq & -> & _).
      exists (q :: qs). cbn [map length]. rewrite <- Hqs.
      split; [reflexivity|]. split; [lia|].
      constructor.
      * exists p. split; [left; reflexivity|exact Hq].
      * eapply List.Forall_impl; [|exact Hall].
        intros q' (p' & Hp' & Hq'). exists p'. split; [right|]; assumption.
    + exists qs. split; [exact Hqs|]. split; [cbn [length]; lia|].
      eapply List.Forall_impl; [|exact Hall].
      intros q' (p' & Hp' & Hq'). exists p'. split; [right|]; assumption.
Qed.






(** Every truthy price of the history is among [allPrices], which are
    finite. *)
Lemma allPrices_Fin (prices : list Price.t) :
  exists qs : list Q,
    flat_map (fun p => omap truthyPrice [Price.high p; Price.low p]) prices
    = map Fin qs /\
    (forall (column : Price.t -> option Q) (x : number),
       column = Price.high \/ column = Price.low ->
       In x (validPrices column prices) ->
       exists q : Q, x = Fin q /\ In q qs).
Proof.
  induction prices as [|p prices (qs & Hqs & Hall)].
  - exists []. split; [reflexivity|]. intros column x _ [].
  - cbn [flat_map]. rewrite Hqs.
    assert (Hhere : exists hd : list Q,
      omap truthyPrice [Price.high p; Price.low p] = map Fin hd /\
      forall (column : Price.t -> option Q) (x : number),
        column = Price.high \/ column = Price.low ->
        truthyPrice (column p) = Some x ->
        exists q : Q, x = Fin q /\ In q hd).
    { cbn [omap list_omap].
      destruct (truthyPrice (Price.high p)) as [xh|] eqn:Eh;
        destruct (truthyPrice (Price.low p)) as [xl|] eqn:El;
        try (destruct (truthyPrice_Some _ _ Eh) as (qh & _ & -> & _));
        try (destruct (truthyPrice_Some _ _ El) as (ql & _ & -> & _)).
      - exists [qh; ql]. split; [reflexivity|].
        intros column x [->| ->] Hx; rewrite Hx in *.
        + injection Eh as ->. exists qh. split; [reflexivity|]. left.
          reflexivity.
        + injection El as ->. exists ql. split; [reflexivity|]. right. left.
          reflexivity.
      - exists [qh]. split; [reflexivity|].
        intros column x [->| ->] Hx; rewrite Hx in *; [|discriminate].
        injection Eh as ->. exists qh. split; [reflexivity|]. left.
        reflexivity.
      - exists [ql]. split; [reflexivity|].
        intros column x [->| ->] Hx; rewrite Hx in *; [discriminate|].
        injection El as ->. exists ql. split; [reflexivity|]. left.
        reflexivity.
      - exists []. split; [reflexivity|].
        intros column x [->| ->] Hx; rewrite Hx in *; discriminate. }
    destruct Hhere as (hd & Hhd & Hhere).
    exists (hd ++ qs). rewrite Hhd, map_app. split; [reflexivity|].
    intros column x Hcol Hin. unfold validPrices in Hin.
    cbn [omap list_omap] in Hin.
    destruct (truthyPrice (column p)) as [y|] eqn:E.
    + destruct Hin as [<-|Hin].
      * destruct (Hhere column y Hcol E) as (q & Hq & Hqin).
        exists q. split; [exact Hq|]. apply in_or_app. left. exact Hqin.
      * destruct (Hall column x Hcol Hin) as (q & Hq & Hqin).
        exists q. split; [exact Hq|]. apply in_or_app. right. exact Hqin.
    + destruct (Hall column x Hcol Hin) as (q & Hq & Hqin).
      exists q. split; [exact Hq|]. apply in_or_app. right. exact Hqin.
Qed.

(** A point of the chart, for a sample index within the history and a
    price between the two labels. *)
Lemma chart_point_inFrame (n i : nat) (lo hi q : Q) :
  (2 <= n)%nat -> (i < n)%nat -> (lo <= q <= hi)%Q ->
  inFrame
    ((num 20
      + (num (Z.of_nat i) / (num (Z.of_nat n) - num 1))
        * (num 400 - num 2 * num 20))%js,
     (num 20
      + ((Fin hi - Fin q) / or_else (Fin hi - Fin lo)%js (num 1))
        * (num 200 - num 2 * num 20))%js).
Proof.
  intros Hn Hi Hq. unfold num. cbn [nsub nneg nadd nmul].
  assert (Hd : (0 < inject_Z (Z.of_nat n) + - inject_Z 1)%Q).
  { rewrite <- inject_Z_opp, <- inject_Z_plus.
    change 0%Q with (inject_Z 0). rewrite <- Zlt_Qlt. lia. }
  rewrite ndiv_Fin by lra.
  assert (Hx0 : (0 <= inject_Z (Z.of_nat i)
                      / (inject_Z (Z.of_nat n) + - inject_Z 1))%Q).
  { apply Qdiv_nonneg; [|exact Hd].
    change 0%Q with (inject_Z 0). rewrite <- Zle_Qle. lia. }
  assert (Hx1 : (inject_Z (Z.of_nat i)
                 / (inject_Z (Z.of_nat n) + - inject_Z 1) <= 1)%Q).
  { apply Qle_shift_div_r; [exact Hd|].
    rewrite <- inject_Z_opp, <- inject_Z_plus, Qmult_1_l, <- Zle_Qle. lia. }
  unfold or_else. cbn [truthy].
  destruct (Qeq_bool (hi + - lo) 0) eqn:E; cbn [negb]; qprop.
  - rewrite ndiv_Fin by (intros H; discriminate H).
    cbn [nmul nadd].
    eexists _, _. split; [reflexivity|].
    change (inject_Z 20) with 20%Q. change (inject_Z 400) with 400%Q.
    change (inject_Z 200) with 200%Q. change (inject_Z 2) with 2%Q.
    change (inject_Z 1) with 1%Q in *.
    assert (Ey : ((hi + - q) / 1 == hi + - q)%Q) by (field).
    rewrite Ey. split; split; lra.
  - assert (Hr : (0 < hi + - lo)%Q) by lra.
    rewrite ndiv_Fin by lra. cbn [nmul nadd].
    eexists _, _. split; [reflexivity|].
    change (inject_Z 20) with 20%Q. change (inject_Z 400) with 400%Q.
    change (inject_Z 200) with 200%Q. change (inject_Z 2) with 2%Q.
    change (inject_Z 1) with 1%Q in *.
    assert (Hy0 : (0 <= (hi + - q) / (hi + - lo))%Q)
      by (apply Qdiv_nonneg; lra).
    assert (Hy1 : ((hi + - q) / (hi + - lo) <= 1)%Q)
      by (apply Qle_shift_div_r; lra).
    split; split; lra.
Qed.

(** X23. Every point that [createPriceChart] plots lies inside the padded
    drawing area: for every price history of two samples or more,
    whatever prices are missing, the coordinates of the points of both
    lines are finite, between 20 and 380 across and between 20 and 180
    down.  A history of fewer than two samples has no chart. *)
Theorem createPriceChart_in_frame (prices : list Price.t) :
  (createPriceChart prices = None <-> (length prices < 2)%nat) /\
  forall chart : PriceChart.t,
    createPriceChart prices = Some chart ->
    Forall inFrame (PriceChart.highPoints chart) /\
    Forall inFrame (PriceChart.lowPoints chart).
Proof.
  unfold createPriceChart.
  destruct (length prices <? 2)%nat eqn:Hlen.
  - apply Nat.ltb_lt in Hlen.
    split; [split; [intros _; exact Hlen|reflexivity]|discriminate].
  - apply Nat.ltb_ge in Hlen.
    split; [split; [discriminate|lia]|].
    intros chart E. cbv zeta in E. apply (inj Some) in E. subst chart.
    cbn [PriceChart.highPoints PriceChart.lowPoints].
    destruct (allPrices_Fin prices) as (qs & Hqs & Hvalid).
    rewrite Hqs.
    assert (Hline : forall column : Price.t -> option Q,
      column = Price.high \/ column = Price.low ->
      Forall inFrame
        (imap
           (fun (i : nat) (price : number) =>
              ((num 20
                + (num (Z.of_nat i) / (nlength prices - num 1))
                  * (num 400 - num 2 * num 20))%js,
               (num 20
                + ((Math_max (map Fin qs) - price)
                   / or_else (Math_max (map Fin qs) - Math_min (map Fin qs))%js
                       (num 1))
                  * (num 200 - num 2 * num 20))%js))
           (validPrices column prices))).
    { intros column Hcol. apply List.Forall_forall. intros pt Hpt.
      apply list_elem_of_In, elem_of_lookup_imap_1 in Hpt.
      destruct Hpt as (i & price & -> & Hlook).
      assert (Hi : (i < length prices)%nat).
      { apply lookup_lt_Some in Hlook.
        destruct (validPrices_Fin column prices) as (vs & Hvs & Hvlen & _).
        rewrite Hvs, length_map in Hlook. lia. }
      apply list_elem_of_lookup_2, list_elem_of_In in Hlook.
      destruct (Hvalid column price Hcol Hlook) as (q & -> & Hq).
      destruct qs as [|q0 qs]; [destruct Hq|].
      destruct (Math_min_Fin q0 qs) as (lo & Hlo & Hloall & _).
      destruct (Math_max_Fin q0 qs) as (hi & Hhi & Hhiall).
      rewrite Hlo, Hhi.
      rewrite List.Forall_forall in Hloall, Hhiall.
      apply chart_point_inFrame;
        [exact Hlen|exact Hi|split; [apply Hloall|apply Hhiall]; exact Hq]. }
    split; apply Hline; [left|right]; reflexivity.
Qed.

Lemma createPriceChart_in_frame_witness :
  exists chart : PriceChart.t,
    createPriceChart sampleHistory = Some chart /\
    length (PriceChart.highPoints chart) = 4%nat /\
    Forall inFrame (PriceChart.highPoints chart) /\
    Forall inFrame (PriceChart.lowPoints chart).
Proof.
  destruct (createPriceChart sampleHistory) as [chart|] eqn:E;
    [|discriminate E].
  exists chart. split; [reflexivity|].
  split.
  - vm_compute in E. injection E as <-. reflexivity.
  - apply (proj2 (createPriceChart_in_frame sampleHistory) chart E).
Defined.

(** ** Synchronisation with the price API *)

Lemma upsertItem_lookup_ne (item : OSRSItem.t) (items : gmap Z ItemRow.t)
    (k : Z) :
  OSRSItem.id item <> k -> upsertItem item items !! k = items !! k.
Proof. intros Hne. unfold upsertItem. apply lookup_insert_ne. exact Hne. Qed.

Lemma upsertItem_lookup_eq (item : OSRSItem.t) (items : gmap Z ItemRow.t) :
  upsertItem item items !! OSRSItem.id item
  = Some (itemRowOf item (items !! OSRSItem.id item)).
Proof. unfold upsertItem. apply lookup_insert_eq. Qed.

Lemma upsertItem_grows (item : OSRSItem.t) (items : gmap Z ItemRow.t)
    (k : Z) :
  is_Some (items !! k) -> is_Some (upsertItem item items !! k).
Proof.
  intros Hk. destruct (decide (OSRSItem.id item = k)) as [<-|Hne].
  - rewrite upsertItem_lookup_eq. eexists. reflexivity.
  - rewrite upsertItem_lookup_ne by exact Hne. exact Hk.
Qed.

Lemma syncItems_other (mapping : list OSRSItem.t)
    (items : gmap Z ItemRow.t) (k : Z) :
  ~ In k (map OSRSItem.id mapping) -> syncItems mapping items !! k = items !! k.
Proof.
  unfold syncItems. revert items.
  induction mapping as [|item mapping IH]; intros items Hnot;
    cbn [fold_left].
  - reflexivity.
  - cbn [map In] in Hnot.
    rewrite IH by (intros H; apply Hnot; right; exact H).
    apply upsertItem_lookup_ne. intros E. apply Hnot. left. exact E.
Qed.

Lemma syncItems_entry (mapping : list OSRSItem.t)
    (items : gmap Z ItemRow.t) (item : OSRSItem.t) :
  NoDup (map OSRSItem.id mapping) -> In item mapping ->
  syncItems mapping items !! OSRSItem.id item
  = Some (itemRowOf item (items !! OSRSItem.id item)).
Proof.
  unfold syncItems. revert items.
  induction mapping as [|first mapping IH]; intros items Hnd Hin;
    [destruct Hin|].
  cbn [map] in Hnd. apply NoDup_cons in Hnd. destruct Hnd as [Hfirst Hnd].
  cbn [fold_left]. destruct Hin as [->|Hin].
  - fold (syncItems mapping (upsertItem item items)).
    rewrite syncItems_other
      by (intros H; apply Hfirst, list_elem_of_In; exact H).
    apply upsertItem_lookup_eq.
  - rewrite (IH _ Hnd Hin). rewrite upsertItem_lookup_ne; [reflexivity|].
    intros E. apply Hfirst. rewrite E. apply list_elem_of_In.
    apply in_map. exact Hin.
Qed.

Lemma syncItems_grows (mapping : list OSRSItem.t)
    (items : gmap Z ItemRow.t) (k : Z) :
  is_Some (items !! k) -> is_Some (syncItems mapping items !! k).
Proof.
  unfold syncItems. revert items.
  induction mapping as [|item mapping IH]; intros items Hk; cbn [fold_left].
  - exact Hk.
  - apply IH, upsertItem_grows, Hk.
Qed.

(** X24. After [syncItems], for a mapping whose ids are pairwise
    distinct: every item of the mapping is in the item table under its
    id, with the name of the mapping, its buy limit (0 when the mapping
    gives none), its members flag (false when the mapping gives none)
    and every optional property that the mapping gives; and the rows of
    the items that the mapping does not name are as they were. *)
Theorem syncItems_stored (mapping : list OSRSItem.t)
    (items : gmap Z ItemRow.t) :
  NoDup (map OSRSItem.id mapping) ->
  (forall item : OSRSItem.t,
     In item mapping ->
     exists row : ItemRow.t,
       syncItems mapping items !! OSRSItem.id item = Some row /\
       ItemRow.name row = OSRSItem.name item /\
       ItemRow.buyLimit row = orZero (OSRSItem.limit item) /\
       ItemRow.members row = default false (OSRSItem.members item) /\
       (is_Some (OSRSItem.icon item) ->
        ItemRow.icon row = OSRSItem.icon item) /\
       (is_Some (OSRSItem.examine item) ->
        ItemRow.examine row = OSRSItem.examine item) /\
       (is_Some (OSRSItem.lowalch item) ->
        ItemRow.lowalch row = OSRSItem.lowalch item) /\
       (is_Some (OSRSItem.highalch item) ->
        ItemRow.highalch row = OSRSItem.highalch item)) /\
  (forall k : Z,
     ~ In k (map OSRSItem.id mapping) ->
     syncItems mapping items !! k = items !! k).
Proof.
  intros Hnd. split; [|intros k; apply syncItems_other].
  intros item Hin. eexists. split; [apply syncItems_entry; assumption|].
  destruct (items !! OSRSItem.id item) as [row|]; cbn [itemRowOf];
    cbn [ItemRow.name ItemRow.buyLimit ItemRow.members ItemRow.icon
         ItemRow.examine ItemRow.lowalch ItemRow.highalch];
    repeat split; try reflexivity;
    intros [x Hx]; rewrite Hx; reflexivity.
Qed.

Lemma syncItems_stored_witness :
  exists row : ItemRow.t,
    syncItems sampleMapping (Database.items sampleDatabase) !! 2%Z
    = Some row /\
    ItemRow.name row = "B"%string /\ ItemRow.buyLimit row = 0%Q /\
    ItemRow.members row = true.
Proof.
  assert (Hnd : NoDup (map OSRSItem.id sampleMapping))
    by (apply (bool_decide_unpack _); vm_compute; exact I).
  destruct (proj1 (syncItems_stored sampleMapping
                     (Database.items sampleDatabase) Hnd)
              (OSRSItem.mk 2 "B" None (Some true) None None None
                 (Some "b.png"%string)))
    as (row & Hrow & Hname & Hlimit & Hmembers & _).
  - right. left. reflexivity.
  - exists row. repeat split; assumption.
Defined.

Lemma itemRowOf_again (item : OSRSItem.t) (existing : option ItemRow.t) :
  itemRowOf item (Some (itemRowOf item existing)) = itemRowOf item existing.
Proof.
  destruct item as [k n examine members lowalch highalch limit icon].
  destruct existing as [row|]; cbn [itemRowOf];
    cbn [ItemRow.name ItemRow.buyLimit ItemRow.members ItemRow.icon
         ItemRow.examine ItemRow.lowalch ItemRow.highalch
         OSRSItem.name OSRSItem.limit OSRSItem.members OSRSItem.icon
         OSRSItem.examine OSRSItem.lowalch OSRSItem.highalch];
    destruct examine, lowalch, highalch, icon; reflexivity.
Qed.

(** X25. [syncItems] is idempotent: for a mapping whose ids are pairwise
    distinct, running it a second time with the same mapping leaves the
    item table exactly as the first run left it. *)
Theorem syncItems_idempotent (mapping : list OSRSItem.t)
    (items : gmap Z ItemRow.t) :
  NoDup (map OSRSItem.id mapping) ->
  syncItems mapping (syncItems mapping items) = syncItems mapping items.
Proof.
  intros Hnd. apply map_eq. intros k.
  destruct (decide (k ∈ map OSRSItem.id mapping)) as [Hin|Hnot].
  - apply list_elem_of_In, in_map_iff in Hin. destruct Hin as (item & <- & Hin).
    rewrite !(syncItems_entry mapping _ item Hnd Hin).
    rewrite itemRowOf_again. reflexivity.
  - rewrite !syncItems_other
      by (intros H; apply Hnot, list_elem_of_In; exact H).
    reflexivity.
Qed.

Lemma syncItems_idempotent_witness :
  syncItems sampleMapping
    (syncItems sampleMapping (Database.items sampleDatabase))
  = syncItems sampleMapping (Database.items sampleDatabase).
Proof.
  apply (syncItems_idempotent sampleMapping (Database.items sampleDatabase)).
  apply (bool_decide_unpack _). vm_compute. exact I.
Defined.

Lemma indexById_lookup (itemMapping : list OSRSItem.t) (k : Z)
    (item : OSRSItem.t) :
  indexById itemMapping !! k = Some item ->
  In item itemMapping /\ OSRSItem.id item = k.
Proof.
  unfold indexById.
  assert (Hgen : forall (acc : gmap Z OSRSItem.t),
    fold_left
      (fun mappingById item => <[OSRSItem.id item := item]> mappingById)
      itemMapping acc !! k = Some item ->
    acc !! k = Some item \/ (In item itemMapping /\ OSRSItem.id item = k)).
  { induction itemMapping as [|first rest IH]; intros acc; cbn [fold_left].
    - intros H. left. exact H.
    - intros H. apply IH in H. destruct H as [H|[Hin Hid]].
      + destruct (decide (OSRSItem.id first = k)) as [E|Hne].
        * rewrite <- E, lookup_insert_eq in H. injection H as <-.
          right. split; [left; reflexivity|exact E].
        * rewrite lookup_insert_ne in H by exact Hne. left. exact H.
      + right. split; [right; exact Hin|exact Hid]. }
  intros H. apply Hgen in H. destruct H as [H|H]; [|exact H].
  rewrite lookup_empty in H. discriminate H.
Qed.

Lemma indexById_known (itemMapping : list OSRSItem.t) (k : Z) :
  In k (map OSRSItem.id itemMapping) -> is_Some (indexById itemMapping !! k).
Proof.
  unfold indexById. generalize (empty : gmap Z OSRSItem.t) as acc.
  induction itemMapping as [|first rest IH]; intros acc Hin;
    [destruct Hin|].
  cbn [fold_left].
  destruct (decide (k ∈ map OSRSItem.id rest)) as [Hrest|Hrest].
  - apply IH, list_elem_of_In. exact Hrest.
  - destruct Hin as [E|Hin];
      [|exfalso; apply Hrest, list_elem_of_In; exact Hin].
    assert (Hother : forall acc' : gmap Z OSRSItem.t,
      fold_left
        (fun mappingById item => <[OSRSItem.id item := item]> mappingById)
        rest acc' !! k = acc' !! k).
    { clear IH. induction rest as [|x rest IHr]; intros acc';
        cbn [fold_left]; [reflexivity|].
      rewrite IHr.
      - apply lookup_insert_ne. intros E'. apply Hrest. rewrite <- E'.
        cbn [map]. left.
      - intros H. apply Hrest. cbn [map]. right. exact H. }
    rewrite Hother, <- E, lookup_insert_eq. eexists. reflexivity.
Qed.

Section SyncPricesFacts.

Variable syncedMapping : list OSRSItem.t.
Variable refetchedMapping : list OSRSItem.t.

(** One turn of the loop of [syncPrices], with a mapping index that
    files every entry under its own id: the turn creates at most the
    record of its entry, for an item that is in the item table then, and
    takes no item away. *)
Lemma syncPrice_turn (state : SyncState.t) (entry : Z * OSRSPrice.t) :
  (forall k item,
     SyncState.mappingById state !! k = Some item -> OSRSItem.id item = k) ->
  let state' := syncPrice syncedMapping refetchedMapping state entry in
  (exists created : list PriceRow.t,
     SyncState.prices state' = SyncState.prices state ++ created /\
     created `sublist_of` pricedRows [entry] /\
     Forall (referenced (SyncState.items state')) created) /\
  (forall k : Z,
     is_Some (SyncState.items state !! k) ->
     is_Some (SyncState.items state' !! k)) /\
  (forall k item,
     SyncState.mappingById state' !! k = Some item -> OSRSItem.id item = k) /\
  ((SyncState.mappingRefetched state = true ->
    SyncState.mappingById state = indexById refetchedMapping) ->
   SyncState.mappingRefetched state' = true ->
   SyncState.mappingById state' = indexById refetchedMapping).
Proof using Type.
  intros Hindex.
  destruct entry as [itemId priceData]. unfold syncPrice, pricedRows.
  cbn [omap list_omap fst snd].
  destruct (negb (truthyOpt (OSRSPrice.high priceData))
            && negb (truthyOpt (OSRSPrice.low priceData))) eqn:Hskip.
  { cbv zeta. split; [|split; [tauto|split; [exact Hindex|tauto]]].
    exists []. rewrite app_nil_r. split; [reflexivity|].
    split; constructor. }
  assert (Hone : [priceRowOf itemId priceData]
                 `sublist_of` [priceRowOf itemId priceData])
    by reflexivity.
  assert (Hnil : [] `sublist_of` [priceRowOf itemId priceData])
    by apply sublist_nil_l.
  destruct (SyncState.items state !! itemId) as [existing|] eqn:Hexisting.
  { cbv zeta. cbn [SyncState.items SyncState.prices SyncState.mappingById
                   SyncState.mappingRefetched].
    split; [|split; [tauto|split; [exact Hindex|tauto]]].
    exists [priceRowOf itemId priceData]. split; [reflexivity|].
    split; [exact Hone|]. constructor; [|constructor].
    unfold referenced. cbn [PriceRow.itemId priceRowOf].
    rewrite Hexisting. eexists. reflexivity. }
  assert (Hupsert : forall (items : gmap Z ItemRow.t) (mapped : OSRSItem.t),
    OSRSItem.id mapped = itemId ->
    Forall (referenced (upsertItem mapped items))
      [priceRowOf itemId priceData]).
  { intros items mapped <-. constructor; [|constructor].
    unfold referenced. cbn [PriceRow.itemId priceRowOf].
    rewrite upsertItem_lookup_eq. eexists. reflexivity. }
  destruct (SyncState.mappingById state !! itemId) as [mapped|] eqn:Hmapped.
  { cbv zeta. rewrite Hmapped.
    cbn [SyncState.items SyncState.prices SyncState.mappingById
         SyncState.mappingRefetched].
    split; [|split; [|split; [exact Hindex|tauto]]].
    - exists [priceRowOf itemId priceData]. split; [reflexivity|].
      split; [exact Hone|]. apply Hupsert. apply (Hindex _ _ Hmapped).
    - intros k. apply upsertItem_grows. }
  destruct (SyncState.mappingRefetched state) eqn:Hflag; cbn [negb]; cbv zeta.
  { rewrite Hmapped. split; [|split; [tauto|split; [exact Hindex|tauto]]].
    exists []. rewrite app_nil_r. split; [reflexivity|].
    split; [exact Hnil|constructor]. }
  cbn [SyncState.items SyncState.prices SyncState.mappingById
       SyncState.mappingRefetched].
  assert (Hindex' : forall k item,
    indexById refetchedMapping !! k = Some item -> OSRSItem.id item = k)
    by (intros k item H; apply (indexById_lookup _ _ _ H)).
  destruct (indexById refetchedMapping !! itemId) as [mapped|] eqn:Hre;
    cbn [SyncState.items SyncState.prices SyncState.mappingById
         SyncState.mappingRefetched].
  - split; [|split; [|split; [exact Hindex'|reflexivity]]].
    + exists [priceRowOf itemId priceData]. split; [reflexivity|].
      split; [exact Hone|]. apply Hupsert. apply (Hindex' _ _ Hre).
    + intros k Hk. apply upsertItem_grows, syncItems_grows, Hk.
  - split; [|split; [|split; [exact Hindex'|reflexivity]]].
    + exists []. rewrite app_nil_r. split; [reflexivity|].
      split; [exact Hnil|constructor].
    + intros k Hk. apply syncItems_grows, Hk.
Qed.

Lemma pricedRows_cons (entry : Z * OSRSPrice.t)
    (latestPrices : list (Z * OSRSPrice.t)) :
  pricedRows (entry :: latestPrices)
  = pricedRows [entry] ++ pricedRows latestPrices.
Proof.
  unfold pricedRows. cbn [omap list_omap].
  destruct (negb _ && negb _); reflexivity.
Qed.

Lemma referenced_grows (items items' : gmap Z ItemRow.t)
    (rows : list PriceRow.t) :
  (forall k : Z, is_Some (items !! k) -> is_Some (items' !! k)) ->
  Forall (referenced items) rows -> Forall (referenced items') rows.
Proof.
  intros Hgrow. apply List.Forall_impl. intros row. apply Hgrow.
Qed.

(** The whole loop. *)
Lemma syncPrices_loop (latestPrices : list (Z * OSRSPrice.t))
    (state : SyncState.t) :
  (forall k item,
     SyncState.mappingById state !! k = Some item -> OSRSItem.id item = k) ->
  let final :=
    fold_left (syncPrice syncedMapping refetchedMapping) latestPrices state in
  (exists created : list PriceRow.t,
     SyncState.prices final = SyncState.prices state ++ created /\
     created `sublist_of` pricedRows latestPrices /\
     Forall (referenced (SyncState.items final)) created) /\
  (forall k : Z,
     is_Some (SyncState.items state !! k) ->
     is_Some (SyncState.items final !! k)).
Proof using Type.
  revert state.
  induction latestPrices as [|entry rest IH]; intros state Hindex;
    cbn [fold_left]; cbv zeta.
  - split; [|tauto]. exists []. rewrite app_nil_r.
    split; [reflexivity|]. split; constructor.
  - destruct (syncPrice_turn state entry Hindex)
      as ((first & Hfirst & Hsub1 & Href1) & Hgrow1 & Hindex1 & _).
    destruct (IH _ Hindex1) as ((more & Hmore & Hsub2 & Href2) & Hgrow2).
    split.
    + exists (first ++ more). rewrite Hmore, Hfirst, app_assoc.
      split; [reflexivity|]. split.
      * rewrite pricedRows_cons. apply sublist_app; assumption.
      * apply Forall_app. split; [|exact Href2].
        eapply referenced_grows; [exact Hgrow2|exact Href1].
    + intros k Hk. apply Hgrow2, Hgrow1, Hk.
Qed.

(** A turn whose entry has a price, for an item that is in the item
    table or in the mapping that a re-sync fetches, creates the record
    of the entry. *)
Lemma syncPrice_stores (state : SyncState.t) (itemId : Z)
    (priceData : OSRSPrice.t) :
  (forall k item,
     SyncState.mappingById state !! k = Some item -> OSRSItem.id item = k) ->
  (SyncState.mappingRefetched state = true ->
   SyncState.mappingById state = indexById refetchedMapping) ->
  truthyOpt (OSRSPrice.high priceData) || truthyOpt (OSRSPrice.low priceData)
  = true ->
  is_Some (SyncState.items state !! itemId) \/
  In itemId (map OSRSItem.id refetchedMapping) ->
  let state' :=
    syncPrice syncedMapping refetchedMapping state (itemId, priceData) in
  SyncState.prices state'
  = SyncState.prices state ++ [priceRowOf itemId priceData] /\
  is_Some (SyncState.items state' !! itemId).
Proof using Type.
  intros Hindex Hre Hpriced Hknown. unfold syncPrice.
  assert (Hskip : negb (truthyOpt (OSRSPrice.high priceData))
                  && negb (truthyOpt (OSRSPrice.low priceData)) = false).
  { destruct (truthyOpt (OSRSPrice.high priceData)),
             (truthyOpt (OSRSPrice.low priceData));
      try reflexivity; discriminate Hpriced. }
  rewrite Hskip.
  destruct (SyncState.items state !! itemId) as [existing|] eqn:Hexisting.
  { cbv zeta. cbn [SyncState.items SyncState.prices].
    split; [reflexivity|]. rewrite Hexisting. eexists. reflexivity. }
  destruct Hknown as [[x Hx]|Hknown]; [discriminate Hx|].
  apply indexById_known in Hknown. destruct Hknown as [known Hknown].
  assert (Hstored : forall (items : gmap Z ItemRow.t) (mapped : OSRSItem.t),
    OSRSItem.id mapped = itemId ->
    is_Some (upsertItem mapped items !! itemId)).
  { intros items mapped <-. rewrite upsertItem_lookup_eq. eexists.
    reflexivity. }
  destruct (SyncState.mappingById state !! itemId) as [mapped|] eqn:Hmapped.
  { cbv zeta. rewrite Hmapped. cbn [SyncState.items SyncState.prices].
    split; [reflexivity|]. apply Hstored, (Hindex _ _ Hmapped). }
  destruct (SyncState.mappingRefetched state) eqn:Hflag.
  { rewrite (Hre eq_refl), Hknown in Hmapped. discriminate Hmapped. }
  cbn [negb]. cbv zeta. cbn [SyncState.mappingById]. rewrite Hknown.
  cbn [SyncState.items SyncState.prices].
  split; [reflexivity|].
  apply Hstored, (indexById_lookup _ _ _ Hknown).
Qed.

Lemma syncPrices_loop_stores (latestPrices : list (Z * OSRSPrice.t))
    (state : SyncState.t) (itemId : Z) (priceData : OSRSPrice.t) :
  (forall k item,
     SyncState.mappingById state !! k = Some item -> OSRSItem.id item = k) ->
  (SyncState.mappingRefetched state = true ->
   SyncState.mappingById state = indexById refetchedMapping) ->
  In (itemId, priceData) latestPrices ->
  truthyOpt (OSRSPrice.high priceData) || truthyOpt (OSRSPrice.low priceData)
  = true ->
  is_Some (SyncState.items state !! itemId) \/
  In itemId (map OSRSItem.id refetchedMapping) ->
  let final :=
    fold_left (syncPrice syncedMapping refetchedMapping) latestPrices state in
  (exists created : list PriceRow.t,
     SyncState.prices final = SyncState.prices state ++ created /\
     In (priceRowOf itemId priceData) created) /\
  is_Some (SyncState.items final !! itemId).
Proof using Type.
  revert state.
  induction latestPrices as [|entry rest IH];
    intros state Hindex Hre Hin Hpriced Hknown; [destruct Hin|].
  cbn [fold_left]. cbv zeta.
  destruct (syncPrice_turn state entry Hindex)
    as ((first & Hfirst & _ & _) & Hgrow1 & Hindex1 & Hre1).
  specialize (Hre1 Hre).
  destruct Hin as [->|Hin].
  - destruct (syncPrice_stores state itemId priceData Hindex Hre Hpriced
                Hknown) as [Hrow Hitem].
    destruct (syncPrices_loop rest _ Hindex1)
      as ((more & Hmore & _ & _) & Hgrow2).
    split.
    + exists ([priceRowOf itemId priceData] ++ more).
      rewrite Hmore, Hrow, app_assoc. split; [reflexivity|].
      left. reflexivity.
    + apply Hgrow2, Hitem.
  - destruct (IH _ Hindex1 Hre1 Hin Hpriced)
      as ((created & Hcreated & Hrow) & Hitem).
    { destruct Hknown as [Hk|Hk]; [left; apply Hgrow1, Hk|right; exact Hk]. }
    split; [|exact Hitem].
    exists (first ++ created). rewrite Hcreated, Hfirst, app_assoc.
    split; [reflexivity|]. apply in_or_app. right. exact Hrow.
Qed.

End SyncPricesFacts.

Lemma pricedRows_priced (latestPrices : list (Z * OSRSPrice.t))
    (row : PriceRow.t) :
  In row (pricedRows latestPrices) ->
  (is_Some (PriceRow.high row) \/ is_Some (PriceRow.low row)) /\
  (forall q : Q, PriceRow.high row = Some q -> ~ (q == 0)%Q) /\
  (forall q : Q, PriceRow.low row = Some q -> ~ (q == 0)%Q).
Proof.
  unfold pricedRows. intros Hin.
  apply list_elem_of_In, list_elem_of_omap in Hin.
  destruct Hin as ([itemId priceData] & _ & Hrow). cbn [fst snd] in Hrow.
  destruct (negb (truthyOpt (OSRSPrice.high priceData))
            && negb (truthyOpt (OSRSPrice.low priceData))) eqn:Hskip;
    [discriminate Hrow|].
  injection Hrow as <-. cbn [priceRowOf PriceRow.high PriceRow.low].
  destruct priceData as [high low highTime lowTime].
  cbn [OSRSPrice.high OSRSPrice.low] in *.
  unfold truthyOpt in Hskip. unfold orNull.
  split; [|split].
  - destruct high as [h|], low as [l|]; cbn [negb andb] in Hskip;
      try discriminate Hskip;
      try (destruct (Qeq_bool h 0)); try (destruct (Qeq_bool l 0));
      cbn [negb andb] in Hskip; try discriminate Hskip;
      first [left; eexists; reflexivity|right; eexists; reflexivity].
  - intros q. destruct high as [h|]; [|discriminate].
    destruct (Qeq_bool h 0) eqn:E; [discriminate|].
    intros H. injection H as <-. qprop. exact E.
  - intros q. destruct low as [l|]; [|discriminate].
    destruct (Qeq_bool l 0) eqn:E; [discriminate|].
    intros H. injection H as <-. qprop. exact E.
Qed.

(** X26. [syncPrices] only adds price records, and every record it adds
    is sound: the records of the table before are kept, in front; the
    records created are, in their order, records of entries of the
    latest prices that have a high or a low price, each with at least
    one price and with no price of 0; and each belongs to an item that
    is in the item table afterwards.  No item is taken away; so when
    every price record had its item before, every price record has its
    item afterwards. *)
Theorem syncPrices_sound (syncedMapping refetchedMapping : list OSRSItem.t)
    (latestPrices : list (Z * OSRSPrice.t)) (itemMapping : list OSRSItem.t)
    (database : Database.t) :
  let database' :=
    syncPrices syncedMapping refetchedMapping latestPrices itemMapping
      database in
  (exists created : list PriceRow.t,
     Database.prices database' = Database.prices database ++ created /\
     created `sublist_of` pricedRows latestPrices /\
     Forall (fun row =>
               referenced (Database.items database') row /\
               (is_Some (PriceRow.high row) \/ is_Some (PriceRow.low row)) /\
               (forall q : Q, PriceRow.high row = Some q -> ~ (q == 0)%Q) /\
               (forall q : Q, PriceRow.low row = Some q -> ~ (q == 0)%Q))
       created) /\
  (forall k : Z,
     is_Some (Database.items database !! k) ->
     is_Some (Database.items database' !! k)) /\
  (Forall (referenced (Database.items database)) (Database.prices database)
   -> Forall (referenced (Database.items database'))
        (Database.prices database')).
Proof.
  intros database'. subst database'. unfold syncPrices.
  cbn [Database.items Database.prices].
  destruct (syncPrices_loop syncedMapping refetchedMapping latestPrices
              (SyncState.mk (Database.items database)
                 (Database.prices database) (indexById itemMapping) false))
    as ((created & Hcreated & Hsub & Href) & Hgrow).
  { cbn [SyncState.mappingById]. intros k item H.
    apply (indexById_lookup _ _ _ H). }
  cbn [SyncState.items SyncState.prices] in Hcreated, Hgrow.
  split; [|split].
  - exists created. split; [exact Hcreated|]. split; [exact Hsub|].
    apply List.Forall_forall. intros row Hrow. split.
    + rewrite List.Forall_forall in Href. apply Href. exact Hrow.
    + apply (pricedRows_priced latestPrices).
      apply list_elem_of_In. eapply elem_of_sublist; [|exact Hsub].
      apply list_elem_of_In. exact Hrow.
  - exact Hgrow.
  - intros Hbefore. rewrite Hcreated. apply Forall_app. split.
    + eapply referenced_grows; [exact Hgrow|exact Hbefore].
    + exact Href.
Qed.

Lemma syncPrices_sound_witness :
  Forall
    (referenced
       (Database.items
          (syncPrices sampleRefetchedMapping sampleRefetchedMapping
             sampleLatestPrices sampleMapping sampleDatabase)))
    (Database.prices
       (syncPrices sampleRefetchedMapping sampleRefetchedMapping
          sampleLatestPrices sampleMapping sampleDatabase)).
Proof.
  apply (proj2 (proj2 (syncPrices_sound sampleRefetchedMapping
                         sampleRefetchedMapping sampleLatestPrices
                         sampleMapping sampleDatabase))).
  constructor; [|constructor].
  exists (ItemRow.mk "A" 0 None None false None None). reflexivity.
Defined.

(** X27. [syncPrices] drops no price that it can place: for every entry
    of the latest prices that has a high or a low price, and whose item
    is in the item table already or in the mapping that a re-sync
    fetches, the record of the entry is among the records created, and
    the item is in the item table afterwards, created from the mapping
    if it was missing. *)
Theorem syncPrices_complete (syncedMapping refetchedMapping : list OSRSItem.t)
    (latestPrices : list (Z * OSRSPrice.t)) (itemMapping : list OSRSItem.t)
    (database : Database.t) (itemId : Z) (priceData : OSRSPrice.t) :
  In (itemId, priceData) latestPrices ->
  truthyOpt (OSRSPrice.high priceData) || truthyOpt (OSRSPrice.low priceData)
  = true ->
  is_Some (Database.items database !! itemId) \/
  In itemId (map OSRSItem.id refetchedMapping) ->
  let database' :=
    syncPrices syncedMapping refetchedMapping latestPrices itemMapping
      database in
  (exists created : list PriceRow.t,
     Database.prices database' = Database.prices database ++ created /\
     In (priceRowOf itemId priceData) created) /\
  is_Some (Database.items database' !! itemId).
Proof.
  intros Hin Hpriced Hknown database'. subst database'. unfold syncPrices.
  cbn [Database.items Database.prices].
  apply (syncPrices_loop_stores syncedMapping refetchedMapping latestPrices
           (SyncState.mk (Database.items database)
              (Database.prices database) (indexById itemMapping) false)
           itemId priceData).
  - cbn [SyncState.mappingById]. intros k item H.
    apply (indexById_lookup _ _ _ H).
  - cbn [SyncState.mappingRefetched]. discriminate.
  - exact Hin.
  - exact Hpriced.
  - exact Hknown.
Qed.

Lemma syncPrices_complete_witness :
  is_Some
    (Database.items
       (syncPrices sampleRefetchedMapping sampleRefetchedMapping
          sampleLatestPrices sampleMapping sampleDatabase) !! 9%Z).
Proof.
  apply (syncPrices_complete sampleRefetchedMapping sampleRefetchedMapping
           sampleLatestPrices sampleMapping sampleDatabase 9
           (OSRSPrice.mk (Some 90%Q) (Some 80%Q) None None)).
  - vm_compute. tauto.
  - reflexivity.
  - right. vm_compute. tauto.
Defined.

(** X28. In the steady state [syncPrices] leaves the item table alone:
    when the item of every entry that has a high or a low price is in
    the item table already, the item table afterwards is the item table
    before, whatever the mappings hold, and the records created are
    exactly the records of the entries that have a price, one for each,
    in the order of the latest prices. *)
Theorem syncPrices_steady (syncedMapping refetchedMapping : list OSRSItem.t)
    (latestPrices : list (Z * OSRSPrice.t)) (itemMapping : list OSRSItem.t)
    (database : Database.t) :
  (forall (itemId : Z) (priceData : OSRSPrice.t),
     In (itemId, priceData) latestPrices ->
     truthyOpt (OSRSPrice.high priceData)
     || truthyOpt (OSRSPrice.low priceData) = true ->
     is_Some (Database.items database !! itemId)) ->
  syncPrices syncedMapping refetchedMapping latestPrices itemMapping database
  = Database.mk (Database.items database)
      (Database.prices database ++ pricedRows latestPrices).
Proof.
  intros Hknown. unfold syncPrices.
  assert (Hloop : forall (prices : list PriceRow.t),
    fold_left (syncPrice syncedMapping refetchedMapping) latestPrices
      (SyncState.mk (Database.items database) prices
         (indexById itemMapping) false)
    = SyncState.mk (Database.items database)
        (prices ++ pricedRows latestPrices) (indexById itemMapping) false).
  { induction latestPrices as [|[itemId priceData] rest IH]; intros prices;
      cbn [fold_left].
    - unfold pricedRows. cbn [omap list_omap]. rewrite app_nil_r.
      reflexivity.
    - rewrite pricedRows_cons. unfold pricedRows at 1.
      cbn [omap list_omap fst snd]. unfold syncPrice at 2.
      destruct (negb (truthyOpt (OSRSPrice.high priceData))
                && negb (truthyOpt (OSRSPrice.low priceData))) eqn:Hskip.
      + rewrite IH; [reflexivity|].
        intros k pd Hin. apply Hknown. right. exact Hin.
      + destruct (Hknown itemId priceData) as [existing Hexisting].
        * left. reflexivity.
        * destruct (truthyOpt (OSRSPrice.high priceData)),
                   (truthyOpt (OSRSPrice.low priceData));
            try reflexivity; discriminate Hskip.
        * cbn [SyncState.items SyncState.prices SyncState.mappingById
               SyncState.mappingRefetched].
          rewrite Hexisting. rewrite IH.
          -- rewrite <- app_assoc. reflexivity.
          -- intros k pd Hin. apply Hknown. right. exact Hin. }
  rewrite Hloop. reflexivity.
Qed.

Lemma syncPrices_steady_witness :
  syncPrices sampleRefetchedMapping sampleRefetchedMapping
    (take 1 sampleLatestPrices) sampleMapping sampleDatabase
  = Database.mk (Database.items sampleDatabase)
      (Database.prices sampleDatabase
       ++ pricedRows (take 1 sampleLatestPrices)).
Proof.
  apply (syncPrices_steady sampleRefetchedMapping sampleRefetchedMapping
           (take 1 sampleLatestPrices) sampleMapping sampleDatabase).
  intros itemId priceData [E|[]] _. injection E as <- _.
  exists (ItemRow.mk "A" 0 None None false None None). reflexivity.
Defined.

(** ** The historical sync *)

Lemma StronglySorted_app_order {A} (R : A -> A -> Prop) (l1 l2 : list A) :
  StronglySorted R (l1 ++ l2) ->
  forall a b : A, In a l1 -> In b l2 -> R a b.
Proof.
  induction l1 as [|x l1 IH]; intros Hs a b Ha Hb; [destruct Ha|].
  cbn [app] in Hs. inversion Hs as [|? ? Hs' Hx]; subst.
  destruct Ha as [->|Ha].
  - rewrite List.Forall_forall in Hx. apply Hx, in_or_app. right. exact Hb.
  - apply IH; assumption.
Qed.

Lemma List_filter_sublist {A} (p : A -> bool) (l : list A) :
  List.filter p l `sublist_of` l.
Proof.
  induction l as [|x l IH]; cbn [List.filter].
  - constructor.
  - destruct (p x); constructor; exact IH.
Qed.

Lemma topIdsOf_length (volumeEntries : list (Z * Q)) :
  (length (topIdsOf volumeEntries) <= 100)%nat.
Proof.
  unfold topIdsOf. rewrite length_map, length_take. lia.
Qed.

(** Every id of [topIds] has an entry whose volume is not below the
    volume of any entry that was left out. *)
Lemma topIdsOf_top (volumeEntries : list (Z * Q)) (id : Z) :
  In id (topIdsOf volumeEntries) ->
  exists v : Q,
    In (id, v) volumeEntries /\
    forall (k : Z) (v' : Q),
      In (k, v') volumeEntries -> ~ In k (topIdsOf volumeEntries) ->
      (v' <= v)%Q.
Proof.
  unfold topIdsOf.
  set (sorted := Array_sort (fun a b => (Fin (snd b) - Fin (snd a))%js)
                   volumeEntries).
  intros Hid. apply in_map_iff in Hid. destruct Hid as ([id' v] & E & Hin).
  cbn [fst] in E. subst id'.
  exists v. split.
  - apply (Array_sort_In (fun a b => (Fin (snd b) - Fin (snd a))%js)).
    apply list_elem_of_In. eapply subseteq_take. apply list_elem_of_In.
    exact Hin.
  - intros k v' Hk Hnot.
    assert (Hsorted : StronglySorted (keyDesc (fun e : Z * Q => Fin (snd e)))
                        (take 100 sorted ++ drop 100 sorted)).
    { rewrite take_drop. subst sorted.
      apply (Array_sort_sorted (fun e : Z * Q => Fin (snd e))).
      apply List.Forall_forall. intros e _. reflexivity. }
    assert (Hdrop : In (k, v') (drop 100 sorted)).
    { apply (Array_sort_In (fun a b => (Fin (snd b) - Fin (snd a))%js)) in Hk.
      fold sorted in Hk. rewrite <- (take_drop 100 sorted) in Hk.
      apply in_app_or in Hk. destruct Hk as [Hk|Hk]; [|exact Hk].
      exfalso. apply Hnot. apply in_map_iff. exists (k, v').
      split; [reflexivity|exact Hk]. }
    pose proof (StronglySorted_app_order _ _ _ Hsorted _ _ Hin Hdrop) as Hle.
    unfold keyDesc, nge in Hle. cbn [snd nle] in Hle. qprop. exact Hle.
Qed.

(** X29. The historical sync fetches the most traded items: its targets
    are at most 100 ids of the volume entries; as long as the sync has
    not been done, each target has a volume entry that is not below the
    entry of any item left out; and once it has been done, the targets
    are those of these ids that are missing from the price history, in
    the same order. *)
Theorem historyTargets_top (missingHistory : list Z)
    (volumeEntries : list (Z * Q)) :
  (forall historyDone : bool,
     (length (historyTargets historyDone missingHistory volumeEntries)
      <= 100)%nat) /\
  (forall id : Z,
     In id (historyTargets false missingHistory volumeEntries) ->
     exists v : Q,
       In (id, v) volumeEntries /\
       forall (k : Z) (v' : Q),
         In (k, v') volumeEntries ->
         ~ In k (historyTargets false missingHistory volumeEntries) ->
         (v' <= v)%Q) /\
  historyTargets true missingHistory volumeEntries
  `sublist_of` historyTargets false missingHistory volumeEntries /\
  (forall id : Z,
     In id (historyTargets true missingHistory volumeEntries) <->
     In id (historyTargets false missingHistory volumeEntries) /\
     In id missingHistory).
Proof.
  unfold historyTargets. cbv zeta. split; [|split; [|split]].
  - intros [|]; [|apply topIdsOf_length].
    etransitivity; [|apply (topIdsOf_length volumeEntries)].
    apply sublist_length, List_filter_sublist.
  - apply topIdsOf_top.
  - apply List_filter_sublist.
  - intros id. rewrite List.filter_In. split.
    + intros [Htop Hmiss]. split; [exact Htop|].
      apply existsb_exists in Hmiss. destruct Hmiss as (m & Hm & E).
      apply Z.eqb_eq in E. subst m. exact Hm.
    + intros [Htop Hmiss]. split; [exact Htop|].
      apply existsb_exists. exists id. split; [exact Hmiss|].
      apply Z.eqb_refl.
Qed.

Lemma historyTargets_top_witness :
  exists v : Q,
    In (3%Z, v) sampleVolumeEntries /\
    forall (k : Z) (v' : Q),
      In (k, v') sampleVolumeEntries ->
      ~ In k (historyTargets false [] sampleVolumeEntries) ->
      (v' <= v)%Q.
Proof.
  apply (proj1 (proj2 (historyTargets_top [] sampleVolumeEntries)) 3%Z).
  vm_compute. tauto.
Defined.



Section HistoricalSyncFacts.

Variable fetch1hHistory : Z -> list OSRS1hPriceEntry.t.



End HistoricalSyncFacts.

